(** * discord-youtube-richembedded: the [!rec] command pipeline

    A shallow embedding of [main.go]: the identifier extractor
    ([getVideoID]), the metadata mapper (the body of [messageHandler]
    that fills a [recommend]), the two card renderers ([sendError],
    [sendRecommend]) and the dispatcher ([messageHandler]).

    Go strings are byte sequences, and so are Rocq's [string]s (one
    [ascii] per byte); string literals below that hold Japanese text
    are their UTF-8 bytes, as in the Go source file.

    The program leans on library packages ([strings], [net/url],
    [time], [github.com/senseyeio/duration]).  Each one is modelled in
    a module of its own name, function by function, for the functions
    the program reaches. *)

From Stdlib Require Import String Ascii List ZArith NArith Lia Bool.
From Stdlib Require Import DecimalString.
Import ListNotations.
Open Scope string_scope.
Open Scope bool_scope.

(** ** Bytes *)

Definition byte_in (lo hi c : ascii) : bool :=
  (N_of_ascii lo <=? N_of_ascii c)%N && (N_of_ascii c <=? N_of_ascii hi)%N.

Definition isDigit (c : ascii) : bool := byte_in "0" "9" c.
Definition isLower (c : ascii) : bool := byte_in "a" "z" c.
Definition isUpper (c : ascii) : bool := byte_in "A" "Z" c.
Definition isLetter (c : ascii) : bool := isLower c || isUpper c.

(** [c] is one of the bytes of [set]. *)
Fixpoint byte_of (set : string) (c : ascii) : bool :=
  match set with
  | EmptyString => false
  | String d set' => Ascii.eqb c d || byte_of set' c
  end.

(** The double quote, byte 34. *)
Definition dquote : ascii := ascii_of_N 34.

(** The longest run of decimal digits at the head of [s], and the rest. *)
Fixpoint digits_prefix (s : string) : string * string :=
  match s with
  | EmptyString => (EmptyString, EmptyString)
  | String c s' =>
      if isDigit c
      then let '(ds, rest) := digits_prefix s' in (String c ds, rest)
      else (EmptyString, s)
  end.

(** [s[n:]] and [s[:n]] for [n <= len(s)]. *)
Fixpoint slice_from (n : nat) (s : string) : string :=
  match n, s with
  | O, _ => s
  | S _, EmptyString => EmptyString
  | S n', String _ s' => slice_from n' s'
  end.

Fixpoint slice_to (n : nat) (s : string) : string :=
  match n, s with
  | O, _ => EmptyString
  | S _, EmptyString => EmptyString
  | S n', String c s' => String c (slice_to n' s')
  end.

Fixpoint forallb_string (p : ascii -> bool) (s : string) : bool :=
  match s with
  | EmptyString => true
  | String c s' => p c && forallb_string p s'
  end.

Fixpoint existsb_string (p : ascii -> bool) (s : string) : bool :=
  match s with
  | EmptyString => false
  | String c s' => p c || existsb_string p s'
  end.

(** ** Package [strings] *)

Module strings.

Definition HasPrefix (s prefix : string) : bool := String.prefix prefix s.

Definition TrimPrefix (s prefix : string) : string :=
  if HasPrefix s prefix then slice_from (String.length prefix) s else s.

Definition HasSuffix (s suffix : string) : bool :=
  (String.length suffix <=? String.length s)%nat
  && String.eqb (slice_from (String.length s - String.length suffix) s) suffix.

(** [Index] returns [None] where Go returns [-1]. *)
Fixpoint Index (s substr : string) : option nat :=
  if HasPrefix s substr then Some O
  else match s with
       | EmptyString => None
       | String _ s' => option_map S (Index s' substr)
       end.

Fixpoint LastIndex (s substr : string) : option nat :=
  match s with
  | EmptyString => if HasPrefix s substr then Some O else None
  | String _ s' =>
      match LastIndex s' substr with
      | Some i => Some (S i)
      | None => if HasPrefix s substr then Some O else None
      end
  end.

Definition Contains (s substr : string) : bool :=
  match Index s substr with Some _ => true | None => false end.

(** [Cut] slices [s] around the first instance of [sep]. *)
Definition Cut (s sep : string) : string * string * bool :=
  match Index s sep with
  | Some i => (slice_to i s, slice_from (i + String.length sep) s, true)
  | None => (s, EmptyString, false)
  end.

(** Non-overlapping instances of a non-empty [substr]; [skip] bytes
    of the instance just counted are passed over. *)
Fixpoint Count_from (skip : nat) (s substr : string) : nat :=
  match s with
  | EmptyString => O
  | String _ s' =>
      match skip with
      | S k => Count_from k s' substr
      | O => if HasPrefix s substr
             then S (Count_from (String.length substr - 1) s' substr)
             else Count_from O s' substr
      end
  end.

Definition Count (s substr : string) : nat := Count_from O s substr.

(** [Split] for a non-empty separator: the pieces between the
    non-overlapping instances of [sep], so [Count s sep + 1] of them.
    [cur] is the piece being read, [skip] the bytes of the separator
    still to pass over. *)
Fixpoint Split_from (skip : nat) (cur : string) (s sep : string) : list string :=
  match s with
  | EmptyString => [cur]
  | String c s' =>
      match skip with
      | S k => Split_from k cur s' sep
      | O => if HasPrefix s sep
             then cur :: Split_from (String.length sep - 1) EmptyString s' sep
             else Split_from O (cur ++ String c EmptyString) s' sep
      end
  end.

Definition Split (s sep : string) : list string := Split_from O EmptyString s sep.

(** [ToLower] on ASCII text (its only use is on a URL scheme, which
    holds ASCII letters, digits, [+], [-] and [.] only). *)
Definition lower (c : ascii) : ascii :=
  if isUpper c then ascii_of_N (N_of_ascii c + 32) else c.

Fixpoint ToLower (s : string) : string :=
  match s with
  | EmptyString => EmptyString
  | String c s' => String (lower c) (ToLower s')
  end.

End strings.

(** ** Package [strconv] and the [%d] verb *)

Module strconv.

(** The platform's [int] is 64 bits wide. *)
Definition maxInt : Z := 9223372036854775807.

Definition Itoa (i : Z) : string := NilZero.string_of_int (Z.to_int i).

Fixpoint digits_value (acc : Z) (s : string) : Z :=
  match s with
  | EmptyString => acc
  | String c s' => digits_value (10 * acc + Z.of_N (N_of_ascii c - 48)) s'
  end.

(** [Atoi] on a non-empty run of decimal digits (the only inputs it
    receives here): [None] is the range error of a value that does
    not fit [int]. *)
Definition Atoi (s : string) : option Z :=
  let v := digits_value 0 s in
  if (v <=? maxInt)%Z then Some v else None.

End strconv.

(** ** Failing library calls

    A Go call that returns [(value, error)] and whose value is only
    read when the error is [nil] is a sum: [inr value] or [inl error]. *)

Definition bind {E A B : Type} (m : E + A) (k : A -> E + B) : E + B :=
  match m with
  | inl e => inl e
  | inr a => k a
  end.

Notation "x <- m ;; k" := (bind m (fun x => k))
  (at level 61, m at next level, right associativity).
Notation "' p <- m ;; k" := (bind m (fun x => let 'p := x in k))
  (at level 61, p pattern, m at next level, right associativity).

(** ** Package [net/netip]

    [ParseAddr], which [net/url] calls on a host written in brackets. *)

Module netip.

(** [parseAddrError] *)
Record parseAddrError := { in_ : string; msg : string; at_ : string }.

(** Of an [Addr], what its callers here read: its family, [Is4()],
    and its zone. *)
Record Addr := { Is4 : bool; Zone : string }.

Definition ishex (c : ascii) : bool :=
  isDigit c || byte_in "a" "f" c || byte_in "A" "F" c.

Definition unhex (c : ascii) : N :=
  if isDigit c then N_of_ascii c - 48
  else if byte_in "a" "f" c then N_of_ascii c - 97 + 10
  else if byte_in "A" "F" c then N_of_ascii c - 65 + 10
  else 0.

(** [parseIPv4Fields(in, off, end, fields)] on [s = in[off:end]]:
    [first] says [i == 0], [prevDot] that [s[i-1]] is a dot. *)
Fixpoint parseIPv4Fields_loop (input : string) (s : string) (first prevDot : bool)
    (val : Z) (pos digLen : nat) : option parseAddrError :=
  match s with
  | EmptyString =>
      if (pos <? 3)%nat
      then Some {| in_ := input; msg := "IPv4 address too short"; at_ := "" |}
      else None
  | String c s' =>
      if isDigit c then
        if Nat.eqb digLen 1 && (val =? 0)%Z
        then Some {| in_ := input; msg := "IPv4 field has octet with leading zero";
                     at_ := "" |}
        else
          let val := (val * 10 + Z.of_N (N_of_ascii c - 48))%Z in
          if (255 <? val)%Z
          then Some {| in_ := input; msg := "IPv4 field has value >255"; at_ := "" |}
          else parseIPv4Fields_loop input s' false false val pos (S digLen)
      else if Ascii.eqb c "." then
        if first || String.eqb s' "" || prevDot
        then Some {| in_ := input; msg := "IPv4 field must have at least one digit";
                     at_ := s |}
        else if Nat.eqb pos 3
        then Some {| in_ := input; msg := "IPv4 address too long"; at_ := "" |}
        else parseIPv4Fields_loop input s' false true 0 (S pos) 0
      else Some {| in_ := input; msg := "unexpected character"; at_ := s |}
  end.

Definition parseIPv4Fields (input s : string) : option parseAddrError :=
  parseIPv4Fields_loop input s true false 0 0 0.

Definition parseIPv4 (s : string) : parseAddrError + Addr :=
  match parseIPv4Fields s s with
  | Some e => inl e
  | None => inr {| Is4 := true; Zone := "" |}
  end.

(** The hex number at the head of [s]: its digits counted in [off],
    its value in [acc], and what follows it; or the message of the
    error. *)
Fixpoint hex_loop (s : string) (off : nat) (acc : N) : string + (nat * N * string) :=
  match s with
  | EmptyString => inr (off, acc, EmptyString)
  | String c s' =>
      if ishex c then
        let acc := (acc * 16 + unhex c)%N in
        if (3 <? off)%nat then inl "each group must have 4 or less digits"
        else if (65535 <? acc)%N then inl "IPv6 field has value >=2^16"
        else hex_loop s' (S off) acc
      else inr (off, acc, s)
  end.

(** The loop of [parseIPv6] over the fields, two bytes each: [free]
    fields are left, so [i = 16 - 2 * free] and the loop ends when
    none is.  It leaves [s], [i] and [ellipsis]. *)
Fixpoint parseIPv6_loop (free : nat) (input : string) (s : string) (i : nat)
    (ellipsis : option nat) : parseAddrError + (string * nat * option nat) :=
  match free with
  | O => inr (s, i, ellipsis)
  | S free' =>
      match hex_loop s 0 0 with
      | inl m => inl {| in_ := input; msg := m; at_ := s |}
      | inr (off, acc, rest) =>
          if Nat.eqb off 0
          then inl {| in_ := input;
                      msg := "each colon-separated field must have at least one digit";
                      at_ := s |}
          else if strings.HasPrefix rest "." then
            (* a trailing IPv4 address *)
            if match ellipsis with None => true | Some _ => false end
               && negb (Nat.eqb i 12)
            then inl {| in_ := input;
                        msg := "embedded IPv4 address must replace the final 2 fields of the address";
                        at_ := s |}
            else if (16 <? i + 4)%nat
            then inl {| in_ := input;
                        msg := "too many hex fields to fit an embedded IPv4 at the end of the address";
                        at_ := s |}
            else match parseIPv4Fields input s with
                 | Some e => inl e
                 | None => inr (EmptyString, i + 4, ellipsis)
                 end
          else
            let i := i + 2 in
            match rest with
            | EmptyString => inr (EmptyString, i, ellipsis)
            | String c rest1 =>
                if negb (Ascii.eqb c ":")
                then inl {| in_ := input; msg := "unexpected character, want colon";
                            at_ := rest |}
                else
                  match rest1 with
                  | EmptyString =>
                      inl {| in_ := input;
                             msg := "colon must be followed by more characters";
                             at_ := rest |}
                  | String c2 rest2 =>
                      if Ascii.eqb c2 ":" then
                        match ellipsis with
                        | Some _ =>
                            inl {| in_ := input; msg := "multiple :: in address";
                                   at_ := rest1 |}
                        | None =>
                            if String.eqb rest2 "" then inr (EmptyString, i, Some i)
                            else parseIPv6_loop free' input rest2 i (Some i)
                        end
                      else parseIPv6_loop free' input rest1 i ellipsis
                  end
            end
      end
  end.

Definition parseIPv6 (input : string) : parseAddrError + Addr :=
  '(s, zone) <-
    match strings.Index input "%" with
    | Some i =>
        let zone := slice_from (i + 1) input in
        if String.eqb zone ""
        then inl {| in_ := input; msg := "zone must be a non-empty string"; at_ := "" |}
        else inr (slice_to i input, zone)
    | None => inr (input, EmptyString)
    end ;;
  (* a leading ellipsis *)
  let '(s, ellipsis) :=
    if strings.HasPrefix s "::" then (slice_from 2 s, Some 0) else (s, None) in
  if match ellipsis with Some _ => true | None => false end && String.eqb s ""
  then inr {| Is4 := false; Zone := zone |}
  else
    '(s, i, ellipsis) <- parseIPv6_loop 8 input s 0 ellipsis ;;
    if negb (String.eqb s "")
    then inl {| in_ := input; msg := "trailing garbage after address"; at_ := s |}
    else if (i <? 16)%nat then
      match ellipsis with
      | None => inl {| in_ := input; msg := "address string too short"; at_ := "" |}
      | Some _ => inr {| Is4 := false; Zone := zone |}
      end
    else
      match ellipsis with
      | Some _ =>
          inl {| in_ := input;
                 msg := "the :: must expand to at least one field of zeros";
                 at_ := "" |}
      | None => inr {| Is4 := false; Zone := zone |}
      end.

(** [ParseAddr(s)]: the first of [.], [:] and [%] in [s] decides
    how it is read. *)
Fixpoint ParseAddr_loop (input : string) (s : string) : parseAddrError + Addr :=
  match s with
  | EmptyString => inl {| in_ := input; msg := "unable to parse IP"; at_ := "" |}
  | String c s' =>
      if Ascii.eqb c "." then parseIPv4 input
      else if Ascii.eqb c ":" then parseIPv6 input
      else if Ascii.eqb c "%"
      then inl {| in_ := input; msg := "missing IPv6 address"; at_ := "" |}
      else ParseAddr_loop input s'
  end.

Definition ParseAddr (s : string) : parseAddrError + Addr := ParseAddr_loop s s.

Section Text.
Variable Quote : string -> string.

(** [err.Error()] *)
Definition Error_text (e : parseAddrError) : string :=
  if String.eqb (at_ e) ""
  then "ParseAddr(" ++ Quote (in_ e) ++ "): " ++ msg e
  else "ParseAddr(" ++ Quote (in_ e) ++ "): " ++ msg e
       ++ " (at " ++ Quote (at_ e) ++ ")".
End Text.

End netip.

(** ** Package [net/url]

    [Parse], [URL.Query] and [Values.Get] as the standard library has
    them: since Go 1.17 a control byte makes a URL invalid and [;]
    does not separate the parameters of a query; since the security
    releases of Go 1.24 and 1.25 a host may hold brackets only around
    an IPv6 address, an IPv4-mapped one included. *)

Module url.

Inductive encoding :=
| encodePath | encodePathSegment | encodeHost | encodeZone
| encodeUserPassword | encodeQueryComponent | encodeFragment.

Definition is_host_mode (mode : encoding) : bool :=
  match mode with encodeHost | encodeZone => true | _ => false end.

(** The errors [Parse] can meet; their texts quote the offending
    bytes, see [err_text]. *)
Inductive err :=
| InvalidControlCharacter      (* net/url: invalid control character in URL *)
| MissingProtocolScheme        (* missing protocol scheme *)
| FirstSegmentColon            (* first path segment in URL cannot contain colon *)
| EscapeError (s : string)     (* invalid URL escape "s" *)
| InvalidHostError (s : string) (* invalid character "s" in host name *)
| InvalidPort (s : string)     (* invalid port "s" after host *)
| MissingBracket               (* missing ']' in host *)
| InvalidHost (e : netip.parseAddrError) (* invalid host: e *)
| InvalidIPLiteral             (* invalid IP-literal *)
| InvalidUserinfo.             (* net/url: invalid userinfo *)

(** [*url.Error] *)
Record Error := { Op : string; Error_URL : string; Err : err }.

Record Userinfo := { username : string; password : string; passwordSet : bool }.

(** [url.URL], without [RawPath] and [RawFragment] (encoding hints
    that no caller here reads). *)
Record URL := {
  Scheme : string;
  Opaque : string;
  User : option Userinfo;
  Host : string;
  Path : string;
  ForceQuery : bool;
  RawQuery : string;
  Fragment : string
}.

Definition ishex (c : ascii) : bool :=
  isDigit c || byte_in "a" "f" c || byte_in "A" "F" c.

Definition unhex (c : ascii) : N :=
  if isDigit c then N_of_ascii c - 48
  else if byte_in "a" "f" c then N_of_ascii c - 97 + 10
  else if byte_in "A" "F" c then N_of_ascii c - 65 + 10
  else 0.

(** [shouldEscape(c, mode)] *)
Definition shouldEscape (c : ascii) (mode : encoding) : bool :=
  if isLetter c || isDigit c then false
  else if is_host_mode mode
          && (byte_of "!$&'()*+,;=:[]<>" c || Ascii.eqb c dquote) then false
  else if byte_of "-_.~" c then false
  else if byte_of "$&+,/:;=?@" c then
    match mode with
    | encodePath => Ascii.eqb c "?"
    | encodePathSegment => byte_of "/;,?" c
    | encodeUserPassword => byte_of "@/?:" c
    | encodeQueryComponent => true
    | encodeFragment => false
    | encodeHost | encodeZone => true
    end
  else if match mode with encodeFragment => byte_of "!()*" c | _ => false end
  then false
  else true.

(** [unescape(s, mode)].  Go checks the whole string first and then
    decodes it; the first garbled place decides the error either
    way, so one pass does both. *)
Fixpoint unescape (s : string) (mode : encoding) : err + string :=
  match s with
  | EmptyString => inr EmptyString
  | String c rest =>
      if Ascii.eqb c "%" then
        match rest with
        | String h (String l rest') =>
            if negb (ishex h && ishex l) then inl (EscapeError (slice_to 3 s))
            else if match mode with encodeHost => true | _ => false end
                    && (unhex h <? 8)%N
                    && negb (String.eqb (slice_to 3 s) "%25")
            then inl (EscapeError (slice_to 3 s))
            else if match mode with encodeZone => true | _ => false end
                    && negb (String.eqb (slice_to 3 s) "%25")
                    && negb (N.eqb (unhex h * 16 + unhex l) 32)
                    && shouldEscape (ascii_of_N (unhex h * 16 + unhex l)) encodeHost
            then inl (EscapeError (slice_to 3 s))
            else t <- unescape rest' mode ;;
                 inr (String (ascii_of_N (unhex h * 16 + unhex l)) t)
        | _ => inl (EscapeError (slice_to 3 s))
        end
      else if Ascii.eqb c "+" then
        t <- unescape rest mode ;;
        inr (String (match mode with encodeQueryComponent => " " | _ => "+" end)%char t)
      else if is_host_mode mode && (N_of_ascii c <? 128)%N && shouldEscape c encodeHost
      then inl (InvalidHostError (String c EmptyString))
      else t <- unescape rest mode ;; inr (String c t)
  end.

Definition QueryUnescape (s : string) : err + string :=
  unescape s encodeQueryComponent.

Definition stringContainsCTLByte (s : string) : bool :=
  existsb_string (fun b => (N_of_ascii b <? 32)%N || N.eqb (N_of_ascii b) 127) s.

(** [getScheme(rawURL)]: the loop over [i], with [s = rawURL[i:]]. *)
Fixpoint getScheme_loop (rawURL : string) (i : nat) (s : string)
  : err + (string * string) :=
  match s with
  | EmptyString => inr (EmptyString, rawURL)
  | String c s' =>
      if isLetter c then getScheme_loop rawURL (S i) s'
      else if isDigit c || byte_of "+-." c then
        if Nat.eqb i 0 then inr (EmptyString, rawURL)
        else getScheme_loop rawURL (S i) s'
      else if Ascii.eqb c ":" then
        if Nat.eqb i 0 then inl MissingProtocolScheme
        else inr (slice_to i rawURL, s')
      else inr (EmptyString, rawURL)
  end.

Definition getScheme (rawURL : string) : err + (string * string) :=
  getScheme_loop rawURL 0 rawURL.

Definition validOptionalPort (port : string) : bool :=
  match port with
  | EmptyString => true
  | String c digits => Ascii.eqb c ":" && forallb_string isDigit digits
  end.

(** [validUserinfo] ranges over runes; every byte of a rune outside
    ASCII falls in its [default] case. *)
Definition validUserinfo (s : string) : bool :=
  forallb_string
    (fun r => isLetter r || isDigit r || byte_of "-._:~!$&'()*+,;=%@" r) s.

(** [parseHost(host)]: a host that holds a [[] is an IP literal in
    brackets, with its zone and port. *)
Definition parseHost (host : string) : err + string :=
  match strings.LastIndex host "[" with
  | Some openBracketIdx =>
      match strings.LastIndex host "]" with
      | None => inl MissingBracket
      | Some closeBracketIdx =>
          let colonPort := slice_from (closeBracketIdx + 1) host in
          if negb (validOptionalPort colonPort) then inl (InvalidPort colonPort)
          else
            unescapedColonPort <- unescape colonPort encodeHost ;;
            let hostname :=
              slice_from (openBracketIdx + 1) (slice_to closeBracketIdx host) in
            unescapedHostname <-
              match strings.Index hostname "%25" with
              | Some zoneIdx =>
                  hostPart <- unescape (slice_to zoneIdx hostname) encodeHost ;;
                  zonePart <- unescape (slice_from zoneIdx hostname) encodeZone ;;
                  inr (hostPart ++ zonePart)
              | None => unescape hostname encodeHost
              end ;;
            match netip.ParseAddr unescapedHostname with
            | inl e => inl (InvalidHost e)
            | inr addr =>
                if netip.Is4 addr then inl InvalidIPLiteral
                else inr ("[" ++ unescapedHostname ++ "]" ++ unescapedColonPort)
            end
      end
  | None =>
      match strings.LastIndex host ":" with
      | Some i =>
          let colonPort := slice_from i host in
          if negb (validOptionalPort colonPort) then inl (InvalidPort colonPort)
          else unescape host encodeHost
      | None => unescape host encodeHost
      end
  end.

Definition parseAuthority (authority : string) : err + (option Userinfo * string) :=
  match strings.LastIndex authority "@" with
  | None => host <- parseHost authority ;; inr (None, host)
  | Some i =>
      host <- parseHost (slice_from (i + 1) authority) ;;
      let userinfo := slice_to i authority in
      if negb (validUserinfo userinfo) then inl InvalidUserinfo
      else if negb (strings.Contains userinfo ":") then
        u <- unescape userinfo encodeUserPassword ;;
        inr (Some {| username := u; password := EmptyString; passwordSet := false |}, host)
      else
        let '(name, pass, _) := strings.Cut userinfo ":" in
        u <- unescape name encodeUserPassword ;;
        p <- unescape pass encodeUserPassword ;;
        inr (Some {| username := u; password := p; passwordSet := true |}, host)
  end.

(** [parse(rawURL, viaRequest)] with [viaRequest = false], the way
    [Parse] calls it. *)
Definition parse (rawURL : string) : err + URL :=
  if stringContainsCTLByte rawURL then inl InvalidControlCharacter
  else if String.eqb rawURL "*" then
    inr {| Scheme := EmptyString; Opaque := EmptyString; User := None;
           Host := EmptyString; Path := "*"; ForceQuery := false;
           RawQuery := EmptyString; Fragment := EmptyString |}
  else
    '(scheme, rest) <- getScheme rawURL ;;
    let scheme := strings.ToLower scheme in
    let '(rest, force, query) :=
      if strings.HasSuffix rest "?" && Nat.eqb (strings.Count rest "?") 1
      then (slice_to (String.length rest - 1) rest, true, EmptyString)
      else let '(before, after, _) := strings.Cut rest "?" in
           (before, false, after) in
    if negb (strings.HasPrefix rest "/") && negb (String.eqb scheme EmptyString)
    then
      (* rootless paths are opaque *)
      inr {| Scheme := scheme; Opaque := rest; User := None;
             Host := EmptyString; Path := EmptyString; ForceQuery := force;
             RawQuery := query; Fragment := EmptyString |}
    else if negb (strings.HasPrefix rest "/")
            && strings.Contains (fst (fst (strings.Cut rest "/"))) ":"
    then inl FirstSegmentColon
    else
      '(user, host, rest) <-
        (if (negb (String.eqb scheme EmptyString)
             || negb (strings.HasPrefix rest "///"))
            && strings.HasPrefix rest "//"
         then
           let authority := slice_from 2 rest in
           let '(authority, rest) :=
             match strings.Index authority "/" with
             | Some i => (slice_to i authority, slice_from i authority)
             | None => (authority, EmptyString)
             end in
           '(user, host) <- parseAuthority authority ;;
           inr (user, host, rest)
         else inr (None, EmptyString, rest)) ;;
      (* setPath *)
      path <- unescape rest encodePath ;;
      inr {| Scheme := scheme; Opaque := EmptyString; User := user;
             Host := host; Path := path; ForceQuery := force;
             RawQuery := query; Fragment := EmptyString |}.

Definition setFragment (u : URL) (f : string) : err + URL :=
  frag <- unescape f encodeFragment ;;
  inr {| Scheme := Scheme u; Opaque := Opaque u; User := User u;
         Host := Host u; Path := Path u; ForceQuery := ForceQuery u;
         RawQuery := RawQuery u; Fragment := frag |}.

(** [Parse(rawURL)] *)
Definition Parse (rawURL : string) : Error + URL :=
  let '(u, frag, _) := strings.Cut rawURL "#" in
  match parse u with
  | inl e => inl {| Op := "parse"; Error_URL := u; Err := e |}
  | inr url =>
      if String.eqb frag EmptyString then inr url
      else match setFragment url frag with
           | inl e => inl {| Op := "parse"; Error_URL := rawURL; Err := e |}
           | inr url' => inr url'
           end
  end.

(** [url.Values] is a [map[string][]string]; the list keeps the
    pairs in the order [parseQuery] appends them, so the values of
    one key are in the order of their slice. *)
Definition Values := list (string * string).

(** [parseQuery(m, query)]; its error is dropped by [Query]. [fuel]
    bounds the pieces of [query], one per [&]. *)
Fixpoint parseQuery (fuel : nat) (query : string) : Values :=
  match fuel with
  | O => []
  | S fuel' =>
      if String.eqb query EmptyString then []
      else
        let '(key, query', _) := strings.Cut query "&" in
        if strings.Contains key ";" then parseQuery fuel' query'
        else if String.eqb key EmptyString then parseQuery fuel' query'
        else
          let '(key, value, _) := strings.Cut key "=" in
          match QueryUnescape key with
          | inl _ => parseQuery fuel' query'
          | inr key1 =>
              match QueryUnescape value with
              | inl _ => parseQuery fuel' query'
              | inr value1 => (key1, value1) :: parseQuery fuel' query'
              end
          end
  end.

(** [u.Query()] *)
Definition Query (u : URL) : Values :=
  parseQuery (S (String.length (RawQuery u))) (RawQuery u).

(** [v.Get(key)]: the first value of [key], or the empty string. *)
Fixpoint Get (v : Values) (key : string) : string :=
  match v with
  | [] => EmptyString
  | (k, x) :: v' => if String.eqb k key then x else Get v' key
  end.

(** The text of an error, [e.Error()].  [%q] and [strconv.Quote]
    escape by the Unicode tables; [Quote] stands for them. *)
Section Text.
Variable Quote : string -> string.

Definition err_text (e : err) : string :=
  match e with
  | InvalidControlCharacter => "net/url: invalid control character in URL"
  | MissingProtocolScheme => "missing protocol scheme"
  | FirstSegmentColon => "first path segment in URL cannot contain colon"
  | EscapeError s => "invalid URL escape " ++ Quote s
  | InvalidHostError s => "invalid character " ++ Quote s ++ " in host name"
  | InvalidPort s => "invalid port " ++ Quote s ++ " after host"
  | MissingBracket => "missing ']' in host"
  | InvalidHost e => "invalid host: " ++ netip.Error_text Quote e
  | InvalidIPLiteral => "invalid IP-literal"
  | InvalidUserinfo => "net/url: invalid userinfo"
  end.

Definition Error_text (e : Error) : string :=
  Op e ++ " " ++ Quote (Error_URL e) ++ ": " ++ err_text (Err e).
End Text.

End url.

(** ** Package [github.com/senseyeio/duration] *)

Module duration.

Record Duration := {
  Y : Z; M : Z; W : Z; D : Z;
  (* time component *)
  TH : Z; TM : Z; TS : Z
}.

(** The zero value, [Duration{}]. *)
Definition zero : Duration :=
  {| Y := 0; M := 0; W := 0; D := 0; TH := 0; TM := 0; TS := 0 |}.

Inductive error :=
| CouldNotParse            (* could not parse duration string *)
| AtoiRange (part : string). (* strconv.Atoi: value out of range *)

(** One group [((?P<name>\d+)U)?] of the pattern at the head of [s]:
    the digits it captures and what follows it, or the empty capture
    and [s] itself when the group takes no part in the match.  The
    digits of a run are followed by one byte only, so a group that
    can match must match for the whole pattern to. *)
Definition group (U : ascii) (s : string) : string * string :=
  match digits_prefix s with
  | (String d ds, String c rest) =>
      if Ascii.eqb c U then (String d ds, rest) else (EmptyString, s)
  | _ => (EmptyString, s)
  end.

Inductive field := year | month | week | day | hour | minute | second.

(** [pattern.FindStringSubmatch(from)] for
    [^P((?P<year>\d+)Y)?((?P<month>\d+)M)?((?P<week>\d+)W)?((?P<day>\d+)D)?(T((?P<hour>\d+)H)?((?P<minute>\d+)M)?((?P<second>\d+)S)?)?$]:
    the named captures in the order of [pattern.SubexpNames()], or
    [None] when [pattern.MatchString(from)] is false. *)
Definition pattern (from : string) : option (list (field * string)) :=
  match from with
  | String c s =>
      if negb (Ascii.eqb c "P") then None
      else
        let '(y, s) := group "Y" s in
        let '(mo, s) := group "M" s in
        let '(w, s) := group "W" s in
        let '(d, s) := group "D" s in
        match s with
        | EmptyString =>
            Some [(year, y); (month, mo); (week, w); (day, d);
                  (hour, EmptyString); (minute, EmptyString); (second, EmptyString)]
        | String c s =>
            if negb (Ascii.eqb c "T") then None
            else
              let '(h, s) := group "H" s in
              let '(mi, s) := group "M" s in
              let '(sec, s) := group "S" s in
              match s with
              | EmptyString =>
                  Some [(year, y); (month, mo); (week, w); (day, d);
                        (hour, h); (minute, mi); (second, sec)]
              | _ => None
              end
        end
  | EmptyString => None
  end.

Definition set (name : field) (val : Z) (d : Duration) : Duration :=
  match name with
  | year => {| Y := val; M := M d; W := W d; D := D d; TH := TH d; TM := TM d; TS := TS d |}
  | month => {| Y := Y d; M := val; W := W d; D := D d; TH := TH d; TM := TM d; TS := TS d |}
  | week => {| Y := Y d; M := M d; W := val; D := D d; TH := TH d; TM := TM d; TS := TS d |}
  | day => {| Y := Y d; M := M d; W := W d; D := val; TH := TH d; TM := TM d; TS := TS d |}
  | hour => {| Y := Y d; M := M d; W := W d; D := D d; TH := val; TM := TM d; TS := TS d |}
  | minute => {| Y := Y d; M := M d; W := W d; D := D d; TH := TH d; TM := val; TS := TS d |}
  | second => {| Y := Y d; M := M d; W := W d; D := D d; TH := TH d; TM := TM d; TS := val |}
  end.

(** The loop of [ParseISO8601] over the captures: a capture that
    does not fit [int] ends it with the fields set so far. *)
Fixpoint assign (d : Duration) (parts : list (field * string))
  : Duration * option error :=
  match parts with
  | [] => (d, None)
  | (name, part) :: parts' =>
      if String.eqb part EmptyString then assign d parts'
      else match strconv.Atoi part with
           | None => (d, Some (AtoiRange part))
           | Some val => assign (set name val d) parts'
           end
  end.

(** [ParseISO8601(from)] returns a [Duration] and an error, and the
    program reads the [Duration] whatever the error. *)
Definition ParseISO8601 (from : string) : Duration * option error :=
  match pattern from with
  | None => (zero, Some CouldNotParse)
  | Some parts => assign zero parts
  end.

End duration.

(** ** Package [time] *)

Module time.

(** A [time.Time] as its methods show it: [Date()], [Clock()],
    [Nanosecond()] and [Zone()] in the time's own location. *)
Record Time := {
  year : Z; month : Z; day : Z;
  hour : Z; minute : Z; second : Z; nanosecond : Z;
  zone_name : string;
  zone_offset : Z   (* seconds east of UTC *)
}.

(** The zero value, [Time{}]: January 1, year 1, 00:00:00 UTC. *)
Definition zero : Time :=
  {| year := 1; month := 1; day := 1; hour := 0; minute := 0; second := 0;
     nanosecond := 0; zone_name := "UTC"; zone_offset := 0 |}.

Record ParseError := { Layout : string; Value : string }.

Definition RFC3339 : string := "2006-01-02T15:04:05Z07:00".

Definition digit (c : ascii) : Z := Z.of_N (N_of_ascii c - 48).

(** [getnum(s, fixed)]: a number of one or two digits, of two when
    [fixed]. *)
Definition getnum (s : string) (fixed : bool) : option (Z * string) :=
  match s with
  | String a s1 =>
      if isDigit a then
        match s1 with
        | String b s2 =>
            if isDigit b then Some ((digit a * 10 + digit b)%Z, s2)
            else if fixed then None else Some (digit a, s1)
        | EmptyString => if fixed then None else Some (digit a, s1)
        end
      else None
  | EmptyString => None
  end.

(** [skip(value, prefix)] for a prefix of one byte that is not a space. *)
Definition skip (value : string) (prefix : ascii) : option string :=
  match value with
  | String c rest => if Ascii.eqb c prefix then Some rest else None
  | EmptyString => None
  end.

Definition isLeap (y : Z) : bool :=
  (y mod 4 =? 0)%Z && (negb (y mod 100 =? 0)%Z || (y mod 400 =? 0)%Z).

Definition daysIn (m y : Z) : Z :=
  if (m =? 2)%Z then (if isLeap y then 29%Z else 28%Z)
  else if (m =? 4)%Z || (m =? 6)%Z || (m =? 9)%Z || (m =? 11)%Z then 30%Z
  else 31%Z.

(** Days from 1970-01-01 to a date of the proleptic Gregorian
    calendar, and the Unix time of a wall-clock reading. *)
Definition daysSinceEpoch (y m d : Z) : Z :=
  (let y' := if m <=? 2 then y - 1 else y in
   let era := y' / 400 in
   let yoe := y' - era * 400 in
   let doy := (153 * (if m <=? 2 then m + 9 else m - 3) + 2) / 5 + d - 1 in
   let doe := yoe * 365 + yoe / 4 - yoe / 100 + doy in
   era * 146097 + doe - 719468)%Z.

Definition unixSec (y m d hh mm ss offset : Z) : Z :=
  (daysSinceEpoch y m d * 86400 + hh * 3600 + mm * 60 + ss - offset)%Z.

Definition commaOrPeriod (c : ascii) : bool := byte_of ".," c.

Fixpoint pow10 (n : nat) : Z :=
  match n with O => 1%Z | S n' => (10 * pow10 n')%Z end.

(** A fractional second that the layout does not ask for is read all
    the same: every digit is consumed, the first nine count. *)
Definition fraction (value : string) : Z * string :=
  match value with
  | String c (String d rest) =>
      if commaOrPeriod c && isDigit d then
        let '(ds, rest') := digits_prefix (String d rest) in
        let kept := slice_to 9 ds in
        ((strconv.digits_value 0 kept * pow10 (9 - String.length kept))%Z, rest')
      else (0%Z, value)
  | _ => (0%Z, value)
  end.

(** The element [Z07:00]: [Z], or a signed [hh:mm]; [None] where Go
    reports a bad value or an offset out of range. *)
Definition zone (value : string) : option (option Z * string) :=
  match value with
  | String sign rest =>
      if Ascii.eqb sign "Z" then Some (None, rest)
      else
        match rest with
        | String h1 (String h2 (String colon (String m1 (String m2 rest')))) =>
            if negb (Ascii.eqb colon ":") then None
            else
              match getnum (String h1 (String h2 EmptyString)) true,
                    getnum (String m1 (String m2 EmptyString)) true with
              | Some (hr, _), Some (mm, _) =>
                  if (24 <? hr)%Z || (60 <? mm)%Z then None
                  else if Ascii.eqb sign "+" then Some (Some ((hr * 60 + mm) * 60)%Z, rest')
                  else if Ascii.eqb sign "-" then Some (Some (- ((hr * 60 + mm) * 60))%Z, rest')
                  else None
              | _, _ => None
              end
        | _ => None
        end
  | EmptyString => None
  end.

Definition opt_bind {A B : Type} (m : option A) (k : A -> option B) : option B :=
  match m with Some a => k a | None => None end.

Section Zones.
(** The process's [Local] location: the abbreviation and the
    offset in force at a Unix time. *)
Variable local : Z -> string * Z.

(** [parse(RFC3339, value, UTC, Local)], the runs that succeed: the
    elements of the layout, each with the literal before it. *)
Definition parse (value : string) : option Time :=
  (* 2006 *)
  if negb ((4 <=? String.length value)%nat
           && forallb_string isDigit (slice_to 4 value)) then None
  else
  let y := strconv.digits_value 0 (slice_to 4 value) in
  let value := slice_from 4 value in
  (* -01 *)
  opt_bind (skip value "-") (fun value =>
  opt_bind (getnum value true) (fun '(mo, value) =>
  if (mo <=? 0)%Z || (12 <? mo)%Z then None else
  (* -02 *)
  opt_bind (skip value "-") (fun value =>
  opt_bind (getnum value true) (fun '(d, value) =>
  (* T15 *)
  opt_bind (skip value "T") (fun value =>
  opt_bind (getnum value false) (fun '(hh, value) =>
  if (24 <=? hh)%Z then None else
  (* :04 *)
  opt_bind (skip value ":") (fun value =>
  opt_bind (getnum value true) (fun '(mi, value) =>
  if (60 <=? mi)%Z then None else
  (* :05 *)
  opt_bind (skip value ":") (fun value =>
  opt_bind (getnum value true) (fun '(ss, value) =>
  if (60 <=? ss)%Z then None else
  let '(ns, value) := fraction value in
  (* Z07:00 *)
  opt_bind (zone value) (fun '(z, value) =>
  if negb (String.eqb value EmptyString) then None (* extra text *)
  else if (d <? 1)%Z || (daysIn mo y <? d)%Z then None (* day out of range *)
  else
    match z with
    | None =>
        Some {| year := y; month := mo; day := d; hour := hh; minute := mi;
                second := ss; nanosecond := ns;
                zone_name := "UTC"; zone_offset := 0 |}
    | Some zoneOffset =>
        let '(name, offset) := local (unixSec y mo d hh mi ss zoneOffset) in
        Some {| year := y; month := mo; day := d; hour := hh; minute := mi;
                second := ss; nanosecond := ns;
                zone_name := if (offset =? zoneOffset)%Z then name else EmptyString;
                zone_offset := zoneOffset |}
    end))))))))))).

(** [Parse(RFC3339, value)]: every failing run returns [Time{}]
    with its error. *)
Definition Parse (value : string) : Time * option ParseError :=
  match parse value with
  | Some t => (t, None)
  | None => (zero, Some {| Layout := RFC3339; Value := value |})
  end.
End Zones.

(** [appendInt(b, x, width)] *)
Fixpoint zeros (n : nat) : string :=
  match n with O => EmptyString | S n' => String "0" (zeros n') end.

Definition appendInt (x : Z) (width : nat) : string :=
  let ds := strconv.Itoa (Z.abs x) in
  (if (x <? 0)%Z then "-" else EmptyString)
  ++ zeros (width - String.length ds) ++ ds.

Fixpoint trim_zeros_rev (s : string) : string :=
  match s with
  | String "0" s' => trim_zeros_rev s'
  | _ => s
  end.

Fixpoint rev_string (acc s : string) : string :=
  match s with
  | EmptyString => acc
  | String c s' => rev_string (String c acc) s'
  end.

(** The element [.999999999]: nothing for a whole second. *)
Definition appendNano (ns : Z) : string :=
  if (ns =? 0)%Z then EmptyString
  else "." ++ rev_string EmptyString
                (trim_zeros_rev (rev_string EmptyString (appendInt ns 9))).

Definition date_clock (t : Time) (sep : string) : string :=
  appendInt (year t) 4 ++ "-" ++ appendInt (month t) 2 ++ "-"
  ++ appendInt (day t) 2 ++ sep ++ appendInt (hour t) 2 ++ ":"
  ++ appendInt (minute t) 2 ++ ":" ++ appendInt (second t) 2.

(** The offset as [+hh] and [mm], minutes quotiented toward zero. *)
Definition numTZ (offset : Z) (colon : string) : string :=
  let zone := Z.quot offset 60 in
  (if (zone <? 0)%Z then "-" else "+")
  ++ appendInt (Z.quot (Z.abs zone) 60) 2 ++ colon
  ++ appendInt (Z.rem (Z.abs zone) 60) 2.

(** [t.Format(RFC3339)] *)
Definition Format_RFC3339 (t : Time) : string :=
  date_clock t "T"
  ++ (if (zone_offset t =? 0)%Z then "Z" else numTZ (zone_offset t) ":").

(** [t.String()], layout [2006-01-02 15:04:05.999999999 -0700 MST];
    the times met here carry no monotonic clock reading. *)
Definition String_ (t : Time) : string :=
  date_clock t " " ++ appendNano (nanosecond t) ++ " "
  ++ numTZ (zone_offset t) EmptyString ++ " "
  ++ (if String.eqb (zone_name t) EmptyString
      then numTZ (zone_offset t) EmptyString else zone_name t).

End time.

(** ** Package [google.golang.org/api/youtube/v3]

    The fields of the response that the program reads.  The parts of
    a [Video] are pointers the provider may leave [nil]. *)

Module youtube.

Record Thumbnail := { Url : string }.

Record ThumbnailDetails := { High : option Thumbnail }.

Record VideoSnippet := {
  ChannelId : string;
  ChannelTitle : string;
  Description : string;
  PublishedAt : string;
  Thumbnails : option ThumbnailDetails;
  Title : string
}.

Record VideoContentDetails := { Duration : string }.

Record Video := {
  Id : string;
  Snippet : option VideoSnippet;
  ContentDetails : option VideoContentDetails
}.

Record VideoListResponse := { Items : list Video }.

(** [Videos.List(part).Id(id).MaxResults(maxResults)] *)
Record VideosListCall := {
  part : list string;
  id : string;
  maxResults : Z
}.

End youtube.

(** ** Package [github.com/bwmarrin/discordgo] *)

Module discordgo.

Record User := { ID : string; Bot : bool }.

(** A [MessageCreate] event: the fields of its [*Message] that the
    handler reads.  The gateway sends every message with its author. *)
Record MessageCreate := {
  ChannelID : string;
  Content : string;
  Author : User
}.

Record MessageEmbedField := { Name : string; Value : string; Inline : bool }.

Record MessageEmbedImage := { Image_URL : string }.

Record MessageEmbedThumbnail := { Thumbnail_URL : string }.

Record MessageEmbedAuthor := {
  Author_URL : string;
  Author_Name : string;
  Author_IconURL : string
}.

Definition EmbedTypeRich : string := "rich".

Record MessageEmbed := {
  URL : string;
  Type_ : string;
  Title : string;
  Description : string;
  Timestamp : string;
  Color : Z;
  Image : option MessageEmbedImage;
  Thumbnail : option MessageEmbedThumbnail;
  Author_ : option MessageEmbedAuthor;
  Fields : list MessageEmbedField
}.

End discordgo.

(** ** The program *)

(** A Go [error], which the program only ever asks for its text. *)
Inductive error := errorString (text : string).

Definition Error (e : error) : string := let 'errorString text := e in text.

Definition command : string := "!rec".

Record recommend := {
  title : string;
  URL : string;
  imageURL : string;
  channelName : string;
  channelThumbnailURL : string;
  channelURL : string;
  description : string;
  duration : duration.Duration;
  publishedAt : time.Time
}.

(** What is outside the program during one call of the handler: the
    clock, the catalog service behind [youtubeService] and the chat
    service behind the session. *)
Record World := {
  Now : time.Time;
  Videos_List_Do : youtube.VideosListCall -> error + youtube.VideoListResponse;
  ChannelMessageSendEmbed : string -> discordgo.MessageEmbed -> option error
}.

(** What the handler does to the outside. *)
Inductive event :=
| SendEmbed (channelID : string) (embed : discordgo.MessageEmbed)
| LogErrorf (format : string) (args : list error).

(** How a call ends: it returns, or it panics on a [nil] pointer. *)
Inductive outcome (A : Type) :=
| Return (a : A)
| Panic.

Arguments Return {A} a.
Arguments Panic {A}.

(** A computation of the handler: the events so far (latest first) go
    in, the outcome and the events come out. *)
Definition M (A : Type) : Type := list event -> outcome A * list event.

Definition ret {A : Type} (a : A) : M A := fun log => (Return a, log).

Definition panic {A : Type} : M A := fun log => (Panic, log).

Definition bindM {A B : Type} (m : M A) (k : A -> M B) : M B :=
  fun log =>
    match m log with
    | (Return a, log') => k a log'
    | (Panic, log') => (Panic, log')
    end.

Definition emit (e : event) : M unit := fun log => (Return tt, e :: log).

Definition lift {A : Type} (o : outcome A) : M A := fun log => (o, log).

Notation "'let*' x ':=' m 'in' k" := (bindM m (fun x => k))
  (at level 10, x name, m at level 100, k at level 200).

(** The events of a computation, earliest first. *)
Definition run {A : Type} (m : M A) : outcome A * list event :=
  let '(o, log) := m [] in (o, rev log).

Section Bot.

(** [strconv.Quote], behind the [%q] of a URL error's text. *)
Variable Quote : string -> string.

(** The process's [Local] time zone. *)
Variable local : Z -> string * Z.

Definition getVideoID (s : string) : error + string :=
  (* TODO: parse non-URL youtube ID *)
  (* Check URL schema... *)
  match url.Parse s with
  | inl err =>
      inl (errorString ("Failed to parse URL : " ++ url.Error_text Quote err))
  | inr u =>
      let q := url.Query u in
      let videoID := url.Get q "v" in
      if negb (String.eqb videoID "") then
        (* return if ?v=... query found... *)
        inr videoID
      else if strings.HasPrefix s "https://youtu.be/" then
        (* return if s begin with https://youtu.be ... *)
        inr (strings.TrimPrefix s "https://youtu.be/")
      else inl (errorString "URL Schema not valid")
  end.

Definition mention (m : discordgo.MessageCreate) : string :=
  "<@" ++ discordgo.ID (discordgo.Author m) ++ ">".

Definition sendError (w : World) (m : discordgo.MessageCreate) (e : error)
  : M (option error) :=
  let embed :=
    {| discordgo.URL := "";
       discordgo.Type_ := "";
       discordgo.Title := "ERROR";
       discordgo.Description := Error e;
       discordgo.Timestamp := time.Format_RFC3339 (Now w);
       discordgo.Color := 0xff0000; (* RED? *)
       discordgo.Image := None;
       discordgo.Thumbnail := None;
       discordgo.Author_ := None;
       discordgo.Fields :=
         [ {| discordgo.Name := "コマンド送信者";
              discordgo.Value := mention m;
              discordgo.Inline := false |} ] |} in
  let* _ := emit (SendEmbed (discordgo.ChannelID m) embed) in
  match ChannelMessageSendEmbed w (discordgo.ChannelID m) embed with
  | Some err => ret (Some err)
  | None => ret None
  end.

Definition sendRecommend (w : World) (m : discordgo.MessageCreate) (rec : recommend)
  : M (option error) :=
  let embed :=
    {| discordgo.URL := URL rec;
       discordgo.Title := title rec;
       discordgo.Type_ := discordgo.EmbedTypeRich;
       discordgo.Description := description rec; (* TODO: Limit message length *)
       discordgo.Timestamp := time.Format_RFC3339 (Now w);
       discordgo.Color := 0x00ff00; (* Green *)
       discordgo.Image := Some {| discordgo.Image_URL := imageURL rec |};
       discordgo.Thumbnail := Some {| discordgo.Thumbnail_URL := "" |};
       discordgo.Author_ :=
         Some {| discordgo.Author_Name := channelName rec;
                 discordgo.Author_URL := channelURL rec;
                 discordgo.Author_IconURL := channelThumbnailURL rec |};
       discordgo.Fields :=
         [ {| discordgo.Name := "チャンネル名";
              discordgo.Value := channelName rec;
              discordgo.Inline := true |};
           {| discordgo.Name := "URL";
              discordgo.Value := channelURL rec;
              discordgo.Inline := true |};
           {| discordgo.Name := "公開日時";
              discordgo.Value := time.String_ (publishedAt rec);
              discordgo.Inline := false |};
           {| discordgo.Name := "長さ";
              discordgo.Value :=
                strconv.Itoa (duration.TH (duration rec)) ++ "時間"
                ++ strconv.Itoa (duration.TM (duration rec)) ++ "分"
                ++ strconv.Itoa (duration.TS (duration rec)) ++ "秒";
              discordgo.Inline := true |};
           {| discordgo.Name := "RECOMMENDED BY";
              discordgo.Value := mention m;
              discordgo.Inline := false |} ] |} in
  let* _ := emit (SendEmbed (discordgo.ChannelID m) embed) in
  match ChannelMessageSendEmbed w (discordgo.ChannelID m) embed with
  | Some err => ret (Some err)
  | None => ret None
  end.

(** The mapper: the statements of [messageHandler] from the parse of
    the duration to the [recommend] literal.  Reading through a part
    the provider left out is a [nil] dereference. *)
Definition mapMetadata (item : youtube.Video) : outcome recommend :=
  match youtube.ContentDetails item with
  | None => Panic
  | Some details =>
      let '(duration, _) := duration.ParseISO8601 (youtube.Duration details) in
      match youtube.Snippet item with
      | None => Panic
      | Some snippet =>
          let '(publishedAt, _) := time.Parse local (youtube.PublishedAt snippet) in
          match youtube.Thumbnails snippet with
          | None => Panic
          | Some thumbnails =>
              match youtube.High thumbnails with
              | None => Panic
              | Some high =>
                  Return
                    {| title := youtube.Title snippet;
                       URL := "https://www.youtube.com/watch?v=" ++ youtube.Id item;
                       imageURL := youtube.Url high;
                       channelName := youtube.ChannelTitle snippet;
                       (* TODO: solve channel thumbnail *)
                       channelThumbnailURL := "";
                       channelURL :=
                         "https://www.youtube.com/channel/" ++ youtube.ChannelId snippet;
                       description := youtube.Description snippet;
                       duration := duration;
                       publishedAt := publishedAt |}
              end
          end
      end
  end.

Definition messageHandler (w : World) (m : discordgo.MessageCreate) : M unit :=
  if discordgo.Bot (discordgo.Author m) then
    (* Ignore bots *)
    ret tt
  else
    let commands := strings.Split (discordgo.Content m) " " in
    if negb (Nat.eqb (List.length commands) 2) then ret tt
    else if negb (String.eqb (nth 0 commands "") command) then ret tt
    else
      match getVideoID (nth 1 commands "") with
      | inl err => let* _ := sendError w m err in ret tt
      | inr videoID =>
          let call :=
            {| youtube.part := ["id"; "snippet"; "contentDetails"];
               youtube.id := videoID;
               youtube.maxResults := 1 |} in
          match Videos_List_Do w call with
          | inl err => let* _ := sendError w m err in ret tt
          | inr resp =>
              if negb (Nat.eqb (List.length (youtube.Items resp)) 1) then
                let* _ := sendError w m (errorString "Item not found") in
                ret tt
              else
                match youtube.Items resp with
                | [] => panic (* index out of range *)
                | item :: _ =>
                    let* rec := lift (mapMetadata item) in
                    let* err := sendRecommend w m rec in
                    match err with
                    | Some err => emit (LogErrorf "ERROR :" [err])
                    | None => ret tt
                    end
                end
          end
      end.

End Bot.

(** ** Start-up: [init] and [main]

    [init] runs before [main].  What is outside the program at
    start-up: the values the two flags hold after [flag.Parse()], the
    constructor of the catalog client, the gateway behind
    [discord.Open()] and the name it reports for the logged-in user. *)

(** An [*http.Client] whose transport is a [transport.APIKey]. *)
Record http_Client := { Transport_Key : string }.

Record youtube_Service := { client : http_Client }.

Record Platform := {
  flag_discord : string;
  flag_youtube : string;
  youtube_New : http_Client -> error + youtube_Service;
  Session_Open : string -> option error;
  State_User_Username : string
}.

(** The package variables once [init] has returned. *)
Record Globals := {
  DiscordToken : string;
  ytToken : string;
  youtubeService : youtube_Service
}.

(** What start-up does to the outside; [Open] carries the token of
    the session it opens. *)
Inductive boot_event :=
| logrus_Panicf (format : string)
| logrus_Fatalf (format : string) (args : list error)
| logrus_Infof (format : string) (args : list string)
| AddHandler
| Open (token : string).

(** How the process goes on: it panics, it exits with a status, or it
    waits on [stopBot], on which nothing is ever sent. *)
Inductive ending :=
| Panics
| Exits (status : Z)
| Waits.

Definition newline : string := String (ascii_of_N 10) "".

Definition newClient (ytToken : string) : http_Client :=
  {| Transport_Key := ytToken |}.

Definition newYoutubeService (p : Platform) (client : http_Client)
  : list boot_event * (ending + youtube_Service) :=
  match youtube_New p client with
  | inl err =>
      ([logrus_Fatalf "Unable to create YouTube service: %v" [err]], inl (Exits 1))
  | inr service => ([], inr service)
  end.

Definition initYoutubeService (p : Platform) (ytToken : string)
  : list boot_event * (ending + youtube_Service) :=
  newYoutubeService p (newClient ytToken).

Definition init (p : Platform) : list boot_event * (ending + Globals) :=
  let DiscordToken := flag_discord p in
  let ytToken := flag_youtube p in
  if String.eqb DiscordToken "" || String.eqb ytToken "" then
    ([logrus_Panicf "Insufficient args..."], inl Panics)
  else
    let DiscordToken := "Bot " ++ DiscordToken in
    match initYoutubeService p ytToken with
    | (events, inl e) => (events, inl e)
    | (events, inr service) =>
        (events,
         inr {| DiscordToken := DiscordToken;
                ytToken := ytToken;
                youtubeService := service |})
    end.

(** [discordgo.New()] without arguments returns an empty session and
    no error; [main] gives it the token, registers the handler and
    opens it. *)
Definition main (p : Platform) (g : Globals) : list boot_event * ending :=
  let token := DiscordToken g in
  match Session_Open p token with
  | Some openerr =>
      ([AddHandler; Open token; logrus_Fatalf ("ERR : %v" ++ newline) [openerr]],
       Exits 1)
  | None =>
      ([AddHandler; Open token;
        logrus_Infof ("Logged in Discord BOT %s" ++ newline) [State_User_Username p]],
       Waits)
  end.

(** The process from its start: [init], then [main]. *)
Definition process (p : Platform) : list boot_event * ending :=
  match init p with
  | (events, inl e) => (events, e)
  | (events, inr g) => let '(events', e) := main p g in ((events ++ events')%list, e)
  end.


(** ** Words of the specification *)

(** White space as the specification's "whitespace-delimited tokens"
    has it: space, tab, line feed, vertical tab, form feed, carriage
    return. *)
Definition isSpace (c : ascii) : bool :=
  Ascii.eqb c " " || byte_in (ascii_of_N 9) (ascii_of_N 13) c.

(** The tokens of a text delimited by runs of white space; [cur] is
    the token being read. *)
Fixpoint whitespace_tokens_from (cur : string) (s : string) : list string :=
  match s with
  | EmptyString => if String.eqb cur "" then [] else [cur]
  | String c s' =>
      if isSpace c
      then (if String.eqb cur "" then [] else [cur]) ++ whitespace_tokens_from "" s'
      else whitespace_tokens_from (cur ++ String c "") s'
  end.

Definition whitespace_tokens (s : string) : list string :=
  whitespace_tokens_from "" s.

(** An ISO 8601 duration in the form the duration package reads:
    [P], then the year, month, week and day components, then
    optionally [T] and the hour, minute and second components; a
    component is a run of digits and its designator, or is absent. *)
Definition digits (n : string) : Prop := forallb_string isDigit n = true.

Definition component (n : string) (designator : string) : string :=
  if String.eqb n "" then "" else n ++ designator.

Definition ISO8601_time (t : string) : Prop :=
  t = "" \/
  exists h mi sec, digits h /\ digits mi /\ digits sec /\
    t = "T" ++ component h "H" ++ component mi "M" ++ component sec "S".

Definition ISO8601_duration (s : string) : Prop :=
  exists y mo w d t, digits y /\ digits mo /\ digits w /\ digits d /\
    ISO8601_time t /\
    s = "P" ++ component y "Y" ++ component mo "M" ++ component w "W"
            ++ component d "D" ++ t.

(** The bytes of a video identifier: letters, digits, [-] and [_]. *)
Definition isIdByte (c : ascii) : bool :=
  isLetter c || isDigit c || byte_of "-_" c.

Definition identifier (s : string) : Prop := forallb_string isIdByte s = true.

(** The byte [x] does not occur in [s]. *)
Definition absent (x : ascii) (s : string) : Prop :=
  forallb_string (fun c => negb (Ascii.eqb c x)) s = true.

(** What may follow the parameter [v] in a query: nothing, or [&]
    and further parameters, up to the fragment. *)
Definition more_parameters (tail : string) : Prop :=
  (tail = "" \/ exists t, tail = String "&" t) /\
  absent "#" tail /\ url.stringContainsCTLByte tail = false.

(** The query of a text: what stands after its first [?], the
    fragment that begins at the first [#] left out. *)
Definition query_text (s : string) : string :=
  snd (fst (strings.Cut (fst (fst (strings.Cut s "#"))) "?")).

(** The parameter a piece of a query stands for, if any: the piece is
    not empty and holds no [;], and its key, up to the first [=], and
    its value, after it, are percent-decoded, a [+] read as a space. *)
Definition parameter (piece : string) : option (string * string) :=
  if String.eqb piece "" || strings.Contains piece ";" then None
  else
    let '(key, value, _) := strings.Cut piece "=" in
    match url.QueryUnescape key, url.QueryUnescape value with
    | inr key, inr value => Some (key, value)
    | _, _ => None
    end.

(** The parameters of a query: those its pieces between [&] stand
    for, in their order. *)
Definition parameters (query : string) : list (string * string) :=
  flat_map (fun piece => match parameter piece with
                         | Some kv => [kv]
                         | None => []
                         end)
           (strings.Split query "&").

(** A number written in [width] digits, from [lo] to [hi]. *)
Definition number (n : string) : Z := strconv.digits_value 0 n.

Definition numeral (width : nat) (lo hi : Z) (n : string) : Prop :=
  String.length n = width /\ digits n /\ (lo <= number n <= hi)%Z.



(** A reading of the clock that is a date of the calendar and a time
    of the day, in a zone whose offset is a whole number of minutes
    less than 25 hours either way. *)
Definition on_the_calendar (t : time.Time) : Prop :=
  (0 <= time.year t <= 9999 /\
   1 <= time.month t <= 12 /\
   1 <= time.day t <= time.daysIn (time.month t) (time.year t) /\
   0 <= time.hour t < 24 /\
   0 <= time.minute t < 60 /\
   0 <= time.second t < 60 /\
   time.zone_offset t mod 60 = 0 /\
   -90000 < time.zone_offset t < 90000)%Z.

(** Two readings that agree to the second, zone offset included. *)
Definition same_second (t u : time.Time) : Prop :=
  time.year t = time.year u /\ time.month t = time.month u /\
  time.day t = time.day u /\ time.hour t = time.hour u /\
  time.minute t = time.minute u /\ time.second t = time.second u /\
  time.zone_offset t = time.zone_offset u.

(** Every component of a duration is a non-negative [int]. *)
Definition fits_int (v : Z) : Prop := (0 <= v <= strconv.maxInt)%Z.

Definition components_fit (d : duration.Duration) : Prop :=
  fits_int (duration.Y d) /\ fits_int (duration.M d) /\ fits_int (duration.W d) /\
  fits_int (duration.D d) /\ fits_int (duration.TH d) /\ fits_int (duration.TM d) /\
  fits_int (duration.TS d).

(** A provider record with every part the mapper reads through. *)
Definition wellFormed (item : youtube.Video) : bool :=
  match youtube.ContentDetails item, youtube.Snippet item with
  | Some _, Some snippet =>
      match youtube.Thumbnails snippet with
      | Some thumbnails =>
          match youtube.High thumbnails with
          | Some _ => true
          | None => false
          end
      | None => false
      end
  | _, _ => false
  end.

(** ** Fixtures *)

(** [strconv.Quote] on ASCII text: the quote and the backslash are
    backslashed, control bytes are written as their escapes, the other
    bytes stand for themselves. *)
Definition hexdigit (n : N) : ascii :=
  if (n <? 10)%N then ascii_of_N (48 + n) else ascii_of_N (87 + n).

Definition quote_byte (c : ascii) : string :=
  let n := N_of_ascii c in
  if Ascii.eqb c dquote then String "\" (String dquote "")
  else if Ascii.eqb c "\" then String "\" (String "\" "")
  else if (n =? 7)%N then "\a"
  else if (n =? 8)%N then "\b"
  else if (n =? 12)%N then "\f"
  else if (n =? 10)%N then "\n"
  else if (n =? 13)%N then "\r"
  else if (n =? 9)%N then "\t"
  else if (n =? 11)%N then "\v"
  else if (n <? 32)%N || (n =? 127)%N
  then "\x" ++ String (hexdigit (n / 16)) (String (hexdigit (n mod 16)) "")
  else String c "".

Fixpoint quote_bytes (s : string) : string :=
  match s with
  | EmptyString => EmptyString
  | String c s' => quote_byte c ++ quote_bytes s'
  end.

Definition quote_ascii (s : string) : string :=
  String dquote (quote_bytes s ++ String dquote "").

(** A process whose local zone is UTC. *)
Definition utc : Z -> string * Z := fun _ => ("UTC", 0%Z).

Definition noon : time.Time :=
  {| time.year := 2021; time.month := 6; time.day := 15;
     time.hour := 12; time.minute := 0; time.second := 0; time.nanosecond := 0;
     time.zone_name := "UTC"; time.zone_offset := 0 |}.

(** A world whose catalog answers every call with [answer] and whose
    chat service accepts every card. *)
Definition world (answer : error + youtube.VideoListResponse) : World :=
  {| Now := noon;
     Videos_List_Do := fun _ => answer;
     ChannelMessageSendEmbed := fun _ _ => None |}.

Definition message (content : string) : discordgo.MessageCreate :=
  {| discordgo.ChannelID := "c1";
     discordgo.Content := content;
     discordgo.Author := {| discordgo.ID := "u1"; discordgo.Bot := false |} |}.

Definition fixture : youtube.Video :=
  {| youtube.Id := "abc123";
     youtube.Snippet :=
       Some {| youtube.ChannelId := "UC42";
               youtube.ChannelTitle := "A channel";
               youtube.Description := "A description";
               youtube.PublishedAt := "2021-01-01T00:00:00Z";
               youtube.Thumbnails :=
                 Some {| youtube.High := Some {| youtube.Url := "https://i.ytimg.com/vi/abc123/hqdefault.jpg" |} |};
               youtube.Title := "A title" |};
     youtube.ContentDetails := Some {| youtube.Duration := "PT1H2M3S" |} |}.

Definition nothing_found : error + youtube.VideoListResponse :=
  inr {| youtube.Items := [] |}.

Definition one_found : error + youtube.VideoListResponse :=
  inr {| youtube.Items := [fixture] |}.

(** A record whose duration and publish time are not in their formats. *)
Definition garbled : youtube.Video :=
  {| youtube.Id := "abc123";
     youtube.Snippet :=
       Some {| youtube.ChannelId := "UC42";
               youtube.ChannelTitle := "A channel";
               youtube.Description := "";
               youtube.PublishedAt := "yesterday";
               youtube.Thumbnails :=
                 Some {| youtube.High := Some {| youtube.Url := "" |} |};
               youtube.Title := "A title" |};
     youtube.ContentDetails := Some {| youtube.Duration := "1 hour" |} |}.

(** A command whose argument runs over two lines. *)
Definition two_lines : discordgo.MessageCreate :=
  message ("!rec a" ++ String (ascii_of_N 10) "b").

(** A platform on which every outside call succeeds. *)
Definition platform (discord youtube : string) : Platform :=
  {| flag_discord := discord;
     flag_youtube := youtube;
     youtube_New := fun c => inr {| client := c |};
     Session_Open := fun _ => None;
     State_User_Username := "recbot" |}.

(** The call the handler makes for an identifier. *)
Definition list_call (videoID : string) : youtube.VideosListCall :=
  {| youtube.part := ["id"; "snippet"; "contentDetails"];
     youtube.id := videoID;
     youtube.maxResults := 1 |}.

(** A catalog that cannot be reached. *)
Definition unavailable : error + youtube.VideoListResponse :=
  inl (errorString "googleapi: Error 403: quotaExceeded").

Definition two_found : error + youtube.VideoListResponse :=
  inr {| youtube.Items := [fixture; garbled] |}.

Definition one_garbled : error + youtube.VideoListResponse :=
  inr {| youtube.Items := [garbled] |}.

(** A record that came without its snippet. *)
Definition partless : youtube.Video :=
  {| youtube.Id := "abc123";
     youtube.Snippet := None;
     youtube.ContentDetails := Some {| youtube.Duration := "PT1H2M3S" |} |}.

Definition one_partless : error + youtube.VideoListResponse :=
  inr {| youtube.Items := [partless] |}.

(** A record whose minutes do not fit an [int]. *)
Definition overlong : youtube.Video :=
  {| youtube.Id := "abc123";
     youtube.Snippet := youtube.Snippet fixture;
     youtube.ContentDetails :=
       Some {| youtube.Duration := "PT1H99999999999999999999M3S" |} |}.


(** A world whose catalog knows one identifier only. *)
Definition selective : World :=
  {| Now := noon;
     Videos_List_Do := fun call =>
       if String.eqb (youtube.id call) "abc123" then one_found else nothing_found;
     ChannelMessageSendEmbed := fun _ _ => None |}.

(** ** Strings *)

Lemma append_assoc (a b c : string) : (a ++ b) ++ c = a ++ b ++ c.
Proof.
  induction a as [|x a IH]; simpl; [reflexivity | now rewrite IH].
Qed.

Lemma append_empty_r (a : string) : a ++ "" = a.
Proof.
  induction a as [|x a IH]; simpl; [reflexivity | now rewrite IH].
Qed.

Lemma HasPrefix_app (p r : string) : strings.HasPrefix (p ++ r) p = true.
Proof.
  unfold strings.HasPrefix.
  induction p as [|c p IH]; simpl.
  - now destruct r.
  - destruct (ascii_dec c c) as [_|ne]; [exact IH | now elim ne].
Qed.

Lemma slice_from_app (p r : string) : slice_from (String.length p) (p ++ r) = r.
Proof.
  induction p as [|c p IH]; simpl; [reflexivity | exact IH].
Qed.

Lemma TrimPrefix_app (p r : string) : strings.TrimPrefix (p ++ r) p = r.
Proof.
  unfold strings.TrimPrefix.
  now rewrite HasPrefix_app, slice_from_app.
Qed.

Lemma forallb_string_app (p : ascii -> bool) (a b : string) :
  forallb_string p (a ++ b) = forallb_string p a && forallb_string p b.
Proof.
  induction a as [|c a IH]; simpl; [reflexivity|].
  now rewrite IH, andb_assoc.
Qed.

Lemma existsb_string_app (p : ascii -> bool) (a b : string) :
  existsb_string p (a ++ b) = existsb_string p a || existsb_string p b.
Proof.
  induction a as [|c a IH]; simpl; [reflexivity|].
  now rewrite IH, orb_assoc.
Qed.

Lemma forallb_string_impl (p q : ascii -> bool) (s : string) :
  (forall c, p c = true -> q c = true) ->
  forallb_string p s = true -> forallb_string q s = true.
Proof.
  intros Hpq. induction s as [|c s IH]; simpl; [reflexivity|].
  intros H. apply andb_true_iff in H as [Hc Hs].
  now rewrite (Hpq c Hc), (IH Hs).
Qed.

Lemma existsb_string_none (p : ascii -> bool) (s : string) :
  forallb_string (fun c => negb (p c)) s = true -> existsb_string p s = false.
Proof.
  induction s as [|c s IH]; simpl; [reflexivity|].
  intros H. apply andb_true_iff in H as [Hc Hs].
  apply negb_true_iff in Hc. now rewrite Hc, (IH Hs).
Qed.

Lemma length_app (a b : string) :
  String.length (a ++ b) = String.length a + String.length b.
Proof.
  induction a as [|c a IH]; simpl; [reflexivity | now rewrite IH].
Qed.

Lemma slice_to_app (a b : string) : slice_to (String.length a) (a ++ b) = a.
Proof.
  induction a as [|c a IH]; simpl; [now destruct b | now rewrite IH].
Qed.

Lemma absent_app (x : ascii) (a b : string) :
  absent x (a ++ b) <-> absent x a /\ absent x b.
Proof.
  unfold absent. rewrite forallb_string_app. apply andb_true_iff.
Qed.

Lemma absent_cons (x c : ascii) (s : string) :
  absent x (String c s) <-> Ascii.eqb c x = false /\ absent x s.
Proof.
  unfold absent. simpl. rewrite andb_true_iff, negb_true_iff. tauto.
Qed.

(** A separator of one byte. *)
Lemma HasPrefix_byte (x c : ascii) (s : string) :
  strings.HasPrefix (String c s) (String x "") = Ascii.eqb c x.
Proof.
  unfold strings.HasPrefix. simpl.
  destruct (ascii_dec x c) as [->|ne].
  - rewrite Ascii.eqb_refl. now destruct s.
  - symmetry. apply Ascii.eqb_neq. congruence.
Qed.

Lemma Index_absent (x : ascii) (s : string) :
  absent x s -> strings.Index s (String x "") = None.
Proof.
  induction s as [|c s IH]; intros H; [reflexivity|].
  apply absent_cons in H as [Hc Hs].
  cbn [strings.Index]. rewrite HasPrefix_byte, Hc, (IH Hs). reflexivity.
Qed.

Lemma Index_first (x : ascii) (a b : string) :
  absent x a ->
  strings.Index (a ++ String x b) (String x "") = Some (String.length a).
Proof.
  induction a as [|c a IH]; intros H.
  - cbn [append strings.Index]. now rewrite HasPrefix_byte, Ascii.eqb_refl.
  - apply absent_cons in H as [Hc Ha].
    cbn [append strings.Index]. rewrite HasPrefix_byte, Hc, (IH Ha). reflexivity.
Qed.

Lemma Cut_absent (x : ascii) (s : string) :
  absent x s -> strings.Cut s (String x "") = (s, "", false).
Proof.
  intros H. unfold strings.Cut. now rewrite (Index_absent x s H).
Qed.

Lemma Cut_first (x : ascii) (a b : string) :
  absent x a -> strings.Cut (a ++ String x b) (String x "") = (a, b, true).
Proof.
  intros H. unfold strings.Cut. rewrite (Index_first x a b H).
  rewrite slice_to_app.
  replace (a ++ String x b) with ((a ++ String x "") ++ b)
    by (now rewrite append_assoc).
  replace (String.length a + String.length (String x ""))
    with (String.length (a ++ String x ""))
    by (now rewrite length_app).
  now rewrite slice_from_app.
Qed.

Lemma Contains_absent (x : ascii) (s : string) :
  absent x s -> strings.Contains s (String x "") = false.
Proof.
  intros H. unfold strings.Contains. now rewrite (Index_absent x s H).
Qed.

Lemma Count_cons (x c : ascii) (s : string) :
  strings.Count (String c s) (String x "")
  = (if Ascii.eqb c x then 1 else 0) + strings.Count s (String x "").
Proof.
  unfold strings.Count. cbn [strings.Count_from].
  rewrite HasPrefix_byte. now destruct (Ascii.eqb c x).
Qed.

Lemma Count_absent (x : ascii) (s : string) :
  absent x s -> strings.Count s (String x "") = 0.
Proof.
  induction s as [|c s IH]; intros H; [reflexivity|].
  apply absent_cons in H as [Hc Hs].
  now rewrite Count_cons, Hc, (IH Hs).
Qed.

Lemma Count_app (x : ascii) (a b : string) :
  strings.Count (a ++ b) (String x "")
  = strings.Count a (String x "") + strings.Count b (String x "").
Proof.
  induction a as [|c a IH]; [reflexivity|].
  cbn [append]. rewrite !Count_cons, IH. lia.
Qed.

Lemma HasSuffix_cons (x c d : ascii) (s : string) :
  strings.HasSuffix (String c (String d s)) (String x "")
  = strings.HasSuffix (String d s) (String x "").
Proof.
  unfold strings.HasSuffix. cbn [String.length Nat.leb Nat.sub].
  rewrite !Nat.sub_0_r. reflexivity.
Qed.

Lemma HasSuffix_app (x d : ascii) (a s : string) :
  strings.HasSuffix (a ++ String d s) (String x "")
  = strings.HasSuffix (String d s) (String x "").
Proof.
  induction a as [|c a IH]; [reflexivity|].
  cbn [append]. destruct a as [|c' a]; cbn [append] in *.
  - apply HasSuffix_cons.
  - now rewrite HasSuffix_cons.
Qed.

Lemma HasSuffix_Count (x : ascii) (s : string) :
  strings.HasSuffix s (String x "") = true ->
  strings.Count s (String x "") <> 0.
Proof.
  induction s as [|c s IH]; [discriminate|].
  destruct s as [|d s].
  - intros H. rewrite Count_cons.
    destruct (Ascii.eqb c x) eqn:E; [cbn; lia|].
    exfalso. revert H. unfold strings.HasSuffix. cbn. rewrite E. discriminate.
  - rewrite HasSuffix_cons, Count_cons. intros H. specialize (IH H). lia.
Qed.

(** No unquoted [?] at the end counts as the one [?] of a URL with a
    query that is not empty. *)
Lemma query_not_forced (rest q : string) :
  absent "?" rest -> q <> "" ->
  strings.HasSuffix (rest ++ String "?" q) "?"
  && Nat.eqb (strings.Count (rest ++ String "?" q) "?") 1 = false.
Proof.
  intros Hrest Hq.
  destruct q as [|d q]; [now elim Hq|].
  rewrite Count_app, (Count_absent _ _ Hrest), Count_cons, Ascii.eqb_refl.
  replace (rest ++ String "?" (String d q))
    with ((rest ++ "?") ++ String d q) by (now rewrite append_assoc).
  rewrite HasSuffix_app.
  destruct (strings.HasSuffix (String d q) "?") eqn:E; [|reflexivity].
  apply HasSuffix_Count in E.
  cbn [andb Nat.add]. apply Nat.eqb_neq. lia.
Qed.

(** [Split] at spaces: a text without one is one piece, and the
    first space ends the first piece. *)
Lemma Split_from_absent (x : ascii) (s cur : string) :
  absent x s -> strings.Split_from 0 cur s (String x "") = [cur ++ s].
Proof.
  revert cur. induction s as [|c s IH]; intros cur H.
  - now rewrite append_empty_r.
  - apply absent_cons in H as [Hc Hs].
    cbn [strings.Split_from]. rewrite HasPrefix_byte, Hc, (IH _ Hs).
    now rewrite append_assoc.
Qed.

Lemma Split_from_first (x : ascii) (a b cur : string) :
  absent x a ->
  strings.Split_from 0 cur (a ++ String x b) (String x "")
  = (cur ++ a) :: strings.Split_from 0 "" b (String x "").
Proof.
  revert cur. induction a as [|c a IH]; intros cur H.
  - cbn [append strings.Split_from].
    rewrite HasPrefix_byte, Ascii.eqb_refl, append_empty_r. reflexivity.
  - apply absent_cons in H as [Hc Ha].
    cbn [append strings.Split_from]. rewrite HasPrefix_byte, Hc, (IH _ Ha).
    now rewrite append_assoc.
Qed.

Lemma Split_two (a b : string) :
  absent " " a -> absent " " b -> strings.Split (a ++ " " ++ b) " " = [a; b].
Proof.
  intros Ha Hb. unfold strings.Split.
  change (a ++ " " ++ b) with (a ++ String " " b).
  now rewrite (Split_from_first " " a b "" Ha), (Split_from_absent " " b "" Hb).
Qed.

(** ** URLs *)

(** What the bytes of an identifier are not. *)
Lemma isIdByte_plain (c : ascii) :
  isIdByte c = true ->
  byte_of "#?%+&;=:/*" c = false /\
  ((N_of_ascii c <? 32)%N || N.eqb (N_of_ascii c) 127) = false /\
  (isLetter c = true \/
   (isLetter c = false /\ (isDigit c || byte_of "+-." c) = true) \/
   (isLetter c = false /\ (isDigit c || byte_of "+-." c) = false
    /\ Ascii.eqb c ":" = false)).
Proof.
  destruct c as [[] [] [] [] [] [] [] []]; vm_compute; intros H;
    try discriminate H; repeat split; auto.
Qed.

Lemma identifier_absent (x : ascii) (s : string) :
  byte_of "#?%+&;=:/*" x = true -> identifier s -> absent x s.
Proof.
  intros Hx. apply forallb_string_impl. intros c Hc.
  destruct (isIdByte_plain c Hc) as [Hn _].
  destruct (Ascii.eqb_spec c x) as [->|_]; [congruence | reflexivity].
Qed.

Lemma identifier_no_control (s : string) :
  identifier s -> url.stringContainsCTLByte s = false.
Proof.
  intros H. apply existsb_string_none. revert H.
  apply forallb_string_impl. intros c Hc.
  destruct (isIdByte_plain c Hc) as (_ & Hctl & _). now rewrite Hctl.
Qed.

(** Text without [%] and [+] unescapes to itself, outside a host. *)
Lemma unescape_plain (mode : url.encoding) (s : string) :
  url.is_host_mode mode = false ->
  absent "%" s -> absent "+" s ->
  url.unescape s mode = inr s.
Proof.
  intros Hm. induction s as [|c s IH]; intros Hp Hq; [reflexivity|].
  apply absent_cons in Hp as [Hc1 Hp]. apply absent_cons in Hq as [Hc2 Hq].
  cbn [url.unescape]. rewrite Hc1, Hc2, Hm, (IH Hp Hq). reflexivity.
Qed.

Lemma slice_to_app_le (i : nat) (a b : string) :
  i <= String.length a -> slice_to i (a ++ b) = slice_to i a.
Proof.
  revert a. induction i as [|i IH]; intros a Hi; [reflexivity|].
  destruct a as [|c a]; simpl in *; [lia|].
  now rewrite IH by lia.
Qed.

(** [getScheme] on a URL and on the same URL followed by a query. *)
Lemma getScheme_loop_query (base q sch rest : string) :
  forall (s : string) (i : nat),
    i + String.length s = String.length base ->
    url.getScheme_loop base i s = inr (sch, rest) ->
    url.getScheme_loop (base ++ String "?" q) i (s ++ String "?" q)
    = inr (sch, rest ++ String "?" q).
Proof.
  induction s as [|c s IH]; intros i Hlen H.
  - cbn in H. inversion H; subst. reflexivity.
  - cbn [url.getScheme_loop append] in *.
    cbn [String.length] in Hlen.
    destruct (isLetter c); [apply IH; [lia | exact H]|].
    destruct (isDigit c || byte_of "+-." c).
    { destruct (Nat.eqb i 0); [now inversion H | apply IH; [lia | exact H]]. }
    destruct (Ascii.eqb c ":").
    { destruct (Nat.eqb i 0); [discriminate H|].
      inversion H; subst. now rewrite slice_to_app_le by lia. }
    now inversion H.
Qed.

Lemma getScheme_query (base q sch rest : string) :
  url.getScheme base = inr (sch, rest) ->
  url.getScheme (base ++ String "?" q) = inr (sch, rest ++ String "?" q).
Proof.
  apply getScheme_loop_query. reflexivity.
Qed.

(** What [getScheme] leaves is the text or an end of it. *)
Lemma getScheme_loop_rest (p : ascii -> bool) (raw sch rest : string) :
  forallb_string p raw = true ->
  forall (s : string) (i : nat),
    forallb_string p s = true ->
    url.getScheme_loop raw i s = inr (sch, rest) ->
    forallb_string p rest = true.
Proof.
  intros Hraw. induction s as [|c s IH]; intros i Hs H.
  - cbn in H. now inversion H; subst.
  - cbn [url.getScheme_loop] in H. cbn [forallb_string] in Hs.
    apply andb_true_iff in Hs as [_ Hs].
    destruct (isLetter c); [exact (IH _ Hs H)|].
    destruct (isDigit c || byte_of "+-." c).
    { destruct (Nat.eqb i 0); [now inversion H; subst | exact (IH _ Hs H)]. }
    destruct (Ascii.eqb c ":").
    { destruct (Nat.eqb i 0); [discriminate H | now inversion H; subst]. }
    now inversion H; subst.
Qed.

Lemma getScheme_absent (x : ascii) (raw sch rest : string) :
  absent x raw -> url.getScheme raw = inr (sch, rest) -> absent x rest.
Proof.
  intros Hraw H. exact (getScheme_loop_rest _ raw sch rest Hraw raw 0 Hraw H).
Qed.

(** An identifier has no scheme. *)
Lemma getScheme_loop_identifier (raw : string) :
  forall (s : string) (i : nat),
    identifier s -> url.getScheme_loop raw i s = inr ("", raw).
Proof.
  induction s as [|c s IH]; intros i H; [reflexivity|].
  unfold identifier in H. cbn [forallb_string] in H.
  apply andb_true_iff in H as [Hc Hs].
  cbn [url.getScheme_loop].
  destruct (isIdByte_plain c Hc) as (_ & _ & [L|[[L D]|[L [D C]]]]).
  - rewrite L. now apply IH.
  - rewrite L, D. destruct (Nat.eqb i 0); [reflexivity | now apply IH].
  - now rewrite L, D, C.
Qed.

(** A URL that parses still parses with a query added, and the
    query is what follows the [?]. *)
Lemma parse_with_query (base q : string) (u : url.URL) :
  url.parse base = inr u ->
  absent "?" base -> q <> "" -> url.stringContainsCTLByte q = false ->
  exists u', url.parse (base ++ String "?" q) = inr u' /\ url.RawQuery u' = q.
Proof.
  intros H Hbase Hq Hctl. unfold url.parse in *.
  destruct (url.stringContainsCTLByte base) eqn:Hb; [discriminate H|].
  assert (Hw : url.stringContainsCTLByte (base ++ String "?" q) = false).
  { unfold url.stringContainsCTLByte in *.
    rewrite existsb_string_app, Hb. cbn [existsb_string]. now rewrite Hctl. }
  rewrite Hw.
  assert (Hstar : String.eqb (base ++ String "?" q) "*" = false).
  { apply String.eqb_neq. intros E. apply (f_equal String.length) in E.
    rewrite length_app in E. destruct q; [now elim Hq | cbn in E; lia]. }
  rewrite Hstar.
  assert (Hgoal : forall sch rest,
    url.getScheme base = inr (sch, rest) ->
    url.getScheme (base ++ String "?" q) = inr (sch, rest ++ String "?" q) /\
    absent "?" rest).
  { intros sch rest E. split; [now apply getScheme_query|].
    exact (getScheme_absent _ _ _ _ Hbase E). }
  destruct (String.eqb_spec base "*") as [->|_].
  - (* the URL [*] *)
    clear H Hgoal.
    assert (E : url.getScheme ("*" ++ String "?" q) = inr ("", "*" ++ String "?" q))
      by reflexivity.
    rewrite E. cbn [bind strings.ToLower].
    rewrite (query_not_forced "*" q Hbase Hq), (Cut_first "?" "*" q Hbase).
    eexists. split; reflexivity.
  - destruct (url.getScheme base) as [e|[sch rest]] eqn:Hs; [discriminate H|].
    destruct (Hgoal sch rest eq_refl) as [Hs' Hrest]. rewrite Hs'.
    cbn [bind] in *.
    rewrite (Count_absent _ _ Hrest), andb_false_r, (Cut_absent _ _ Hrest) in H.
    rewrite (query_not_forced rest q Hrest Hq), (Cut_first "?" rest q Hrest).
    cbv beta iota zeta in *.
    destruct (negb (strings.HasPrefix rest "/")
              && negb (String.eqb (strings.ToLower sch) "")).
    { eexists. split; reflexivity. }
    destruct (negb (strings.HasPrefix rest "/")
              && strings.Contains (fst (fst (strings.Cut rest "/"))) ":");
      [discriminate H|].
    match type of H with
    | bind ?m _ = _ => destruct m as [e|[[user host] rest']]; [discriminate H|]
    end.
    cbn [bind] in *.
    destruct (url.unescape rest' url.encodePath) as [e|path]; [discriminate H|].
    cbn [bind]. eexists. split; reflexivity.
Qed.

Lemma Parse_with_query (base q : string) (u : url.URL) :
  url.Parse base = inr u ->
  absent "?" base -> absent "#" base ->
  q <> "" -> absent "#" q -> url.stringContainsCTLByte q = false ->
  exists u', url.Parse (base ++ String "?" q) = inr u' /\ url.RawQuery u' = q.
Proof.
  intros H Hq Hh Hne Hhq Hctl. unfold url.Parse in *.
  rewrite (Cut_absent _ _ Hh) in H.
  assert (Hw : absent "#" (base ++ String "?" q)).
  { apply absent_app. split; [exact Hh|]. now apply absent_cons. }
  rewrite (Cut_absent _ _ Hw).
  destruct (url.parse base) as [e|u0] eqn:E; [discriminate H|].
  destruct (parse_with_query base q u0 E Hq Hne Hctl) as (u' & E' & Hraw).
  rewrite E'. now exists u'.
Qed.

(** [Query] gives [parseQuery] all the fuel it can use: each piece
    it cuts off leaves a shorter query. *)
Lemma length_slice_from (n : nat) (s : string) :
  String.length (slice_from n s) = String.length s - n.
Proof.
  revert s. induction n as [|n IH]; intros s; cbn [slice_from].
  - now rewrite Nat.sub_0_r.
  - destruct s as [|c s]; [reflexivity | apply IH].
Qed.

Lemma Cut_shorter (s sep before after : string) (found : bool) :
  s <> "" -> sep <> "" ->
  strings.Cut s sep = (before, after, found) ->
  String.length after < String.length s.
Proof.
  intros Hs Hsep. unfold strings.Cut.
  destruct (strings.Index s sep) as [i|]; intros E; injection E as _ <- _.
  - rewrite length_slice_from.
    destruct s; [now elim Hs|]. destruct sep; [now elim Hsep|].
    cbn [String.length]. lia.
  - destruct s; [now elim Hs | cbn [String.length]; lia].
Qed.

Lemma parseQuery_fuel (fuel : nat) :
  forall (query : string) (more : nat),
    String.length query < fuel ->
    url.parseQuery (fuel + more) query = url.parseQuery fuel query.
Proof.
  induction fuel as [|fuel IH]; intros query more Hlen; [lia|].
  cbn [Nat.add url.parseQuery].
  destruct (String.eqb_spec query "") as [_|Hne]; [reflexivity|].
  destruct (strings.Cut query "&") as [[key query'] found] eqn:Hcut.
  assert (Hshort : String.length query' < fuel).
  { pose proof (Cut_shorter query "&" key query' found Hne) as H.
    specialize (H ltac:(discriminate) Hcut). lia. }
  rewrite (IH query' more Hshort).
  reflexivity.
Qed.

Lemma Query_fuel (u : url.URL) (more : nat) :
  url.parseQuery (S (String.length (url.RawQuery u)) + more) (url.RawQuery u)
  = url.Query u.
Proof.
  unfold url.Query. apply parseQuery_fuel. lia.
Qed.

(** A query that starts with the parameter [v]. *)
Lemma Query_v_first (id tail : string) (fuel : nat) :
  identifier id ->
  tail = "" \/ (exists t, tail = String "&" t) ->
  url.Get (url.parseQuery (S fuel) ("v=" ++ id ++ tail)) "v" = id.
Proof.
  intros Hid Htail.
  assert (Hamp : absent "&" ("v=" ++ id)).
  { apply absent_cons; split; [reflexivity|]. apply absent_cons; split; [reflexivity|].
    now apply identifier_absent. }
  assert (Hcut : exists query' found,
    strings.Cut ("v=" ++ id ++ tail) "&" = ("v=" ++ id, query', found)).
  { destruct Htail as [->|[t ->]].
    - rewrite append_empty_r. eexists; eexists. now apply Cut_absent.
    - replace ("v=" ++ id ++ String "&" t) with (("v=" ++ id) ++ String "&" t)
        by (now rewrite append_assoc).
      eexists; eexists. now apply Cut_first. }
  destruct Hcut as (query' & found & Hcut).
  cbn [url.parseQuery]. rewrite Hcut.
  change (String.eqb ("v=" ++ id ++ tail) "") with false.
  change (String.eqb ("v=" ++ id) "") with false.
  cbv beta iota zeta.
  rewrite Contains_absent.
  2:{ apply absent_cons; split; [reflexivity|]. apply absent_cons; split; [reflexivity|].
      now apply identifier_absent. }
  change ("v=" ++ id) with ("v" ++ String "=" id).
  rewrite (Cut_first "=" "v" id eq_refl).
  change (url.QueryUnescape "v") with (@inr url.err string "v").
  unfold url.QueryUnescape.
  rewrite (unescape_plain url.encodeQueryComponent id eq_refl)
    by (now apply identifier_absent).
  reflexivity.
Qed.

(** The short link of an identifier, parsed. *)
Lemma Parse_short_link (id : string) :
  identifier id ->
  url.Parse ("https://youtu.be/" ++ id)
  = inr {| url.Scheme := "https"; url.Opaque := ""; url.User := None;
           url.Host := "youtu.be"; url.Path := "/" ++ id;
           url.ForceQuery := false; url.RawQuery := ""; url.Fragment := "" |}.
Proof.
  intros Hid.
  assert (Habs : forall x, byte_of "#?%+&;=:/*" x = true ->
                           absent x "https://youtu.be/" -> absent x ("https://youtu.be/" ++ id)).
  { intros x Hx Hp. apply absent_app. split; [exact Hp | now apply identifier_absent]. }
  unfold url.Parse. rewrite (Cut_absent "#" _ (Habs "#"%char eq_refl eq_refl)).
  unfold url.parse.
  assert (Hctl : url.stringContainsCTLByte ("https://youtu.be/" ++ id) = false).
  { pose proof (identifier_no_control id Hid) as Hc.
    unfold url.stringContainsCTLByte in *.
    now rewrite existsb_string_app, Hc. }
  rewrite Hctl.
  change (String.eqb ("https://youtu.be/" ++ id) "*") with false.
  change (url.getScheme ("https://youtu.be/" ++ id))
    with (@inr url.err _ ("https", "//youtu.be/" ++ id)).
  cbn [bind].
  assert (Hq : absent "?" ("//youtu.be/" ++ id)).
  { apply absent_app. split; [reflexivity | now apply identifier_absent]. }
  rewrite (Count_absent _ _ Hq), andb_false_r, (Cut_absent _ _ Hq).
  change (strings.ToLower "https") with "https".
  cbv beta iota zeta.
  change (strings.HasPrefix ("//youtu.be/" ++ id) "/") with true.
  change (strings.HasPrefix ("//youtu.be/" ++ id) "//") with true.
  change (String.eqb "https" "") with false.
  cbn [negb andb orb].
  change (slice_from 2 ("//youtu.be/" ++ id)) with ("youtu.be" ++ String "/" id).
  rewrite (Index_first "/" "youtu.be" id eq_refl), slice_to_app.
  change (String.length "youtu.be") with 8.
  change (slice_from 8 ("youtu.be" ++ String "/" id)) with ("/" ++ id).
  change (url.parseAuthority "youtu.be")
    with (@inr url.err _ (@None url.Userinfo, "youtu.be")).
  cbn [bind].
  rewrite (unescape_plain url.encodePath ("/" ++ id) eq_refl).
  - reflexivity.
  - apply absent_cons; split; [reflexivity | now apply identifier_absent].
  - apply absent_cons; split; [reflexivity | now apply identifier_absent].
Qed.

Lemma HasPrefix_split (s p : string) :
  strings.HasPrefix s p = true -> exists r, s = p ++ r.
Proof.
  unfold strings.HasPrefix. revert s.
  induction p as [|c p IH]; intros s H; [now exists s|].
  destruct s as [|d s]; [discriminate H|]. simpl in H.
  destruct (ascii_dec c d) as [->|_]; [|discriminate H].
  destruct (IH s H) as [r ->]. now exists r.
Qed.

(** An identifier on its own, parsed: a path and nothing else. *)
Lemma Parse_identifier (id : string) :
  identifier id ->
  url.Parse id
  = inr {| url.Scheme := ""; url.Opaque := ""; url.User := None;
           url.Host := ""; url.Path := id;
           url.ForceQuery := false; url.RawQuery := ""; url.Fragment := "" |}.
Proof.
  intros Hid.
  unfold url.Parse. rewrite (Cut_absent "#" id) by (now apply identifier_absent).
  unfold url.parse. rewrite (identifier_no_control id Hid).
  assert (Hstar : String.eqb id "*" = false).
  { apply String.eqb_neq. intros ->. discriminate Hid. }
  rewrite Hstar. unfold url.getScheme.
  rewrite (getScheme_loop_identifier id id 0 Hid). cbn [bind strings.ToLower].
  rewrite (Count_absent "?" id), andb_false_r, (Cut_absent "?" id)
    by (now apply identifier_absent).
  cbv beta iota zeta.
  change (String.eqb "" "") with true. cbn [negb]. rewrite andb_false_r.
  rewrite (Cut_absent "/" id) by (now apply identifier_absent).
  cbn [fst]. rewrite (Contains_absent ":" id) by (now apply identifier_absent).
  rewrite andb_false_r.
  assert (Hslash : strings.HasPrefix id "//" = false).
  { destruct (strings.HasPrefix id "//") eqn:E; [|reflexivity].
    apply HasPrefix_split in E as [r ->].
    assert (A : absent "/" ("//" ++ r)) by (now apply identifier_absent).
    discriminate A. }
  rewrite Hslash, andb_false_r. cbn [bind].
  rewrite (unescape_plain url.encodePath id eq_refl)
    by (now apply identifier_absent).
  reflexivity.
Qed.

(** ** The duration pattern reads ISO 8601 durations only *)

Lemma digits_prefix_spec (s : string) :
  digits (fst (digits_prefix s)) /\
  s = fst (digits_prefix s) ++ snd (digits_prefix s).
Proof.
  unfold digits.
  induction s as [|c s [IHd IHs]]; simpl.
  - now split.
  - destruct (isDigit c) eqn:Hc.
    + destruct (digits_prefix s) as [ds rest]; simpl in *.
      rewrite Hc, IHd. split; [reflexivity | now rewrite <- IHs].
    + now split.
Qed.

Lemma group_spec (U : ascii) (s n rest : string) :
  duration.group U s = (n, rest) ->
  digits n /\ s = component n (String U "") ++ rest.
Proof.
  unfold duration.group.
  destruct (digits_prefix_spec s) as [Hd Hs].
  destruct (digits_prefix s) as [ds tl]; simpl in Hd, Hs.
  assert (Hnone : ("", s) = (n, rest) -> digits n /\ s = component n (String U "") ++ rest).
  { intros E; inversion E; subst. now split. }
  destruct ds as [|d ds]; [exact Hnone|].
  destruct tl as [|c tl]; [exact Hnone|].
  destruct (Ascii.eqb_spec c U) as [->|_]; [|exact Hnone].
  intros E; inversion E; subst n rest; clear E Hnone.
  split; [exact Hd|].
  rewrite Hs. unfold component. simpl.
  now rewrite append_assoc.
Qed.

Lemma pattern_sound (s : string) (parts : list (duration.field * string)) :
  duration.pattern s = Some parts -> ISO8601_duration s.
Proof.
  unfold duration.pattern.
  destruct s as [|c s]; [discriminate|].
  destruct (Ascii.eqb_spec c "P") as [->|_]; [simpl|discriminate].
  destruct (duration.group "Y" s) as [y s1] eqn:Gy.
  destruct (duration.group "M" s1) as [mo s2] eqn:Gmo.
  destruct (duration.group "W" s2) as [w s3] eqn:Gw.
  destruct (duration.group "D" s3) as [d s4] eqn:Gd.
  apply group_spec in Gy, Gmo, Gw, Gd.
  destruct Gy as [Dy ->], Gmo as [Dmo ->], Gw as [Dw ->], Gd as [Dd ->].
  assert (Hshape : ISO8601_time s4 ->
    ISO8601_duration
      (String "P" (component y "Y" ++ component mo "M" ++ component w "W"
                   ++ component d "D" ++ s4))).
  { intros Ht. now exists y, mo, w, d, s4. }
  destruct s4 as [|c s4].
  - intros _. apply Hshape. now left.
  - destruct (Ascii.eqb_spec c "T") as [->|_]; [simpl|discriminate].
    destruct (duration.group "H" s4) as [h s5] eqn:Gh.
    destruct (duration.group "M" s5) as [mi s6] eqn:Gmi.
    destruct (duration.group "S" s6) as [sec s7] eqn:Gs.
    apply group_spec in Gh, Gmi, Gs.
    destruct Gh as [Dh ->], Gmi as [Dmi ->], Gs as [Ds ->].
    destruct s7; [intros _|discriminate].
    apply Hshape. right. exists h, mi, sec.
    repeat split; try assumption.
    simpl. now rewrite append_empty_r.
Qed.

(** ... and all of them. *)
Lemma digits_prefix_app (n : string) (U : ascii) (R : string) :
  digits n -> isDigit U = false ->
  digits_prefix (n ++ String U R) = (n, String U R).
Proof.
  unfold digits. intros Hn HU.
  induction n as [|c n IH]; cbn [append digits_prefix].
  - now rewrite HU.
  - cbn [forallb_string] in Hn. apply andb_true_iff in Hn as [Hc Hn].
    now rewrite Hc, (IH Hn).
Qed.

Lemma group_hit (U : ascii) (n R : string) :
  digits n -> isDigit U = false ->
  duration.group U R = ("", R) ->
  duration.group U (component n (String U "") ++ R) = (n, R).
Proof.
  intros Hn HU HR. unfold component.
  destruct n as [|d n]; [exact HR|].
  cbn [String.eqb]. rewrite append_assoc. cbn [append].
  unfold duration.group.
  change (String d (n ++ String U R)) with (String d n ++ String U R).
  rewrite (digits_prefix_app _ U R Hn HU).
  now rewrite Ascii.eqb_refl.
Qed.

Lemma group_miss (U V : ascii) (n R : string) :
  digits n -> isDigit V = false -> Ascii.eqb V U = false ->
  duration.group U R = ("", R) ->
  duration.group U (component n (String V "") ++ R)
  = ("", component n (String V "") ++ R).
Proof.
  intros Hn HV HVU HR. unfold component.
  destruct n as [|d n]; [exact HR|].
  cbn [String.eqb]. rewrite append_assoc. cbn [append].
  unfold duration.group.
  change (String d (n ++ String V R)) with (String d n ++ String V R).
  rewrite (digits_prefix_app _ V R Hn HV).
  now rewrite HVU.
Qed.

Lemma group_miss_time (U : ascii) (t : string) :
  ISO8601_time t -> duration.group U t = ("", t).
Proof.
  intros [->|(h & mi & sec & _ & _ & _ & ->)]; reflexivity.
Qed.

Lemma pattern_complete (s : string) :
  ISO8601_duration s -> exists parts, duration.pattern s = Some parts.
Proof.
  intros (y & mo & w & d & t & Dy & Dmo & Dw & Dd & Ht & ->).
  pose proof (group_miss_time "Y" t Ht) as Yt.
  pose proof (group_miss_time "M" t Ht) as Mt.
  pose proof (group_miss_time "W" t Ht) as Wt.
  pose proof (group_miss_time "D" t Ht) as Dt.
  unfold duration.pattern. cbn [append Ascii.eqb Bool.eqb negb].
  rewrite (group_hit "Y" y _ Dy eq_refl)
    by (repeat (apply group_miss; [assumption|reflexivity|reflexivity|]); assumption).
  rewrite (group_hit "M" mo _ Dmo eq_refl)
    by (repeat (apply group_miss; [assumption|reflexivity|reflexivity|]); assumption).
  rewrite (group_hit "W" w _ Dw eq_refl)
    by (repeat (apply group_miss; [assumption|reflexivity|reflexivity|]); assumption).
  rewrite (group_hit "D" d _ Dd eq_refl) by assumption.
  destruct Ht as [->|(h & mi & sec & Dh & Dmi & Ds & ->)]; [now eexists|].
  cbn [append Ascii.eqb Bool.eqb negb].
  rewrite <- (append_empty_r (component sec "S")).
  rewrite (group_hit "H" h _ Dh eq_refl)
    by (repeat (apply group_miss; [assumption|reflexivity|reflexivity|]); reflexivity).
  rewrite (group_hit "M" mi _ Dmi eq_refl)
    by (repeat (apply group_miss; [assumption|reflexivity|reflexivity|]); reflexivity).
  rewrite (group_hit "S" sec _ Ds eq_refl) by reflexivity.
  now eexists.
Qed.

(** The pattern matches the ISO 8601 durations, no more and no less. *)
Lemma pattern_matches_iff (s : string) :
  duration.pattern s <> None <-> ISO8601_duration s.
Proof.
  split.
  - destruct (duration.pattern s) as [parts|] eqn:E; [|now intros H].
    intros _. exact (pattern_sound s parts E).
  - intros H. destruct (pattern_complete s H) as [parts ->]. discriminate.
Qed.

Lemma ParseISO8601_invalid (s : string) :
  ~ ISO8601_duration s -> duration.ParseISO8601 s = (duration.zero, Some duration.CouldNotParse).
Proof.
  intros Hn. unfold duration.ParseISO8601.
  destruct (duration.pattern s) as [parts|] eqn:E; [|reflexivity].
  elim Hn. exact (pattern_sound _ _ E).
Qed.

(** A duration the pattern matches can still fail, on a number too
    large for [int]; the fields read before it stay. *)
Lemma ParseISO8601_overflow :
  duration.ParseISO8601 "PT1H99999999999999999999M3S"
  = ({| duration.Y := 0; duration.M := 0; duration.W := 0; duration.D := 0;
        duration.TH := 1; duration.TM := 0; duration.TS := 0 |},
     Some (duration.AtoiRange "99999999999999999999")).
Proof. vm_compute. reflexivity. Qed.

(** Every failing run of [time.Parse] returns the zero [Time]. *)
Lemma Parse_failure_zero (local : Z -> string * Z) (value : string) :
  snd (time.Parse local value) <> None -> fst (time.Parse local value) = time.zero.
Proof.
  unfold time.Parse.
  destruct (time.parse local value); simpl; [now intros H|reflexivity].
Qed.

(** ** The query of a URL, piece by piece *)

(** A byte is absent from a text, or has a first place in it. *)
Lemma first_occurrence (x : ascii) (s : string) :
  absent x s \/ exists a b, s = a ++ String x b /\ absent x a.
Proof.
  induction s as [|c s IH]; [now left|].
  destruct (Ascii.eqb_spec c x) as [->|Hc].
  - right. exists "", s. now split.
  - apply Ascii.eqb_neq in Hc.
    destruct IH as [H|(a & b & -> & Ha)].
    + left. apply absent_cons. now split.
    + right. exists (String c a), b. split; [reflexivity|].
      apply absent_cons. now split.
Qed.

(** [Split] goes the way of [Cut], one piece after the other. *)
Lemma Split_Cut (x : ascii) (s : string) :
  strings.Split s (String x "")
  = match strings.Cut s (String x "") with
    | (before, after, true) => before :: strings.Split after (String x "")
    | (_, _, false) => [s]
    end.
Proof.
  unfold strings.Split.
  destruct (first_occurrence x s) as [H|(a & b & -> & Ha)].
  - now rewrite (Cut_absent x s H), (Split_from_absent x s "" H).
  - now rewrite (Cut_first x a b Ha), (Split_from_first x a b "" Ha).
Qed.

(** One turn of the loop of [parseQuery] adds the parameter of the
    piece, if it stands for one. *)
Lemma parseQuery_piece (piece : string) (more : url.Values) :
  (if strings.Contains piece ";" then more
   else if String.eqb piece "" then more
   else
     let '(key, value, _) := strings.Cut piece "=" in
     match url.QueryUnescape key with
     | inl _ => more
     | inr key1 =>
         match url.QueryUnescape value with
         | inl _ => more
         | inr value1 => (key1, value1) :: more
         end
     end)
  = ((match parameter piece with Some kv => [kv] | None => [] end) ++ more)%list.
Proof.
  unfold parameter.
  destruct (strings.Contains piece ";"), (String.eqb piece "");
    cbn [orb]; try reflexivity.
  destruct (strings.Cut piece "=") as [[key value] found].
  destruct (url.QueryUnescape key), (url.QueryUnescape value); reflexivity.
Qed.

Lemma parseQuery_parameters (fuel : nat) :
  forall query : string,
    String.length query < fuel -> url.parseQuery fuel query = parameters query.
Proof.
  induction fuel as [|fuel IH]; intros query Hlen; [lia|].
  cbn [url.parseQuery].
  destruct (String.eqb_spec query "") as [->|Hne]; [reflexivity|].
  unfold parameters. rewrite (Split_Cut "&" query).
  destruct (first_occurrence "&" query) as [H|(a & b & -> & Ha)].
  - rewrite (Cut_absent "&" query H).
    replace (url.parseQuery fuel "") with (@nil (string * string))
      by (now destruct fuel).
    rewrite parseQuery_piece. reflexivity.
  - rewrite (Cut_first "&" a b Ha).
    rewrite IH by (rewrite length_app in Hlen; cbn [String.length] in Hlen; lia).
    rewrite parseQuery_piece. reflexivity.
Qed.

(** [u.Query()] holds the parameters of the raw query. *)
Lemma Query_parameters (u : url.URL) :
  url.Query u = parameters (url.RawQuery u).
Proof.
  unfold url.Query. apply parseQuery_parameters. lia.
Qed.

(** [Get] finds the first parameter of the name. *)
Lemma Get_first (earlier later : list (string * string)) (key value : string) :
  Forall (fun kv => fst kv <> key) earlier ->
  url.Get (earlier ++ (key, value) :: later)%list key = value.
Proof.
  induction 1 as [|[k x] earlier Hk _ IH]; cbn [app url.Get].
  - now rewrite String.eqb_refl.
  - cbn [fst] in Hk. apply String.eqb_neq in Hk. now rewrite Hk.
Qed.

(** The scheme holds no [?]: what [getScheme] leaves has the query
    of the text. *)
Lemma getScheme_loop_split (raw sch rest : string) :
  forall (s : string) (i : nat) (pre : string),
    raw = pre ++ s -> absent "?" pre ->
    url.getScheme_loop raw i s = inr (sch, rest) ->
    exists pre', raw = pre' ++ rest /\ absent "?" pre'.
Proof.
  induction s as [|c s IH]; intros i pre Hraw Hpre H.
  - cbn in H. inversion H; subst rest. now exists "".
  - cbn [url.getScheme_loop] in H.
    assert (Hnext : Ascii.eqb c "?" = false ->
                    raw = (pre ++ String c "") ++ s /\ absent "?" (pre ++ String c "")).
    { intros Hc. split; [now rewrite append_assoc|].
      apply absent_app. split; [exact Hpre|]. apply absent_cons. now split. }
    destruct (isLetter c) eqn:L.
    { destruct Hnext as [E A]; [|exact (IH _ _ E A H)].
      destruct (Ascii.eqb_spec c "?") as [->|]; [discriminate L | reflexivity]. }
    destruct (isDigit c || byte_of "+-." c) eqn:D.
    { destruct (Nat.eqb i 0).
      - inversion H; subst rest. now exists "".
      - destruct Hnext as [E A]; [|exact (IH _ _ E A H)].
        destruct (Ascii.eqb_spec c "?") as [->|]; [discriminate D | reflexivity]. }
    destruct (Ascii.eqb_spec c ":") as [->|_].
    { destruct (Nat.eqb i 0); [discriminate H|].
      inversion H; subst rest. destruct Hnext as [E A]; [reflexivity|].
      now exists (pre ++ ":"). }
    inversion H; subst rest. now exists "".
Qed.

Lemma Cut_after_app (x : ascii) (a b : string) :
  absent x a ->
  snd (fst (strings.Cut (a ++ b) (String x ""))) = snd (fst (strings.Cut b (String x ""))).
Proof.
  intros Ha.
  destruct (first_occurrence x b) as [H|(b1 & b2 & -> & Hb)].
  - rewrite (Cut_absent x b H), Cut_absent; [reflexivity|].
    apply absent_app. now split.
  - rewrite (Cut_first x b1 b2 Hb), <- append_assoc, Cut_first; [reflexivity|].
    apply absent_app. now split.
Qed.

(** A [?] that ends the text and is its only one leaves no query. *)
Lemma forced_query (rest : string) :
  strings.HasSuffix rest "?" && Nat.eqb (strings.Count rest "?") 1 = true ->
  snd (fst (strings.Cut rest "?")) = "".
Proof.
  intros H. apply andb_true_iff in H as [Hs Hc]. apply Nat.eqb_eq in Hc.
  destruct (first_occurrence "?" rest) as [Ha|(a & b & -> & Ha)].
  - now rewrite (Cut_absent "?" rest Ha).
  - rewrite (Cut_first "?" a b Ha). cbn [fst snd].
    destruct b as [|d b]; [reflexivity|]. exfalso.
    rewrite Count_app, (Count_absent _ _ Ha), Count_cons, Ascii.eqb_refl in Hc.
    replace (a ++ String "?" (String d b)) with ((a ++ "?") ++ String d b) in Hs
      by (now rewrite append_assoc).
    rewrite HasSuffix_app in Hs. apply HasSuffix_Count in Hs. lia.
Qed.

(** The raw query of a parsed URL is the query of its text. *)
Lemma parse_RawQuery (raw : string) (u : url.URL) :
  url.parse raw = inr u -> url.RawQuery u = snd (fst (strings.Cut raw "?")).
Proof.
  unfold url.parse.
  destruct (url.stringContainsCTLByte raw); [discriminate|].
  destruct (String.eqb_spec raw "*") as [->|_].
  { intros H. inversion H. reflexivity. }
  destruct (url.getScheme raw) as [e|[sch rest]] eqn:Hs; [discriminate|].
  cbn [bind].
  destruct (getScheme_loop_split raw sch rest raw 0 "" eq_refl eq_refl Hs)
    as (pre & -> & Hpre).
  rewrite (Cut_after_app "?" pre rest Hpre).
  assert (Hq : exists rest0 force,
    (if strings.HasSuffix rest "?" && Nat.eqb (strings.Count rest "?") 1
     then (slice_to (String.length rest - 1) rest, true, "")
     else let '(before, after, _) := strings.Cut rest "?" in (before, false, after))
    = (rest0, force, snd (fst (strings.Cut rest "?")))).
  { destruct (strings.HasSuffix rest "?" && Nat.eqb (strings.Count rest "?") 1) eqn:F.
    - rewrite (forced_query rest F). now eexists; eexists.
    - destruct (strings.Cut rest "?") as [[before after] found]. now eexists; eexists. }
  destruct Hq as (rest0 & force & ->).
  cbv beta iota zeta.
  destruct (negb (strings.HasPrefix rest0 "/")
            && negb (String.eqb (strings.ToLower sch) "")).
  { intros H. inversion H. reflexivity. }
  destruct (negb (strings.HasPrefix rest0 "/")
            && strings.Contains (fst (fst (strings.Cut rest0 "/"))) ":");
    [discriminate|].
  match goal with
  | |- bind ?m _ = _ -> _ => destruct m as [e|[[user host] rest']]; [discriminate|]
  end.
  cbn [bind].
  destruct (url.unescape rest' url.encodePath) as [e|path]; [discriminate|].
  cbn [bind]. intros H. inversion H. reflexivity.
Qed.

Lemma Parse_RawQuery (s : string) (u : url.URL) :
  url.Parse s = inr u -> url.RawQuery u = query_text s.
Proof.
  unfold url.Parse, query_text.
  destruct (strings.Cut s "#") as [[raw frag] found]. cbn [fst snd].
  destruct (url.parse raw) as [e|u0] eqn:E; [discriminate|].
  apply parse_RawQuery in E.
  destruct (String.eqb frag ""); [now intros H; inversion H; subst|].
  unfold url.setFragment.
  destruct (url.unescape frag url.encodeFragment) as [e|f]; [discriminate|].
  cbn [bind]. intros H. inversion H. exact E.
Qed.

(** ** Helpers on digits and slices *)

Lemma digits_value_nonneg (s : string) (acc : Z) :
  (0 <= acc)%Z -> (0 <= strconv.digits_value acc s)%Z.
Proof.
  revert acc. induction s as [|c s IH]; intros acc Hacc; [exact Hacc|].
  cbn [strconv.digits_value]. apply IH.
  pose proof (N2Z.is_nonneg (N_of_ascii c - 48)). lia.
Qed.

Lemma slice_to_len (n : nat) (a b : string) :
  String.length a = n -> slice_to n (a ++ b) = a.
Proof. intros <-. apply slice_to_app. Qed.

Lemma slice_from_len (n : nat) (a b : string) :
  String.length a = n -> slice_from n (a ++ b) = b.
Proof. intros <-. apply slice_from_app. Qed.

(** One element of the layout: the literal before it is passed over. *)
Ltac next_element :=
  cbn [time.opt_bind time.skip];
  change (Ascii.eqb "-" "-") with true;
  change (Ascii.eqb "T" "T") with true;
  change (Ascii.eqb ":" ":") with true;
  cbn [time.opt_bind].

(** ** The texts [time.Parse] reads as RFC 3339 *)







Lemma numeral_length (width : nat) (lo hi : Z) (n : string) :
  numeral width lo hi n -> String.length n = width.
Proof. now intros [H _]. Qed.















(** ** The handler, step by step *)

Section Properties.

Variable Quote : string -> string.
Variable local : Z -> string * Z.

(** The three ways [getVideoID] ends. *)
Lemma getVideoID_query (s : string) (u : url.URL) :
  url.Parse s = inr u ->
  url.Get (url.Query u) "v" <> "" ->
  getVideoID Quote s = inr (url.Get (url.Query u) "v").
Proof.
  intros HP Hv. unfold getVideoID. rewrite HP.
  destruct (String.eqb_spec (url.Get (url.Query u) "v") "") as [E|_];
    [now elim Hv | reflexivity].
Qed.

Lemma getVideoID_short (s : string) (u : url.URL) :
  url.Parse s = inr u ->
  url.Get (url.Query u) "v" = "" ->
  strings.HasPrefix s "https://youtu.be/" = true ->
  getVideoID Quote s = inr (strings.TrimPrefix s "https://youtu.be/").
Proof.
  intros HP Hv Hp. unfold getVideoID. now rewrite HP, Hv, Hp.
Qed.

Lemma getVideoID_invalid (s : string) :
  (forall u, url.Parse s = inr u -> url.Get (url.Query u) "v" = "") ->
  strings.HasPrefix s "https://youtu.be/" = false ->
  getVideoID Quote s = inl (errorString "URL Schema not valid") \/
  exists e, url.Parse s = inl e /\
    getVideoID Quote s
    = inl (errorString ("Failed to parse URL : " ++ url.Error_text Quote e)).
Proof.
  intros Hv Hp. unfold getVideoID.
  destruct (url.Parse s) as [e|u].
  - right. now exists e.
  - left. now rewrite (Hv u eq_refl), Hp.
Qed.

(** *** The extractor on the texts of the two dialects

    A watch link: any URL without a query, then [?v=], an identifier
    and possibly more parameters. *)
Lemma getVideoID_watch_link (base id tail : string) (u : url.URL) :
  url.Parse base = inr u ->
  absent "?" base -> absent "#" base ->
  identifier id -> id <> "" -> more_parameters tail ->
  getVideoID Quote (base ++ "?v=" ++ id ++ tail) = inr id.
Proof.
  intros HP Hq Hh Hid Hne (Htail & Hth & Htc).
  change (base ++ "?v=" ++ id ++ tail) with (base ++ String "?" ("v=" ++ id ++ tail)).
  destruct (Parse_with_query base ("v=" ++ id ++ tail) u HP Hq Hh) as (u' & HP' & Hraw).
  - discriminate.
  - apply absent_cons; split; [reflexivity|]. apply absent_cons; split; [reflexivity|].
    apply absent_app. split; [now apply identifier_absent | exact Hth].
  - pose proof (identifier_no_control id Hid) as Hc.
    unfold url.stringContainsCTLByte in *. cbn [append existsb_string].
    rewrite existsb_string_app, Hc, Htc. reflexivity.
  - assert (Hv : url.Get (url.Query u') "v" = id).
    { unfold url.Query. rewrite Hraw. now apply Query_v_first. }
    rewrite (getVideoID_query _ u' HP'); rewrite Hv; [reflexivity | exact Hne].
Qed.

(** A short link: the prefix and an identifier. *)
Lemma getVideoID_short_identifier (id : string) :
  identifier id -> getVideoID Quote ("https://youtu.be/" ++ id) = inr id.
Proof.
  intros Hid.
  rewrite (getVideoID_short _ _ (Parse_short_link id Hid) eq_refl (HasPrefix_app _ _)).
  now rewrite TrimPrefix_app.
Qed.

(** An identifier on its own is no reference. *)
Lemma getVideoID_bare_identifier (id : string) :
  identifier id -> getVideoID Quote id = inl (errorString "URL Schema not valid").
Proof.
  intros Hid. unfold getVideoID. rewrite (Parse_identifier id Hid).
  change (url.Get (url.Query _) "v") with "".
  cbn [String.eqb negb].
  destruct (strings.HasPrefix id "https://youtu.be/") eqn:E; [|reflexivity].
  apply HasPrefix_split in E as [r ->].
  assert (A : absent ":" ("https://youtu.be/" ++ r)) by (now apply identifier_absent).
  discriminate A.
Qed.

(** Both renderers end by returning the chat service's answer. *)
Lemma ret_answer (answer : option error) (log : list event) :
  match answer with
  | Some err => ret (Some err)
  | None => ret None
  end log = (Return answer, log).
Proof.
  now destruct answer.
Qed.

(** [sendError] hands one card to the chat service. *)
Lemma sendError_run (w : World) (m : discordgo.MessageCreate) (e : error) :
  exists embed,
    (forall log, sendError w m e log
       = (Return (ChannelMessageSendEmbed w (discordgo.ChannelID m) embed),
          SendEmbed (discordgo.ChannelID m) embed :: log)) /\
    discordgo.Title embed = "ERROR" /\
    discordgo.Description embed = Error e /\
    discordgo.Color embed = 0xff0000%Z /\
    discordgo.Timestamp embed = time.Format_RFC3339 (Now w) /\
    discordgo.Fields embed
    = [ {| discordgo.Name := "コマンド送信者";
           discordgo.Value := "<@" ++ discordgo.ID (discordgo.Author m) ++ ">";
           discordgo.Inline := false |} ].
Proof.
  eexists. split.
  - intros log. unfold sendError, bindM, emit.
    now rewrite ret_answer.
  - repeat split.
Qed.

(** A failing step ends the call with the error card and nothing else. *)
Lemma sendError_only (w : World) (m : discordgo.MessageCreate) (e : error) :
  exists embed,
    run (let* _ := sendError w m e in ret tt)
    = (Return tt, [SendEmbed (discordgo.ChannelID m) embed]) /\
    discordgo.Title embed = "ERROR" /\
    discordgo.Description embed = Error e /\
    discordgo.Color embed = 0xff0000%Z /\
    discordgo.Fields embed
    = [ {| discordgo.Name := "コマンド送信者";
           discordgo.Value := "<@" ++ discordgo.ID (discordgo.Author m) ++ ">";
           discordgo.Inline := false |} ].
Proof.
  destruct (sendError_run w m e) as (embed & Hrun & Ht & Hd & Hc & _ & Hf).
  exists embed. repeat split; try assumption.
  unfold run, bindM. now rewrite Hrun.
Qed.

(** Past the filter, the handler is the extractor and what follows it. *)
Lemma messageHandler_command (w : World) (m : discordgo.MessageCreate) (arg : string) :
  discordgo.Bot (discordgo.Author m) = false ->
  strings.Split (discordgo.Content m) " " = [command; arg] ->
  messageHandler Quote local w m
  = match getVideoID Quote arg with
    | inl err => let* _ := sendError w m err in ret tt
    | inr videoID =>
        match Videos_List_Do w (list_call videoID) with
        | inl err => let* _ := sendError w m err in ret tt
        | inr resp =>
            if negb (Nat.eqb (List.length (youtube.Items resp)) 1) then
              let* _ := sendError w m (errorString "Item not found") in ret tt
            else
              match youtube.Items resp with
              | [] => panic
              | item :: _ =>
                  let* rec := lift (mapMetadata local item) in
                  let* err := sendRecommend w m rec in
                  match err with
                  | Some err => emit (LogErrorf "ERROR :" [err])
                  | None => ret tt
                  end
              end
        end
    end.
Proof.
  intros Hbot Hsplit. unfold messageHandler. now rewrite Hbot, Hsplit.
Qed.

(** The command's grammar: [!rec], one space, one token without spaces. *)
Lemma command_tokens (arg : string) :
  absent " " arg -> strings.Split (command ++ " " ++ arg) " " = [command; arg].
Proof.
  intros Harg. now apply Split_two.
Qed.

(** [sendRecommend] hands one card to the chat service; the card is
    read off below through its fields. *)
Lemma sendRecommend_run (w : World) (m : discordgo.MessageCreate) (rec : recommend) :
  exists embed,
    (forall log, sendRecommend w m rec log
       = (Return (ChannelMessageSendEmbed w (discordgo.ChannelID m) embed),
          SendEmbed (discordgo.ChannelID m) embed :: log)) /\
    discordgo.Title embed = title rec /\
    discordgo.URL embed = URL rec /\
    discordgo.Author_ embed
    = Some {| discordgo.Author_URL := channelURL rec;
              discordgo.Author_Name := channelName rec;
              discordgo.Author_IconURL := channelThumbnailURL rec |} /\
    discordgo.Fields embed
    = [ {| discordgo.Name := "チャンネル名";
           discordgo.Value := channelName rec;
           discordgo.Inline := true |};
        {| discordgo.Name := "URL";
           discordgo.Value := channelURL rec;
           discordgo.Inline := true |};
        {| discordgo.Name := "公開日時";
           discordgo.Value := time.String_ (publishedAt rec);
           discordgo.Inline := false |};
        {| discordgo.Name := "長さ";
           discordgo.Value :=
             strconv.Itoa (duration.TH (duration rec)) ++ "時間"
             ++ strconv.Itoa (duration.TM (duration rec)) ++ "分"
             ++ strconv.Itoa (duration.TS (duration rec)) ++ "秒";
           discordgo.Inline := true |};
        {| discordgo.Name := "RECOMMENDED BY";
           discordgo.Value := "<@" ++ discordgo.ID (discordgo.Author m) ++ ">";
           discordgo.Inline := false |} ].
Proof.
  eexists. split.
  - intros log. unfold sendRecommend, bindM, emit.
    now rewrite ret_answer.
  - repeat split.
Qed.

(** The mapper returns exactly on the records that have every part
    it reads through. *)
Lemma mapMetadata_returns_iff (item : youtube.Video) :
  (exists rec, mapMetadata local item = Return rec) <-> wellFormed item = true.
Proof.
  unfold mapMetadata, wellFormed.
  destruct (youtube.ContentDetails item) as [details|].
  2:{ split; [intros [rec H]; discriminate H | discriminate]. }
  destruct (duration.ParseISO8601 (youtube.Duration details)) as [d derr].
  destruct (youtube.Snippet item) as [snippet|].
  2:{ split; [intros [rec H]; discriminate H | discriminate]. }
  destruct (time.Parse local (youtube.PublishedAt snippet)) as [t terr].
  destruct (youtube.Thumbnails snippet) as [thumbnails|].
  2:{ split; [intros [rec H]; discriminate H | discriminate]. }
  destruct (youtube.High thumbnails) as [high|].
  2:{ split; [intros [rec H]; discriminate H | discriminate]. }
  split; [reflexivity | intros _; now eexists].
Qed.

(** A command that passes the filter is answered: a card is the first
    thing the handler sends, unless the record found lacks a part and
    the mapper panics. *)
Lemma command_answered (w : World) (m : discordgo.MessageCreate) (arg : string) :
  discordgo.Bot (discordgo.Author m) = false ->
  strings.Split (discordgo.Content m) " " = [command; arg] ->
  (exists embed rest,
     snd (run (messageHandler Quote local w m))
     = SendEmbed (discordgo.ChannelID m) embed :: rest) \/
  run (messageHandler Quote local w m) = (Panic, []).
Proof.
  intros Hbot Hsplit. rewrite (messageHandler_command w m arg Hbot Hsplit).
  assert (Herr : forall e,
    exists embed rest,
      snd (run (let* _ := sendError w m e in ret tt))
      = SendEmbed (discordgo.ChannelID m) embed :: rest).
  { intros e. destruct (sendError_only w m e) as (embed & Hrun & _).
    exists embed, []. now rewrite Hrun. }
  destruct (getVideoID Quote arg) as [e|videoID]; [left; apply Herr|].
  destruct (Videos_List_Do w (list_call videoID)) as [e|resp]; [left; apply Herr|].
  destruct (youtube.Items resp) as [|item [|item' items]];
    cbn [List.length Nat.eqb negb]; [left; apply Herr | | left; apply Herr].
  destruct (mapMetadata local item) as [rec|]; [left | right; reflexivity].
  cbv [run bindM lift].
  destruct (sendRecommend_run w m rec) as (embed & Hrun & _).
  rewrite Hrun. exists embed.
  destruct (ChannelMessageSendEmbed w _ _); eexists; reflexivity.
Qed.

(** The scenario's pieces, evaluated. *)
Lemma scenario_split :
  strings.Split "!rec https://www.youtube.com/watch?v=abc123" " "
  = [command; "https://www.youtube.com/watch?v=abc123"].
Proof. vm_compute. reflexivity. Qed.

Lemma scenario_extract :
  getVideoID Quote "https://www.youtube.com/watch?v=abc123" = inr "abc123".
Proof. vm_compute. reflexivity. Qed.

Lemma scenario_duration :
  duration.ParseISO8601 "PT1H2M3S"
  = ({| duration.Y := 0; duration.M := 0; duration.W := 0; duration.D := 0;
        duration.TH := 1; duration.TM := 2; duration.TS := 3 |}, None).
Proof. vm_compute. reflexivity. Qed.

Lemma scenario_published :
  time.Parse local "2021-01-01T00:00:00Z"
  = ({| time.year := 2021; time.month := 1; time.day := 1;
        time.hour := 0; time.minute := 0; time.second := 0; time.nanosecond := 0;
        time.zone_name := "UTC"; time.zone_offset := 0 |}, None).
Proof. vm_compute. reflexivity. Qed.

(** C1 (as the code has it): the message
    [!rec https://www.youtube.com/watch?v=abc123] from the requester
    [u1], who is no bot, makes the extractor yield [abc123]; when the
    fetch for [abc123] returns exactly one record, of identifier
    [abc123], duration [PT1H2M3S] and publish time
    [2021-01-01T00:00:00Z], the mapper yields the duration components
    (1, 2, 3) and that timestamp, and the card sent has the link
    [https://www.youtube.com/watch?v=abc123], a duration field that
    reads 1時間2分3秒 (the hours, minutes and seconds with their
    Japanese units), and a last field that mentions [u1]. *)
Theorem scenario_success_card
  (w : World) (m : discordgo.MessageCreate) (resp : youtube.VideoListResponse)
  (item : youtube.Video) (details : youtube.VideoContentDetails)
  (snippet : youtube.VideoSnippet) (thumbnails : youtube.ThumbnailDetails)
  (high : youtube.Thumbnail) :
  discordgo.Content m = "!rec https://www.youtube.com/watch?v=abc123" ->
  discordgo.Bot (discordgo.Author m) = false ->
  discordgo.ID (discordgo.Author m) = "u1" ->
  Videos_List_Do w (list_call "abc123") = inr resp ->
  youtube.Items resp = [item] ->
  youtube.Id item = "abc123" ->
  youtube.ContentDetails item = Some details ->
  youtube.Duration details = "PT1H2M3S" ->
  youtube.Snippet item = Some snippet ->
  youtube.PublishedAt snippet = "2021-01-01T00:00:00Z" ->
  youtube.Thumbnails snippet = Some thumbnails ->
  youtube.High thumbnails = Some high ->
  getVideoID Quote "https://www.youtube.com/watch?v=abc123" = inr "abc123" /\
  (exists rec,
     mapMetadata local item = Return rec /\
     (duration.TH (duration rec), duration.TM (duration rec),
      duration.TS (duration rec)) = (1, 2, 3)%Z /\
     publishedAt rec
     = {| time.year := 2021; time.month := 1; time.day := 1;
          time.hour := 0; time.minute := 0; time.second := 0;
          time.nanosecond := 0;
          time.zone_name := "UTC"; time.zone_offset := 0 |}) /\
  (exists embed,
     snd (run (messageHandler Quote local w m))
     = SendEmbed (discordgo.ChannelID m) embed
       :: match ChannelMessageSendEmbed w (discordgo.ChannelID m) embed with
          | Some err => [LogErrorf "ERROR :" [err]]
          | None => []
          end /\
     discordgo.URL embed = "https://www.youtube.com/watch?v=abc123" /\
     nth_error (discordgo.Fields embed) 3
     = Some {| discordgo.Name := "長さ";
               discordgo.Value := "1時間2分3秒";
               discordgo.Inline := true |} /\
     List.length (discordgo.Fields embed) = 5 /\
     nth_error (discordgo.Fields embed) 4
     = Some {| discordgo.Name := "RECOMMENDED BY";
               discordgo.Value := "<@u1>";
               discordgo.Inline := false |}).
Proof.
  intros Hc Hbot Hid Hdo Hitems Hvid Hdet Hdur Hsn Hpub Hth Hhigh.
  assert (Hmap : mapMetadata local item
    = Return
        {| title := youtube.Title snippet;
           URL := "https://www.youtube.com/watch?v=abc123";
           imageURL := youtube.Url high;
           channelName := youtube.ChannelTitle snippet;
           channelThumbnailURL := "";
           channelURL := "https://www.youtube.com/channel/" ++ youtube.ChannelId snippet;
           description := youtube.Description snippet;
           duration := fst (duration.ParseISO8601 "PT1H2M3S");
           publishedAt := fst (time.Parse local "2021-01-01T00:00:00Z") |}).
  { unfold mapMetadata.
    rewrite Hdet, Hdur, Hsn, Hpub, Hth, Hhigh, Hvid.
    now rewrite scenario_duration, scenario_published. }
  split; [exact scenario_extract|]. split.
  - eexists. split; [exact Hmap|].
    rewrite scenario_duration, scenario_published. now split.
  - rewrite (messageHandler_command w m "https://www.youtube.com/watch?v=abc123" Hbot)
      by (rewrite Hc; exact scenario_split).
    rewrite scenario_extract, Hdo, Hitems. cbn [List.length Nat.eqb negb].
    rewrite Hmap. cbv [run bindM lift].
    match goal with
    | |- context [sendRecommend w m ?r] =>
        destruct (sendRecommend_run w m r) as (embed & Hrun & _ & Hu & _ & Hf)
    end.
    rewrite Hrun.
    exists embed.
    split; [now destruct (ChannelMessageSendEmbed w _ _)|].
    rewrite Hu, Hf. cbn [URL duration nth_error List.length].
    rewrite Hid, scenario_duration. repeat split.
Qed.

(** C2 (as the code has it): a text that parses as a URL and in
    whose query the first parameter named [v] has a value that is not
    empty makes [getVideoID] succeed with that value, whatever the
    URL's scheme, host, path and other parameters are.  The query is
    what follows the first [?], up to the first [#]; its parameters
    are those its pieces between [&] stand for: a piece that is
    empty, holds a [;] or does not percent-decode stands for none, and
    the key and the value are read decoded. *)
Theorem getVideoID_v_parameter
  (s : string) (u : url.URL) (earlier later : list (string * string))
  (value : string) :
  url.Parse s = inr u ->
  parameters (query_text s) = (earlier ++ ("v", value) :: later)%list ->
  Forall (fun kv => fst kv <> "v") earlier ->
  value <> "" ->
  getVideoID Quote s = inr value.
Proof.
  intros HP Hq Hearlier Hvalue.
  assert (Hget : url.Get (url.Query u) "v" = value).
  { rewrite Query_parameters, (Parse_RawQuery s u HP), Hq. now apply Get_first. }
  rewrite (getVideoID_query s u HP); rewrite Hget; [reflexivity | exact Hvalue].
Qed.

(** C3 (as the code has it): a text that begins with
    [https://youtu.be/], parses as a URL and holds no non-empty query
    parameter [v] makes [getVideoID] succeed with the rest of the text
    after that prefix; such is every text made of the prefix and of
    letters, digits, [-] and [_]. *)
Theorem getVideoID_short_link :
  (forall (rest : string) (u : url.URL),
     url.Parse ("https://youtu.be/" ++ rest) = inr u ->
     url.Get (url.Query u) "v" = "" ->
     getVideoID Quote ("https://youtu.be/" ++ rest) = inr rest) /\
  (forall id : string,
     identifier id -> getVideoID Quote ("https://youtu.be/" ++ id) = inr id).
Proof.
  split.
  - intros rest u HP Hv.
    rewrite (getVideoID_short _ u HP Hv (HasPrefix_app _ _)).
    now rewrite TrimPrefix_app.
  - exact getVideoID_short_identifier.
Qed.

(** C4: a text that yields no non-empty query parameter [v] and does
    not begin with [https://youtu.be/] makes [getVideoID] fail; and
    the message [!rec not-a-url] of a requester who is no bot is
    answered by one error card whose body is exactly
    [URL Schema not valid]. *)
Theorem unrecognized_reference_fails :
  (forall s : string,
     (forall u, url.Parse s = inr u -> url.Get (url.Query u) "v" = "") ->
     strings.HasPrefix s "https://youtu.be/" = false ->
     exists e, getVideoID Quote s = inl e) /\
  (forall (w : World) (m : discordgo.MessageCreate),
     discordgo.Bot (discordgo.Author m) = false ->
     discordgo.Content m = "!rec not-a-url" ->
     exists embed,
       run (messageHandler Quote local w m)
       = (Return tt, [SendEmbed (discordgo.ChannelID m) embed]) /\
       discordgo.Title embed = "ERROR" /\
       discordgo.Description embed = "URL Schema not valid").
Proof.
  split.
  - intros s Hv Hp.
    destruct (getVideoID_invalid s Hv Hp) as [E|(e & _ & E)]; rewrite E; eauto.
  - intros w m Hbot Hc.
    rewrite (messageHandler_command w m "not-a-url" Hbot)
      by (rewrite Hc; vm_compute; reflexivity).
    replace (getVideoID Quote "not-a-url")
      with (@inl error string (errorString "URL Schema not valid"))
      by (vm_compute; reflexivity).
    destruct (sendError_only w m (errorString "URL Schema not valid"))
      as (embed & Hrun & Ht & Hd & _).
    exists embed. now repeat split.
Qed.

(** C5 (as the code has it): a message whose author is a bot, or
    whose text does not split at single space bytes into exactly two
    pieces, or whose first piece is not [!rec], gets no output at all:
    the handler returns with no card sent and nothing logged.  No
    other message is passed over in silence. *)
Theorem ignored_message_no_output (w : World) (m : discordgo.MessageCreate) :
  discordgo.Bot (discordgo.Author m) = true \/
  List.length (strings.Split (discordgo.Content m) " ") <> 2 \/
  nth 0 (strings.Split (discordgo.Content m) " ") "" <> command
  <-> run (messageHandler Quote local w m) = (Return tt, []).
Proof.
  split.
  - intros H. unfold messageHandler.
    destruct (discordgo.Bot (discordgo.Author m)); [reflexivity|].
    destruct (Nat.eqb_spec (List.length (strings.Split (discordgo.Content m) " ")) 2)
      as [Hlen|Hlen]; [|reflexivity].
    destruct (String.eqb_spec (nth 0 (strings.Split (discordgo.Content m) " ") "") command)
      as [Hcmd|Hcmd]; [|reflexivity].
    destruct H as [H|[H|H]]; [discriminate H | now elim H | now elim H].
  - intros Hrun.
    destruct (discordgo.Bot (discordgo.Author m)) eqn:Hbot; [now left|]. right.
    destruct (Nat.eq_dec (List.length (strings.Split (discordgo.Content m) " ")) 2)
      as [Hlen|Hlen]; [|now left]. right. intros Hcmd.
    destruct (strings.Split (discordgo.Content m) " ") as [|a [|b [|c l]]] eqn:Hs;
      try discriminate Hlen.
    cbn in Hcmd. subst a.
    destruct (command_answered w m b Hbot Hs) as [(embed & rest & H)|H];
      rewrite Hrun in H; discriminate H.
Qed.


(** C7: every [recommend] the mapper builds has for [URL] the text
    [https://www.youtube.com/watch?v=] followed by the record's video
    identifier, and for [channelURL] the text
    [https://www.youtube.com/channel/] followed by the record's
    channel identifier, whatever the other fields of the record hold. *)
Theorem mapMetadata_urls (item : youtube.Video) (rec : recommend) :
  mapMetadata local item = Return rec ->
  URL rec = "https://www.youtube.com/watch?v=" ++ youtube.Id item /\
  exists snippet,
    youtube.Snippet item = Some snippet /\
    channelURL rec = "https://www.youtube.com/channel/" ++ youtube.ChannelId snippet.
Proof.
  unfold mapMetadata.
  destruct (youtube.ContentDetails item) as [details|]; [|discriminate].
  destruct (duration.ParseISO8601 (youtube.Duration details)) as [d derr].
  destruct (youtube.Snippet item) as [snippet|]; [|discriminate].
  destruct (time.Parse local (youtube.PublishedAt snippet)) as [t terr].
  destruct (youtube.Thumbnails snippet) as [thumbnails|]; [|discriminate].
  destruct (youtube.High thumbnails) as [high|]; [|discriminate].
  intros E. inversion E; subst rec; clear E. simpl.
  split; [reflexivity|]. now exists snippet.
Qed.

(** C8: the success card rendered from a [recommend] carries its
    title, link and channel fields verbatim: the card's title is
    [title], its link is [URL], and its channel-name and channel-URL
    fields (the first two, and the author block) hold [channelName]
    and [channelURL] unchanged. *)
Theorem sendRecommend_verbatim
  (w : World) (m : discordgo.MessageCreate) (rec : recommend) :
  exists embed,
    run (sendRecommend w m rec)
    = (Return (ChannelMessageSendEmbed w (discordgo.ChannelID m) embed),
       [SendEmbed (discordgo.ChannelID m) embed]) /\
    discordgo.Title embed = title rec /\
    discordgo.URL embed = URL rec /\
    nth_error (discordgo.Fields embed) 0
    = Some {| discordgo.Name := "チャンネル名";
              discordgo.Value := channelName rec;
              discordgo.Inline := true |} /\
    nth_error (discordgo.Fields embed) 1
    = Some {| discordgo.Name := "URL";
              discordgo.Value := channelURL rec;
              discordgo.Inline := true |} /\
    option_map discordgo.Author_Name (discordgo.Author_ embed) = Some (channelName rec) /\
    option_map discordgo.Author_URL (discordgo.Author_ embed) = Some (channelURL rec).
Proof.
  eexists. split.
  - unfold run, sendRecommend, bindM, emit.
    now rewrite ret_answer.
  - repeat split.
Qed.

(** C9: when the fetch returns no record at all, the handler sends
    one error card whose body is exactly [Item not found], with the
    title [ERROR], the red colour and a single field that names the
    requester. *)
Theorem empty_result_item_not_found
  (w : World) (m : discordgo.MessageCreate) (arg videoID : string)
  (resp : youtube.VideoListResponse) :
  discordgo.Bot (discordgo.Author m) = false ->
  strings.Split (discordgo.Content m) " " = [command; arg] ->
  getVideoID Quote arg = inr videoID ->
  Videos_List_Do w (list_call videoID) = inr resp ->
  youtube.Items resp = [] ->
  exists embed,
    run (messageHandler Quote local w m)
    = (Return tt, [SendEmbed (discordgo.ChannelID m) embed]) /\
    discordgo.Title embed = "ERROR" /\
    discordgo.Description embed = "Item not found" /\
    discordgo.Color embed = 0xff0000%Z /\
    discordgo.Fields embed
    = [ {| discordgo.Name := "コマンド送信者";
           discordgo.Value := "<@" ++ discordgo.ID (discordgo.Author m) ++ ">";
           discordgo.Inline := false |} ].
Proof.
  intros Hbot Hsplit Hid Hdo Hitems.
  rewrite (messageHandler_command w m arg Hbot Hsplit), Hid, Hdo, Hitems.
  cbn [List.length Nat.eqb negb].
  exact (sendError_only w m (errorString "Item not found")).
Qed.

(** C10: on the text [https://youtu.be/] itself, the prefix with
    nothing after it, [getVideoID] succeeds and returns the empty
    string. *)
Theorem getVideoID_bare_prefix : getVideoID Quote "https://youtu.be/" = inr "".
Proof.
  vm_compute. reflexivity.
Qed.

End Properties.

(** ** The theorems at work on the fixtures *)

Lemma scenario_success_card_witness :
  exists embed,
    snd (run (messageHandler quote_ascii utc (world one_found)
                (message "!rec https://www.youtube.com/watch?v=abc123")))
    = [SendEmbed "c1" embed] /\
    discordgo.URL embed = "https://www.youtube.com/watch?v=abc123" /\
    nth_error (discordgo.Fields embed) 3
    = Some {| discordgo.Name := "長さ";
              discordgo.Value := "1時間2分3秒";
              discordgo.Inline := true |} /\
    List.length (discordgo.Fields embed) = 5 /\
    nth_error (discordgo.Fields embed) 4
    = Some {| discordgo.Name := "RECOMMENDED BY";
              discordgo.Value := "<@u1>";
              discordgo.Inline := false |}.
Proof.
  refine (proj2 (proj2 (scenario_success_card quote_ascii utc (world one_found)
    (message "!rec https://www.youtube.com/watch?v=abc123")
    {| youtube.Items := [fixture] |} fixture
    {| youtube.Duration := "PT1H2M3S" |} _ _ _
    eq_refl eq_refl eq_refl eq_refl eq_refl eq_refl eq_refl eq_refl
    eq_refl eq_refl eq_refl eq_refl))).
Defined.

(** The card of the scenario has no field that reads [1h2m3s]: its
    duration field reads 1時間2分3秒. *)
Lemma scenario_duration_field_units :
  exists embed,
    run (messageHandler quote_ascii utc (world one_found)
           (message "!rec https://www.youtube.com/watch?v=abc123"))
    = (Return tt, [SendEmbed "c1" embed]) /\
    map discordgo.Value (discordgo.Fields embed)
    = [ "A channel"; "https://www.youtube.com/channel/UC42";
        "2021-01-01 00:00:00 +0000 UTC"; "1時間2分3秒"; "<@u1>" ] /\
    ~ In "1h2m3s" (map discordgo.Value (discordgo.Fields embed)).
Proof.
  eexists. split; [vm_compute; reflexivity|].
  split; [reflexivity|].
  simpl. intuition discriminate.
Qed.

Lemma getVideoID_v_parameter_witness :
  getVideoID quote_ascii "https://www.youtube.com/watch?t=42&v=abc123&list=PL1"
  = inr "abc123" /\
  getVideoID quote_ascii "ftp://example.org:21/a/b?x&%76=a%20b+c" = inr "a b c".
Proof.
  split.
  - apply (getVideoID_v_parameter quote_ascii
             "https://www.youtube.com/watch?t=42&v=abc123&list=PL1"
             {| url.Scheme := "https"; url.Opaque := ""; url.User := None;
                url.Host := "www.youtube.com"; url.Path := "/watch";
                url.ForceQuery := false; url.RawQuery := "t=42&v=abc123&list=PL1";
                url.Fragment := "" |}
             [("t", "42")] [("list", "PL1")] "abc123").
    + vm_compute. reflexivity.
    + vm_compute. reflexivity.
    + repeat constructor. discriminate.
    + discriminate.
  - apply (getVideoID_v_parameter quote_ascii
             "ftp://example.org:21/a/b?x&%76=a%20b+c"
             {| url.Scheme := "ftp"; url.Opaque := ""; url.User := None;
                url.Host := "example.org:21"; url.Path := "/a/b";
                url.ForceQuery := false; url.RawQuery := "x&%76=a%20b+c";
                url.Fragment := "" |}
             [("x", "")] [] "a b c").
    + vm_compute. reflexivity.
    + vm_compute. reflexivity.
    + repeat constructor. discriminate.
    + discriminate.
Defined.

(** A text can parse as a URL and hold a parameter [v] with a value
    that is not empty, and [getVideoID] fail all the same: when an
    earlier [v] is empty, and when the piece of [v] holds a [;]. *)
Lemma v_parameter_not_always_found :
  (exists u, url.Parse "https://www.youtube.com/watch?v=&v=abc" = inr u) /\
  In ("v", "abc") (parameters (query_text "https://www.youtube.com/watch?v=&v=abc")) /\
  getVideoID quote_ascii "https://www.youtube.com/watch?v=&v=abc"
  = inl (errorString "URL Schema not valid") /\
  (exists u, url.Parse "https://www.youtube.com/watch?v=abc;x=1" = inr u) /\
  strings.Split (query_text "https://www.youtube.com/watch?v=abc;x=1") "&"
  = ["v=abc;x=1"] /\
  strings.Cut "v=abc;x=1" "=" = ("v", "abc;x=1", true) /\
  getVideoID quote_ascii "https://www.youtube.com/watch?v=abc;x=1"
  = inl (errorString "URL Schema not valid").
Proof.
  split; [eexists; vm_compute; reflexivity|].
  split; [vm_compute; right; left; reflexivity|].
  split; [vm_compute; reflexivity|].
  split; [eexists; vm_compute; reflexivity|].
  repeat split; vm_compute; reflexivity.
Qed.

Lemma getVideoID_short_link_witness :
  getVideoID quote_ascii ("https://youtu.be/" ++ "abc123?t=42") = inr "abc123?t=42" /\
  getVideoID quote_ascii ("https://youtu.be/" ++ "dQw4w9WgXcQ") = inr "dQw4w9WgXcQ".
Proof.
  destruct (getVideoID_short_link quote_ascii) as [Hrest Hid].
  split.
  - apply (Hrest "abc123?t=42"
             {| url.Scheme := "https"; url.Opaque := ""; url.User := None;
                url.Host := "youtu.be"; url.Path := "/abc123";
                url.ForceQuery := false; url.RawQuery := "t=42";
                url.Fragment := "" |}).
    + vm_compute. reflexivity.
    + vm_compute. reflexivity.
  - apply Hid. reflexivity.
Defined.

(** A short link that also holds a parameter [v] yields that
    parameter, not the rest of the text; one whose rest holds a
    garbled escape yields nothing. *)
Lemma short_link_not_always_the_rest :
  strings.HasPrefix "https://youtu.be/abc?v=xyz" "https://youtu.be/" = true /\
  getVideoID quote_ascii ("https://youtu.be/" ++ "abc?v=xyz") = inr "xyz" /\
  getVideoID quote_ascii ("https://youtu.be/" ++ "abc?v=xyz") <> inr "abc?v=xyz" /\
  exists e, getVideoID quote_ascii ("https://youtu.be/" ++ "%zz") = inl e.
Proof.
  split; [reflexivity|].
  split; [vm_compute; reflexivity|].
  split; [vm_compute; discriminate|].
  eexists. vm_compute. reflexivity.
Qed.

Lemma unrecognized_reference_fails_witness :
  (exists e, getVideoID quote_ascii "not-a-url" = inl e) /\
  (exists embed,
     run (messageHandler quote_ascii utc (world one_found) (message "!rec not-a-url"))
     = (Return tt, [SendEmbed "c1" embed]) /\
     discordgo.Title embed = "ERROR" /\
     discordgo.Description embed = "URL Schema not valid").
Proof.
  destruct (unrecognized_reference_fails quote_ascii utc) as [Hfail Hcard].
  split.
  - apply Hfail.
    + intros u Hu. vm_compute in Hu. inversion Hu. reflexivity.
    + reflexivity.
  - apply (Hcard (world one_found) (message "!rec not-a-url")); reflexivity.
Defined.

Lemma ignored_message_no_output_witness :
  run (messageHandler quote_ascii utc (world one_found) (message "!rec a b"))
  = (Return tt, []) /\
  run (messageHandler quote_ascii utc (world one_found)
         (message "!other https://youtu.be/abc"))
  = (Return tt, []).
Proof.
  split; apply ignored_message_no_output.
  - right. left. vm_compute. lia.
  - right. right. vm_compute. discriminate.
Defined.

(** A command whose argument holds a line break counts three
    whitespace-delimited tokens, and yet it is answered with a card. *)
Lemma two_lines_answered :
  discordgo.Bot (discordgo.Author two_lines) = false /\
  List.length (whitespace_tokens (discordgo.Content two_lines)) = 3 /\
  exists embed,
    run (messageHandler quote_ascii utc (world one_found) two_lines)
    = (Return tt, [SendEmbed "c1" embed]) /\
    discordgo.Title embed = "ERROR".
Proof.
  split; [reflexivity|]. split; [reflexivity|].
  eexists. split; [vm_compute; reflexivity | reflexivity].
Qed.



Lemma mapMetadata_urls_witness :
  exists rec,
    mapMetadata utc fixture = Return rec /\
    URL rec = "https://www.youtube.com/watch?v=abc123" /\
    channelURL rec = "https://www.youtube.com/channel/UC42".
Proof.
  destruct (mapMetadata utc fixture) as [rec|] eqn:E;
    [|vm_compute in E; discriminate E].
  exists rec. split; [reflexivity|].
  destruct (mapMetadata_urls utc fixture rec E) as (Hurl & snippet & Hs & Hch).
  inversion Hs; subst snippet.
  split; [exact Hurl | exact Hch].
Defined.

Lemma empty_result_item_not_found_witness :
  exists embed,
    run (messageHandler quote_ascii utc (world nothing_found)
           (message "!rec https://youtu.be/abc"))
    = (Return tt, [SendEmbed "c1" embed]) /\
    discordgo.Title embed = "ERROR" /\
    discordgo.Description embed = "Item not found" /\
    discordgo.Color embed = 0xff0000%Z /\
    discordgo.Fields embed
    = [ {| discordgo.Name := "コマンド送信者";
           discordgo.Value := "<@u1>";
           discordgo.Inline := false |} ].
Proof.
  apply (empty_result_item_not_found quote_ascii utc (world nothing_found)
           (message "!rec https://youtu.be/abc") "https://youtu.be/abc" "abc"
           {| youtube.Items := [] |});
    vm_compute; reflexivity.
Defined.

(** ** Further properties of the extractor *)

Lemma identifier_no_space (s : string) : identifier s -> absent " " s.
Proof.
  apply forallb_string_impl. intros c Hc.
  destruct c as [[] [] [] [] [] [] [] []]; try discriminate Hc; reflexivity.
Qed.

Section Extractor.

Variable Quote : string -> string.

(** X1: [getVideoID] succeeds with the empty identifier on one text
    only, the prefix [https://youtu.be/] with nothing after it. *)
Theorem getVideoID_empty_only_bare_prefix (s : string) :
  getVideoID Quote s = inr "" <-> s = "https://youtu.be/".
Proof.
  split.
  - unfold getVideoID.
    destruct (url.Parse s) as [e|u]; [discriminate|].
    destruct (String.eqb_spec (url.Get (url.Query u) "v") "") as [_|Hv]; cbn [negb].
    + destruct (strings.HasPrefix s "https://youtu.be/") eqn:Hp; [|discriminate].
      apply HasPrefix_split in Hp as [r ->].
      rewrite TrimPrefix_app. intros E. inversion E. reflexivity.
    + intros E. inversion E. now elim Hv.
  - intros ->. vm_compute. reflexivity.
Qed.

(** X2: a control byte anywhere before the fragment makes
    [getVideoID] fail with the parse error, whatever else the text
    holds, the short-link prefix included. *)
Theorem getVideoID_control_byte (s : string) :
  url.stringContainsCTLByte (fst (fst (strings.Cut s "#"))) = true ->
  getVideoID Quote s
  = inl (errorString
           ("Failed to parse URL : "
            ++ url.Error_text Quote
                 {| url.Op := "parse";
                    url.Error_URL := fst (fst (strings.Cut s "#"));
                    url.Err := url.InvalidControlCharacter |})).
Proof.
  intros H. unfold getVideoID, url.Parse.
  destruct (strings.Cut s "#") as [[u frag] found]. cbn [fst] in H.
  unfold url.parse. now rewrite H.
Qed.

(** X3: the parameter [v] wins over the short-link prefix: a short
    link of one identifier that carries [?v=] and another identifier
    yields the other one. *)
Theorem getVideoID_v_before_prefix (id1 id2 tail : string) :
  identifier id1 -> identifier id2 -> id2 <> "" -> more_parameters tail ->
  getVideoID Quote ("https://youtu.be/" ++ id1 ++ "?v=" ++ id2 ++ tail) = inr id2.
Proof.
  intros H1 H2 Hne Htail.
  rewrite <- append_assoc.
  apply (getVideoID_watch_link Quote _ id2 tail _ (Parse_short_link id1 H1));
    try assumption.
  - apply absent_app. split; [reflexivity | now apply identifier_absent].
  - apply absent_app. split; [reflexivity | now apply identifier_absent].
Qed.

End Extractor.

(** ** Further properties of the dispatcher *)

(** [Split] undone: one piece is the text itself, two pieces are the
    text around its only separator. *)
Lemma Split_from_not_nil (sep s : string) :
  forall (skip : nat) (cur : string), strings.Split_from skip cur s sep <> [].
Proof.
  induction s as [|c s IH]; intros skip cur; [discriminate|].
  cbn [strings.Split_from]. destruct skip as [|k]; [|apply IH].
  destruct (strings.HasPrefix (String c s) sep); [discriminate | apply IH].
Qed.

Lemma Split_from_one (x : ascii) (s cur r : string) :
  strings.Split_from 0 cur s (String x "") = [r] ->
  r = cur ++ s /\ absent x s.
Proof.
  revert cur. induction s as [|c s IH]; intros cur H.
  - cbn in H. inversion H. now rewrite append_empty_r.
  - cbn [strings.Split_from] in H. rewrite HasPrefix_byte in H.
    destruct (Ascii.eqb c x) eqn:Hc.
    + cbn [String.length Nat.sub] in H. inversion H as [[Hr Hnil]].
      now apply Split_from_not_nil in Hnil.
    + destruct (IH _ H) as [-> Hs]. split.
      * now rewrite append_assoc.
      * apply absent_cons. now split.
Qed.

Lemma Split_from_two (x : ascii) (s cur a b : string) :
  strings.Split_from 0 cur s (String x "") = [a; b] ->
  exists a', a = cur ++ a' /\ s = a' ++ String x b /\ absent x a' /\ absent x b.
Proof.
  revert cur. induction s as [|c s IH]; intros cur H.
  - discriminate H.
  - cbn [strings.Split_from] in H. rewrite HasPrefix_byte in H.
    destruct (Ascii.eqb_spec c x) as [->|Hc].
    + cbn [String.length Nat.sub] in H. inversion H as [[Ha Hb]].
      apply Split_from_one in Hb as [-> Hs].
      exists "". rewrite append_empty_r. now repeat split.
    + destruct (IH _ H) as (a' & -> & -> & Ha & Hb).
      exists (String c a'). rewrite append_assoc. repeat split; try assumption.
      apply absent_cons. split; [now apply Ascii.eqb_neq | assumption].
Qed.

Lemma Split_two_inv (s a b : string) :
  strings.Split s " " = [a; b] ->
  s = a ++ " " ++ b /\ absent " " a /\ absent " " b.
Proof.
  intros H. apply Split_from_two in H as (a' & -> & -> & Ha & Hb).
  now repeat split.
Qed.

(** The pieces are one more than the separators. *)
Lemma Split_from_length (x : ascii) (s cur : string) :
  List.length (strings.Split_from 0 cur s (String x ""))
  = S (strings.Count s (String x "")).
Proof.
  revert cur. induction s as [|c s IH]; intros cur; [reflexivity|].
  rewrite Count_cons. cbn [strings.Split_from]. rewrite HasPrefix_byte.
  destruct (Ascii.eqb c x); cbn [String.length Nat.sub List.length Nat.add];
    now rewrite IH.
Qed.

Section Dispatcher.

Variable Quote : string -> string.
Variable local : Z -> string * Z.

(** The three ways past which the handler does nothing. *)
Lemma filtered_out (w : World) (m : discordgo.MessageCreate) :
  discordgo.Bot (discordgo.Author m) = true \/
  List.length (strings.Split (discordgo.Content m) " ") <> 2 \/
  nth 0 (strings.Split (discordgo.Content m) " ") "" <> command ->
  run (messageHandler Quote local w m) = (Return tt, []).
Proof.
  intros H. unfold messageHandler.
  destruct (discordgo.Bot (discordgo.Author m)); [reflexivity|].
  destruct (Nat.eqb_spec (List.length (strings.Split (discordgo.Content m) " ")) 2)
    as [Hlen|Hlen]; [|reflexivity].
  destruct (String.eqb_spec (nth 0 (strings.Split (discordgo.Content m) " ") "") command)
    as [Hcmd|Hcmd]; [|reflexivity].
  destruct H as [H|[H|H]]; [discriminate H | now elim H | now elim H].
Qed.

(** Past the filter the text is [!rec] and one more piece. *)
Lemma passed_filter (m : discordgo.MessageCreate) :
  discordgo.Bot (discordgo.Author m) = false ->
  List.length (strings.Split (discordgo.Content m) " ") = 2 ->
  nth 0 (strings.Split (discordgo.Content m) " ") "" = command ->
  exists arg, strings.Split (discordgo.Content m) " " = [command; arg].
Proof.
  intros _ Hlen Hcmd.
  destruct (strings.Split (discordgo.Content m) " ") as [|a [|b [|c l]]];
    try discriminate Hlen.
  cbn in Hcmd. subst a. now exists b.
Qed.

(** The run of the handler on a record with every part: the card in
    full, and the log line of a send that failed. *)
Lemma success_run
  (w : World) (m : discordgo.MessageCreate) (arg videoID : string)
  (resp : youtube.VideoListResponse) (item : youtube.Video)
  (details : youtube.VideoContentDetails) (snippet : youtube.VideoSnippet)
  (thumbnails : youtube.ThumbnailDetails) (high : youtube.Thumbnail) :
  discordgo.Bot (discordgo.Author m) = false ->
  strings.Split (discordgo.Content m) " " = [command; arg] ->
  getVideoID Quote arg = inr videoID ->
  Videos_List_Do w (list_call videoID) = inr resp ->
  youtube.Items resp = [item] ->
  youtube.ContentDetails item = Some details ->
  youtube.Snippet item = Some snippet ->
  youtube.Thumbnails snippet = Some thumbnails ->
  youtube.High thumbnails = Some high ->
  exists embed,
    embed
    = {| discordgo.URL := "https://www.youtube.com/watch?v=" ++ youtube.Id item;
         discordgo.Type_ := "rich";
         discordgo.Title := youtube.Title snippet;
         discordgo.Description := youtube.Description snippet;
         discordgo.Timestamp := time.Format_RFC3339 (Now w);
         discordgo.Color := 0x00ff00;
         discordgo.Image := Some {| discordgo.Image_URL := youtube.Url high |};
         discordgo.Thumbnail := Some {| discordgo.Thumbnail_URL := "" |};
         discordgo.Author_ :=
           Some {| discordgo.Author_URL :=
                     "https://www.youtube.com/channel/" ++ youtube.ChannelId snippet;
                   discordgo.Author_Name := youtube.ChannelTitle snippet;
                   discordgo.Author_IconURL := "" |};
         discordgo.Fields :=
           [ {| discordgo.Name := "チャンネル名";
                discordgo.Value := youtube.ChannelTitle snippet;
                discordgo.Inline := true |};
             {| discordgo.Name := "URL";
                discordgo.Value :=
                  "https://www.youtube.com/channel/" ++ youtube.ChannelId snippet;
                discordgo.Inline := true |};
             {| discordgo.Name := "公開日時";
                discordgo.Value :=
                  time.String_ (fst (time.Parse local (youtube.PublishedAt snippet)));
                discordgo.Inline := false |};
             {| discordgo.Name := "長さ";
                discordgo.Value :=
                  let d := fst (duration.ParseISO8601 (youtube.Duration details)) in
                  strconv.Itoa (duration.TH d) ++ "時間"
                  ++ strconv.Itoa (duration.TM d) ++ "分"
                  ++ strconv.Itoa (duration.TS d) ++ "秒";
                discordgo.Inline := true |};
             {| discordgo.Name := "RECOMMENDED BY";
                discordgo.Value := "<@" ++ discordgo.ID (discordgo.Author m) ++ ">";
                discordgo.Inline := false |} ] |} /\
    run (messageHandler Quote local w m)
    = (Return tt,
       SendEmbed (discordgo.ChannelID m) embed
       :: match ChannelMessageSendEmbed w (discordgo.ChannelID m) embed with
          | Some err => [LogErrorf "ERROR :" [err]]
          | None => []
          end).
Proof.
  intros Hbot Hsplit Hid Hdo Hitems Hdet Hsn Hth Hhigh.
  eexists. split; [reflexivity|].
  rewrite (messageHandler_command Quote local w m arg Hbot Hsplit), Hid, Hdo, Hitems.
  cbn [List.length Nat.eqb negb].
  unfold mapMetadata. rewrite Hdet, Hsn, Hth, Hhigh.
  destruct (duration.ParseISO8601 (youtube.Duration details)) as [d derr].
  destruct (time.Parse local (youtube.PublishedAt snippet)) as [t terr].
  cbv [run bindM lift sendRecommend emit mention].
  cbn [fst title URL imageURL channelName channelThumbnailURL channelURL
       description duration publishedAt].
  now destruct (ChannelMessageSendEmbed w _ _).
Qed.

(** X4: the command's grammar.  The handler does anything at all
    exactly for a message of an author who is no bot whose text is
    [!rec], one space and one piece without a space (an empty piece
    too); every other message is passed over in silence. *)
Theorem command_grammar (w : World) (m : discordgo.MessageCreate) :
  run (messageHandler Quote local w m) <> (Return tt, [])
  <-> discordgo.Bot (discordgo.Author m) = false /\
      exists arg, discordgo.Content m = command ++ " " ++ arg /\ absent " " arg.
Proof.
  split.
  - intros Hrun.
    destruct (discordgo.Bot (discordgo.Author m)) eqn:Hbot.
    { elim Hrun. apply filtered_out. left. exact Hbot. }
    destruct (Nat.eq_dec (List.length (strings.Split (discordgo.Content m) " ")) 2)
      as [Hlen|Hlen].
    2:{ elim Hrun. apply filtered_out. right. left. exact Hlen. }
    destruct (string_dec (nth 0 (strings.Split (discordgo.Content m) " ") "") command)
      as [Hcmd|Hcmd].
    2:{ elim Hrun. apply filtered_out. right. right. exact Hcmd. }
    destruct (passed_filter m Hbot Hlen Hcmd) as [arg Hs].
    split; [reflexivity|]. exists arg.
    apply Split_two_inv in Hs as (E & _ & Harg). now split.
  - intros (Hbot & arg & Hc & Harg) Hrun.
    assert (Hs : strings.Split (discordgo.Content m) " " = [command; arg]).
    { rewrite Hc. apply Split_two; [reflexivity | exact Harg]. }
    destruct (command_answered Quote local w m arg Hbot Hs) as [(embed & rest & H)|H];
      rewrite Hrun in H; discriminate H.
Qed.

(** X5: whatever the message and the outside, the handler sends at
    most one card, to the channel the message came from, and logs at
    most one line, the error of a success card that could not be
    sent.  A panic comes before anything is sent. *)
Theorem at_most_one_card (w : World) (m : discordgo.MessageCreate) :
  run (messageHandler Quote local w m) = (Return tt, []) \/
  run (messageHandler Quote local w m) = (Panic, []) \/
  (exists embed,
     run (messageHandler Quote local w m)
     = (Return tt, [SendEmbed (discordgo.ChannelID m) embed])) \/
  (exists embed err,
     ChannelMessageSendEmbed w (discordgo.ChannelID m) embed = Some err /\
     discordgo.Color embed = 0x00ff00%Z /\
     run (messageHandler Quote local w m)
     = (Return tt, [SendEmbed (discordgo.ChannelID m) embed;
                    LogErrorf "ERROR :" [err]])).
Proof.
  destruct (discordgo.Bot (discordgo.Author m)) eqn:Hbot.
  { left. apply filtered_out. now left. }
  destruct (Nat.eq_dec (List.length (strings.Split (discordgo.Content m) " ")) 2)
    as [Hlen|Hlen].
  2:{ left. apply filtered_out. right. now left. }
  destruct (string_dec (nth 0 (strings.Split (discordgo.Content m) " ") "") command)
    as [Hcmd|Hcmd].
  2:{ left. apply filtered_out. right. now right. }
  destruct (passed_filter m Hbot Hlen Hcmd) as [arg Hs].
  right.
  assert (Herr : forall e,
    exists embed,
      run (let* _ := sendError w m e in ret tt)
      = (Return tt, [SendEmbed (discordgo.ChannelID m) embed])).
  { intros e. destruct (sendError_only w m e) as (embed & Hrun & _). now exists embed. }
  destruct (getVideoID Quote arg) as [e|videoID] eqn:Hid.
  { right. left. rewrite (messageHandler_command Quote local w m arg Hbot Hs), Hid.
    apply Herr. }
  destruct (Videos_List_Do w (list_call videoID)) as [e|resp] eqn:Hdo.
  { right. left. rewrite (messageHandler_command Quote local w m arg Hbot Hs), Hid, Hdo.
    apply Herr. }
  destruct (youtube.Items resp) as [|item [|item' items]] eqn:Hitems.
  { right. left.
    rewrite (messageHandler_command Quote local w m arg Hbot Hs), Hid, Hdo, Hitems.
    apply Herr. }
  2:{ right. left.
      rewrite (messageHandler_command Quote local w m arg Hbot Hs), Hid, Hdo, Hitems.
      apply Herr. }
  destruct (wellFormed item) eqn:Hwf.
  - unfold wellFormed in Hwf.
    destruct (youtube.ContentDetails item) as [details|] eqn:Hdet; [|discriminate].
    destruct (youtube.Snippet item) as [snippet|] eqn:Hsn; [|discriminate].
    destruct (youtube.Thumbnails snippet) as [thumbnails|] eqn:Hth; [|discriminate].
    destruct (youtube.High thumbnails) as [high|] eqn:Hhigh; [|discriminate].
    destruct (success_run w m arg videoID resp item details snippet thumbnails high
                Hbot Hs Hid Hdo Hitems Hdet Hsn Hth Hhigh) as (embed & Hembed & Hrun).
    rewrite Hrun.
    destruct (ChannelMessageSendEmbed w (discordgo.ChannelID m) embed) as [err|] eqn:Hsend.
    + right. right. exists embed, err. rewrite Hembed at 2. now repeat split.
    + right. left. now exists embed.
  - left.
    rewrite (messageHandler_command Quote local w m arg Hbot Hs), Hid, Hdo, Hitems.
    cbn [List.length Nat.eqb negb].
    destruct (mapMetadata local item) as [rec|] eqn:Hmap; [|reflexivity].
    assert (Hex : exists rec, mapMetadata local item = Return rec) by (now exists rec).
    apply mapMetadata_returns_iff in Hex. congruence.
Qed.

(** X6: the success card in full.  For a record that has every part,
    the card sent holds the record's title, description and
    high-resolution thumbnail, a link built from the record's own
    identifier, no channel icon, the five fields in their order, the
    time of rendering as its timestamp and the green colour; a send
    that fails is logged once and nothing else follows. *)
Theorem success_card_in_full
  (w : World) (m : discordgo.MessageCreate) (arg videoID : string)
  (resp : youtube.VideoListResponse) (item : youtube.Video)
  (details : youtube.VideoContentDetails) (snippet : youtube.VideoSnippet)
  (thumbnails : youtube.ThumbnailDetails) (high : youtube.Thumbnail) :
  discordgo.Bot (discordgo.Author m) = false ->
  strings.Split (discordgo.Content m) " " = [command; arg] ->
  getVideoID Quote arg = inr videoID ->
  Videos_List_Do w (list_call videoID) = inr resp ->
  youtube.Items resp = [item] ->
  youtube.ContentDetails item = Some details ->
  youtube.Snippet item = Some snippet ->
  youtube.Thumbnails snippet = Some thumbnails ->
  youtube.High thumbnails = Some high ->
  exists embed,
    embed
    = {| discordgo.URL := "https://www.youtube.com/watch?v=" ++ youtube.Id item;
         discordgo.Type_ := "rich";
         discordgo.Title := youtube.Title snippet;
         discordgo.Description := youtube.Description snippet;
         discordgo.Timestamp := time.Format_RFC3339 (Now w);
         discordgo.Color := 0x00ff00;
         discordgo.Image := Some {| discordgo.Image_URL := youtube.Url high |};
         discordgo.Thumbnail := Some {| discordgo.Thumbnail_URL := "" |};
         discordgo.Author_ :=
           Some {| discordgo.Author_URL :=
                     "https://www.youtube.com/channel/" ++ youtube.ChannelId snippet;
                   discordgo.Author_Name := youtube.ChannelTitle snippet;
                   discordgo.Author_IconURL := "" |};
         discordgo.Fields :=
           [ {| discordgo.Name := "チャンネル名";
                discordgo.Value := youtube.ChannelTitle snippet;
                discordgo.Inline := true |};
             {| discordgo.Name := "URL";
                discordgo.Value :=
                  "https://www.youtube.com/channel/" ++ youtube.ChannelId snippet;
                discordgo.Inline := true |};
             {| discordgo.Name := "公開日時";
                discordgo.Value :=
                  time.String_ (fst (time.Parse local (youtube.PublishedAt snippet)));
                discordgo.Inline := false |};
             {| discordgo.Name := "長さ";
                discordgo.Value :=
                  let d := fst (duration.ParseISO8601 (youtube.Duration details)) in
                  strconv.Itoa (duration.TH d) ++ "時間"
                  ++ strconv.Itoa (duration.TM d) ++ "分"
                  ++ strconv.Itoa (duration.TS d) ++ "秒";
                discordgo.Inline := true |};
             {| discordgo.Name := "RECOMMENDED BY";
                discordgo.Value := "<@" ++ discordgo.ID (discordgo.Author m) ++ ">";
                discordgo.Inline := false |} ] |} /\
    run (messageHandler Quote local w m)
    = (Return tt,
       SendEmbed (discordgo.ChannelID m) embed
       :: match ChannelMessageSendEmbed w (discordgo.ChannelID m) embed with
          | Some err => [LogErrorf "ERROR :" [err]]
          | None => []
          end).
Proof.
  exact (success_run w m arg videoID resp item details snippet thumbnails high).
Qed.

(** X7: an error of the fetch reaches the requester as it is: one
    error card whose body is the error's text, and nothing else. *)
Theorem fetch_error_card
  (w : World) (m : discordgo.MessageCreate) (arg videoID : string) (err : error) :
  discordgo.Bot (discordgo.Author m) = false ->
  strings.Split (discordgo.Content m) " " = [command; arg] ->
  getVideoID Quote arg = inr videoID ->
  Videos_List_Do w (list_call videoID) = inl err ->
  exists embed,
    run (messageHandler Quote local w m)
    = (Return tt, [SendEmbed (discordgo.ChannelID m) embed]) /\
    discordgo.Title embed = "ERROR" /\
    discordgo.Description embed = Error err /\
    discordgo.Color embed = 0xff0000%Z /\
    discordgo.Fields embed
    = [ {| discordgo.Name := "コマンド送信者";
           discordgo.Value := "<@" ++ discordgo.ID (discordgo.Author m) ++ ">";
           discordgo.Inline := false |} ].
Proof.
  intros Hbot Hsplit Hid Hdo.
  rewrite (messageHandler_command Quote local w m arg Hbot Hsplit), Hid, Hdo.
  exact (sendError_only w m err).
Qed.

(** X8: a result of two records or more is no better than none: any
    number of records other than one gives the error card
    [Item not found], and no record is looked at. *)
Theorem not_one_record_not_found
  (w : World) (m : discordgo.MessageCreate) (arg videoID : string)
  (resp : youtube.VideoListResponse) :
  discordgo.Bot (discordgo.Author m) = false ->
  strings.Split (discordgo.Content m) " " = [command; arg] ->
  getVideoID Quote arg = inr videoID ->
  Videos_List_Do w (list_call videoID) = inr resp ->
  List.length (youtube.Items resp) <> 1 ->
  exists embed,
    run (messageHandler Quote local w m)
    = (Return tt, [SendEmbed (discordgo.ChannelID m) embed]) /\
    discordgo.Title embed = "ERROR" /\
    discordgo.Description embed = "Item not found".
Proof.
  intros Hbot Hsplit Hid Hdo Hlen.
  rewrite (messageHandler_command Quote local w m arg Hbot Hsplit), Hid, Hdo.
  apply Nat.eqb_neq in Hlen. rewrite Hlen. cbn [negb].
  destruct (sendError_only w m (errorString "Item not found"))
    as (embed & Hrun & Ht & Hd & _).
  now exists embed.
Qed.

(** X9: a record that lacks a part the mapper reads through (the
    content details, the snippet, its thumbnails or the
    high-resolution one) makes the handler panic before it has sent or
    logged anything. *)
Theorem missing_part_panics
  (w : World) (m : discordgo.MessageCreate) (arg videoID : string)
  (resp : youtube.VideoListResponse) (item : youtube.Video) :
  discordgo.Bot (discordgo.Author m) = false ->
  strings.Split (discordgo.Content m) " " = [command; arg] ->
  getVideoID Quote arg = inr videoID ->
  Videos_List_Do w (list_call videoID) = inr resp ->
  youtube.Items resp = [item] ->
  wellFormed item = false ->
  run (messageHandler Quote local w m) = (Panic, []).
Proof.
  intros Hbot Hsplit Hid Hdo Hitems Hwf.
  rewrite (messageHandler_command Quote local w m arg Hbot Hsplit), Hid, Hdo, Hitems.
  cbn [List.length Nat.eqb negb].
  destruct (mapMetadata local item) as [rec|] eqn:Hmap; [|reflexivity].
  assert (Hex : exists rec, mapMetadata local item = Return rec) by (now exists rec).
  apply mapMetadata_returns_iff in Hex. congruence.
Qed.

(** The renderers read the world through the clock and the chat
    service only. *)
Lemma sendError_agree (w w' : World) (m : discordgo.MessageCreate) (e : error) :
  Now w = Now w' ->
  (forall ch embed, ChannelMessageSendEmbed w ch embed = ChannelMessageSendEmbed w' ch embed) ->
  forall log, sendError w m e log = sendError w' m e log.
Proof.
  intros Hnow Hsend log. unfold sendError, bindM, emit.
  now rewrite Hnow, Hsend.
Qed.

Lemma sendRecommend_agree (w w' : World) (m : discordgo.MessageCreate) (rec : recommend) :
  Now w = Now w' ->
  (forall ch embed, ChannelMessageSendEmbed w ch embed = ChannelMessageSendEmbed w' ch embed) ->
  forall log, sendRecommend w m rec log = sendRecommend w' m rec log.
Proof.
  intros Hnow Hsend log. unfold sendRecommend, bindM, emit.
  now rewrite Hnow, Hsend.
Qed.

(** X10: the handler reads the catalog through one call only: the
    list call for the extracted identifier, with the parts [id],
    [snippet] and [contentDetails] and at most one result.  Two worlds
    with the same clock and chat service that answer that call alike
    see the same run. *)
Theorem one_catalog_call (w w' : World) (m : discordgo.MessageCreate) :
  Now w = Now w' ->
  (forall ch embed, ChannelMessageSendEmbed w ch embed = ChannelMessageSendEmbed w' ch embed) ->
  (forall arg videoID,
     strings.Split (discordgo.Content m) " " = [command; arg] ->
     getVideoID Quote arg = inr videoID ->
     Videos_List_Do w
       {| youtube.part := ["id"; "snippet"; "contentDetails"];
          youtube.id := videoID;
          youtube.maxResults := 1 |}
     = Videos_List_Do w'
       {| youtube.part := ["id"; "snippet"; "contentDetails"];
          youtube.id := videoID;
          youtube.maxResults := 1 |}) ->
  run (messageHandler Quote local w m) = run (messageHandler Quote local w' m).
Proof.
  intros Hnow Hsend Hdo.
  destruct (discordgo.Bot (discordgo.Author m)) eqn:Hbot.
  { rewrite !filtered_out; auto. }
  destruct (Nat.eq_dec (List.length (strings.Split (discordgo.Content m) " ")) 2)
    as [Hlen|Hlen].
  2:{ rewrite !filtered_out; auto. }
  destruct (string_dec (nth 0 (strings.Split (discordgo.Content m) " ") "") command)
    as [Hcmd|Hcmd].
  2:{ rewrite !filtered_out; auto. }
  destruct (passed_filter m Hbot Hlen Hcmd) as [arg Hs].
  rewrite !(messageHandler_command Quote local _ m arg Hbot Hs).
  assert (Herr : forall e,
    run (let* _ := sendError w m e in ret tt)
    = run (let* _ := sendError w' m e in ret tt)).
  { intros e. unfold run, bindM. now rewrite (sendError_agree w w' m e Hnow Hsend). }
  destruct (getVideoID Quote arg) as [e|videoID] eqn:Hid; [apply Herr|].
  unfold list_call. rewrite <- (Hdo arg videoID Hs Hid).
  destruct (Videos_List_Do w _) as [e|resp]; [apply Herr|].
  destruct (negb (Nat.eqb (List.length (youtube.Items resp)) 1)); [apply Herr|].
  destruct (youtube.Items resp) as [|item items]; [reflexivity|].
  destruct (mapMetadata local item) as [rec|]; [|reflexivity].
  cbv [run bindM lift].
  rewrite (sendRecommend_agree w w' m rec Hnow Hsend).
  reflexivity.
Qed.

(** X11: what the requester sees of a record whose duration and
    publish time cannot be read: the duration field reads 0時間0分0秒
    and the publish field the zero time,
    [0001-01-01 00:00:00 +0000 UTC]; the card is sent all the same. *)
Theorem unreadable_fields_render_zero
  (w : World) (m : discordgo.MessageCreate) (arg videoID : string)
  (resp : youtube.VideoListResponse) (item : youtube.Video)
  (details : youtube.VideoContentDetails) (snippet : youtube.VideoSnippet)
  (thumbnails : youtube.ThumbnailDetails) (high : youtube.Thumbnail) :
  discordgo.Bot (discordgo.Author m) = false ->
  strings.Split (discordgo.Content m) " " = [command; arg] ->
  getVideoID Quote arg = inr videoID ->
  Videos_List_Do w (list_call videoID) = inr resp ->
  youtube.Items resp = [item] ->
  youtube.ContentDetails item = Some details ->
  youtube.Snippet item = Some snippet ->
  youtube.Thumbnails snippet = Some thumbnails ->
  youtube.High thumbnails = Some high ->
  ~ ISO8601_duration (youtube.Duration details) ->
  snd (time.Parse local (youtube.PublishedAt snippet)) <> None ->
  exists embed rest,
    run (messageHandler Quote local w m)
    = (Return tt, SendEmbed (discordgo.ChannelID m) embed :: rest) /\
    discordgo.Color embed = 0x00ff00%Z /\
    map discordgo.Value (discordgo.Fields embed)
    = [ youtube.ChannelTitle snippet;
        "https://www.youtube.com/channel/" ++ youtube.ChannelId snippet;
        "0001-01-01 00:00:00 +0000 UTC";
        "0時間0分0秒";
        "<@" ++ discordgo.ID (discordgo.Author m) ++ ">" ].
Proof.
  intros Hbot Hsplit Hid Hdo Hitems Hdet Hsn Hth Hhigh Hdur Hpub.
  destruct (success_run w m arg videoID resp item details snippet thumbnails high
              Hbot Hsplit Hid Hdo Hitems Hdet Hsn Hth Hhigh) as (embed & Hembed & Hrun).
  exists embed. eexists. split; [exact Hrun|].
  rewrite Hembed. cbn [discordgo.Color discordgo.Fields map discordgo.Value].
  rewrite (ParseISO8601_invalid _ Hdur), (Parse_failure_zero local _ Hpub).
  split; reflexivity.
Qed.

(** X12: an identifier on its own is not accepted as a reference (the
    source leaves it as a TODO): the command [!rec] followed by a text
    of letters, digits, [-] and [_] only, or by nothing, is answered
    with the error card [URL Schema not valid] and no fetch is made,
    the run being the same whatever the catalog would answer. *)
Theorem bare_identifier_command
  (w : World) (m : discordgo.MessageCreate) (id : string) :
  discordgo.Bot (discordgo.Author m) = false ->
  discordgo.Content m = command ++ " " ++ id ->
  identifier id ->
  exists embed,
    run (messageHandler Quote local w m)
    = (Return tt, [SendEmbed (discordgo.ChannelID m) embed]) /\
    discordgo.Title embed = "ERROR" /\
    discordgo.Description embed = "URL Schema not valid".
Proof.
  intros Hbot Hc Hid.
  assert (Hs : strings.Split (discordgo.Content m) " " = [command; id]).
  { rewrite Hc. apply Split_two; [reflexivity | now apply identifier_no_space]. }
  rewrite (messageHandler_command Quote local w m id Hbot Hs).
  rewrite (getVideoID_bare_identifier Quote id Hid).
  destruct (sendError_only w m (errorString "URL Schema not valid"))
    as (embed & Hrun & Ht & Hd & _).
  now exists embed.
Qed.

(** X13: the link of a card leads back to its record: the [URL] the
    mapper builds for a record, given to [getVideoID], yields the
    record's identifier, when that is a non-empty text of letters,
    digits, [-] and [_]. *)
Theorem card_link_round_trip (item : youtube.Video) (rec : recommend) :
  mapMetadata local item = Return rec ->
  identifier (youtube.Id item) -> youtube.Id item <> "" ->
  getVideoID Quote (URL rec) = inr (youtube.Id item).
Proof.
  unfold mapMetadata.
  destruct (youtube.ContentDetails item) as [details|]; [|discriminate].
  destruct (duration.ParseISO8601 (youtube.Duration details)) as [d derr].
  destruct (youtube.Snippet item) as [snippet|]; [|discriminate].
  destruct (time.Parse local (youtube.PublishedAt snippet)) as [t terr].
  destruct (youtube.Thumbnails snippet) as [thumbnails|]; [|discriminate].
  destruct (youtube.High thumbnails) as [high|]; [|discriminate].
  intros E Hid Hne. inversion E; subst rec; clear E. cbn [URL].
  pose proof (getVideoID_watch_link Quote "https://www.youtube.com/watch"
                (youtube.Id item) ""
                {| url.Scheme := "https"; url.Opaque := ""; url.User := None;
                   url.Host := "www.youtube.com"; url.Path := "/watch";
                   url.ForceQuery := false; url.RawQuery := "";
                   url.Fragment := "" |}) as H.
  rewrite append_empty_r in H. apply H; try assumption; try reflexivity.
  split; [now left | split; reflexivity].
Qed.

End Dispatcher.

(** ** Further properties of the mapper *)

Lemma Atoi_fits (s : string) (v : Z) : strconv.Atoi s = Some v -> fits_int v.
Proof.
  unfold strconv.Atoi, fits_int.
  destruct (Z.leb_spec (strconv.digits_value 0 s) strconv.maxInt) as [Hle|_];
    [|discriminate].
  intros E. inversion E; subst v. split; [|exact Hle].
  apply digits_value_nonneg. lia.
Qed.

Lemma set_fits (name : duration.field) (v : Z) (d : duration.Duration) :
  fits_int v -> components_fit d -> components_fit (duration.set name v d).
Proof.
  unfold components_fit. intros Hv (HY & HM & HW & HD & HTH & HTM & HTS).
  destruct name; cbn [duration.set duration.Y duration.M duration.W duration.D
                      duration.TH duration.TM duration.TS]; tauto.
Qed.

Lemma assign_fits (parts : list (duration.field * string)) :
  forall d, components_fit d -> components_fit (fst (duration.assign d parts)).
Proof.
  induction parts as [|[name part] parts IH]; intros d Hd; [exact Hd|].
  cbn [duration.assign].
  destruct (String.eqb part ""); [now apply IH|].
  destruct (strconv.Atoi part) as [v|] eqn:E; [|exact Hd].
  apply IH. apply set_fits; [exact (Atoi_fits _ _ E) | exact Hd].
Qed.

Lemma ParseISO8601_fits (s : string) : components_fit (fst (duration.ParseISO8601 s)).
Proof.
  assert (Hzero : components_fit duration.zero).
  { unfold components_fit, fits_int. cbn. unfold strconv.maxInt. lia. }
  unfold duration.ParseISO8601.
  destruct (duration.pattern s) as [parts|]; [now apply assign_fits | exact Hzero].
Qed.

Section Mapper.

Variable local : Z -> string * Z.

(** X14: whatever the duration text of the record, readable or not,
    every component of the duration the mapper stores is a
    non-negative number that fits the 64-bit [int]: a component too
    large ends the reading, it is never stored wrapped around or
    negative. *)
Theorem mapped_duration_fits (item : youtube.Video) (rec : recommend) :
  mapMetadata local item = Return rec -> components_fit (duration rec).
Proof.
  unfold mapMetadata.
  destruct (youtube.ContentDetails item) as [details|]; [|discriminate].
  pose proof (ParseISO8601_fits (youtube.Duration details)) as Hfit.
  destruct (duration.ParseISO8601 (youtube.Duration details)) as [d derr].
  destruct (youtube.Snippet item) as [snippet|]; [|discriminate].
  destruct (time.Parse local (youtube.PublishedAt snippet)) as [t terr].
  destruct (youtube.Thumbnails snippet) as [thumbnails|]; [|discriminate].
  destruct (youtube.High thumbnails) as [high|]; [|discriminate].
  intros E. inversion E; subst rec; clear E. exact Hfit.
Qed.

End Mapper.

(** ** Properties of start-up *)

(** X15: the process stays up, waiting, exactly when both flags hold
    a text, the catalog client can be made and the gateway opens; in
    every other case it panics or exits with status 1. *)
Theorem process_waits_iff (p : Platform) :
  snd (process p) = Waits
  <-> flag_discord p <> "" /\ flag_youtube p <> "" /\
      (exists service, youtube_New p {| Transport_Key := flag_youtube p |} = inr service) /\
      Session_Open p ("Bot " ++ flag_discord p) = None.
Proof.
  unfold process, init, initYoutubeService, newYoutubeService, newClient, main.
  destruct (String.eqb_spec (flag_discord p) "") as [Hd|Hd]; cbn [orb].
  { split; [discriminate | intros (H & _); now elim H]. }
  destruct (String.eqb_spec (flag_youtube p) "") as [Hy|Hy].
  { split; [discriminate | intros (_ & H & _); now elim H]. }
  destruct (youtube_New p _) as [err|service].
  { split; [discriminate | intros (_ & _ & [s' H] & _); discriminate H]. }
  cbn [DiscordToken].
  destruct (Session_Open p _) as [err|].
  - split; [discriminate | intros (_ & _ & _ & H); discriminate H].
  - split; [intros _ | reflexivity]. repeat split; try assumption. now exists service.
Qed.

(** X16: the gateway is never opened without credentials, nor before
    the handler is registered: every [Open] of a run carries the token
    [Bot ] followed by the non-empty Discord credential, the YouTube
    credential is not empty either, and the events of the run begin
    with the registration of the handler and that [Open]. *)
Theorem open_only_with_credentials (p : Platform) (token : string) :
  In (Open token) (fst (process p)) ->
  token = "Bot " ++ flag_discord p /\
  flag_discord p <> "" /\ flag_youtube p <> "" /\
  exists after, fst (process p) = AddHandler :: Open token :: after.
Proof.
  unfold process, init, initYoutubeService, newYoutubeService, newClient, main.
  destruct (String.eqb_spec (flag_discord p) "") as [Hd|Hd]; cbn [orb].
  { cbn. intros [H|[]]. discriminate H. }
  destruct (String.eqb_spec (flag_youtube p) "") as [Hy|Hy].
  { cbn. intros [H|[]]. discriminate H. }
  destruct (youtube_New p _) as [err|service].
  { cbn. intros [H|[]]. discriminate H. }
  cbn [DiscordToken].
  destruct (Session_Open p _) as [err|]; cbn;
    (intros [H|[H|[H|[]]]]; try discriminate H;
     inversion H; subst token; repeat split; try assumption; eexists; reflexivity).
Qed.

(** ** The timestamp of a card reads back as RFC 3339 *)

Lemma appendInt_two_digits (x : Z) :
  (0 <= x < 100)%Z ->
  exists a b,
    time.appendInt x 2 = String a (String b "") /\
    forall (rest : string) (fixed : bool),
      time.getnum (String a (String b rest)) fixed = Some (x, rest).
Proof.
  intros Hx.
  assert (H : forall n, n < 100 ->
    exists a b,
      time.appendInt (Z.of_nat n) 2 = String a (String b "") /\
      forall (rest : string) (fixed : bool),
        time.getnum (String a (String b rest)) fixed = Some (Z.of_nat n, rest)).
  { intros n Hn.
    do 100 (destruct n as [|n];
            [eexists; eexists; split; [reflexivity | intros rest []; reflexivity]|]).
    lia. }
  destruct (H (Z.to_nat x)) as (a & b & E & G); [lia|].
  rewrite Z2Nat.id in E, G by lia. now exists a, b.
Qed.

Lemma getnum_appendInt (x : Z) (rest : string) (fixed : bool) :
  (0 <= x < 100)%Z ->
  time.getnum (time.appendInt x 2 ++ rest) fixed = Some (x, rest).
Proof.
  intros Hx. destruct (appendInt_two_digits x Hx) as (a & b & -> & G). apply G.
Qed.

(** A check run over the numbers below a bound holds of each of them. *)
Lemma iter_below (P : Z -> bool) (n : positive) :
  snd (Pos.iter (fun st : Z * bool => ((fst st + 1)%Z, snd st && P (fst st)))
                (0%Z, true) n) = true ->
  forall k, (0 <= k < Z.pos n)%Z -> P k = true.
Proof.
  rewrite Pos2Nat.inj_iter. intros H0 k Hk.
  rewrite <- (positive_nat_Z n) in Hk. revert H0 k Hk.
  generalize (Pos.to_nat n) as m. intros m.
  assert (H : fst (nat_rect (fun _ => (Z * bool)%type) (0%Z, true)
                     (fun _ st => ((fst st + 1)%Z, snd st && P (fst st))) m)
              = Z.of_nat m /\
              (snd (nat_rect (fun _ => (Z * bool)%type) (0%Z, true)
                     (fun _ st => ((fst st + 1)%Z, snd st && P (fst st))) m) = true ->
               forall k, (0 <= k < Z.of_nat m)%Z -> P k = true)).
  { induction m as [|m [IH1 IH2]]; [split; [reflexivity | intros _ k Hk; lia]|].
    cbn [nat_rect fst snd]. rewrite IH1. split; [lia|].
    intros H k Hk. apply andb_true_iff in H as [H1 H2].
    destruct (Z.eq_dec k (Z.of_nat m)) as [->|Hne]; [exact H2|].
    apply IH2; [exact H1 | lia]. }
  exact (proj2 H).
Qed.

Lemma appendInt_year (y : Z) :
  (0 <= y <= 9999)%Z ->
  String.length (time.appendInt y 4) = 4 /\
  forallb_string isDigit (time.appendInt y 4) = true /\
  strconv.digits_value 0 (time.appendInt y 4) = y.
Proof.
  intros Hy.
  assert (H : snd (Pos.iter
                (fun st : Z * bool =>
                   ((fst st + 1)%Z,
                    snd st &&
                    (fun n => Nat.eqb (String.length (time.appendInt n 4)) 4
                          && forallb_string isDigit (time.appendInt n 4)
                          && Z.eqb (strconv.digits_value 0 (time.appendInt n 4)) n)
                    (fst st)))
                (0%Z, true) 10000) = true)
    by (vm_compute; reflexivity).
  pose proof (iter_below _ _ H y ltac:(lia)) as Hk. cbv beta in Hk.
  apply andb_true_iff in Hk as [Hk H3]. apply andb_true_iff in Hk as [H1 H2].
  apply Nat.eqb_eq in H1. apply Z.eqb_eq in H3. now repeat split.
Qed.

(** The zone element of a formatted time, read back. *)
Lemma zone_of_offset (offset : Z) :
  (offset mod 60 = 0)%Z -> (-90000 < offset < 90000)%Z ->
  let z := if (offset =? 0)%Z then "Z" else time.numTZ offset ":" in
  time.fraction z = (0%Z, z) /\
  time.zone z = Some (if (offset =? 0)%Z then None else Some offset, "").
Proof.
  intros Hmod Hrange.
  destruct (Z.eqb_spec offset 0) as [->|Hnz]; [now split|].
  cbv zeta. unfold time.numTZ.
  assert (Hq : offset = (60 * Z.quot offset 60)%Z).
  { pose proof (Z.quot_rem' offset 60) as E.
    assert (Z.rem offset 60 = 0)%Z; [|lia].
    apply Z.rem_divide; [lia|]. apply Z.mod_divide; [lia | exact Hmod]. }
  set (q := Z.quot offset 60) in *.
  assert (Hqr : (-1500 < q < 1500)%Z) by lia.
  assert (Hh : (0 <= Z.quot (Z.abs q) 60 < 100)%Z).
  { split; [apply Z.quot_pos; lia | apply Z.quot_lt_upper_bound; lia]. }
  assert (Hm : (0 <= Z.rem (Z.abs q) 60 < 60)%Z) by (apply Z.rem_bound_pos; lia).
  pose proof (Z.quot_rem' (Z.abs q) 60) as Hsplit.
  assert (Hh24 : (Z.quot (Z.abs q) 60 <= 24)%Z).
  { apply Z.lt_succ_r. apply Z.quot_lt_upper_bound; lia. }
  destruct (appendInt_two_digits _ Hh) as (h1 & h2 & -> & Gh).
  destruct (appendInt_two_digits (Z.rem (Z.abs q) 60)) as (m1 & m2 & -> & Gm); [lia|].
  destruct (Z.ltb_spec q 0) as [Hneg|Hpos].
  - split; [reflexivity|].
    cbn [append time.zone]. change (Ascii.eqb "-" "Z") with false.
    change (Ascii.eqb ":" ":") with true. cbn [negb].
    rewrite Gh, Gm.
    replace (24 <? Z.quot (Z.abs q) 60)%Z with false by (symmetry; apply Z.ltb_ge; lia).
    replace (60 <? Z.rem (Z.abs q) 60)%Z with false by (symmetry; apply Z.ltb_ge; lia).
    change (Ascii.eqb "-" "+") with false. change (Ascii.eqb "-" "-") with true.
    cbn [orb]. do 3 f_equal. lia.
  - split; [reflexivity|].
    cbn [append time.zone]. change (Ascii.eqb "+" "Z") with false.
    change (Ascii.eqb ":" ":") with true. cbn [negb].
    rewrite Gh, Gm.
    replace (24 <? Z.quot (Z.abs q) 60)%Z with false by (symmetry; apply Z.ltb_ge; lia).
    replace (60 <? Z.rem (Z.abs q) 60)%Z with false by (symmetry; apply Z.ltb_ge; lia).
    change (Ascii.eqb "+" "+") with true.
    cbn [orb]. do 3 f_equal. lia.
Qed.

Lemma Format_RFC3339_parses (local : Z -> string * Z) (t : time.Time) :
  on_the_calendar t ->
  exists u, time.parse local (time.Format_RFC3339 t) = Some u /\
            same_second u t /\ time.nanosecond u = 0%Z.
Proof.
  intros (Hy & Hmo & Hd & Hh & Hmi & Hs & Hmod & Hoff).
  destruct (appendInt_year _ Hy) as (Ylen & Ydig & Yval).
  destruct (zone_of_offset _ Hmod Hoff) as [Zfrac Zzone]. cbv zeta in Zfrac, Zzone.
  unfold time.Format_RFC3339, time.date_clock.
  set (z := if (time.zone_offset t =? 0)%Z then "Z"
            else time.numTZ (time.zone_offset t) ":") in *.
  rewrite !append_assoc. unfold time.parse.
  rewrite length_app, Ylen. cbn [Nat.add Nat.leb].
  rewrite (slice_to_len 4 _ _ Ylen), (slice_from_len 4 _ _ Ylen), Ydig, Yval.
  cbn [negb andb append].
  next_element. rewrite getnum_appendInt by lia. cbn [time.opt_bind].
  replace ((time.month t <=? 0)%Z || (12 <? time.month t)%Z) with false
    by (symmetry; apply orb_false_iff; split; [apply Z.leb_gt | apply Z.ltb_ge]; lia).
  next_element. rewrite getnum_appendInt.
  2:{ assert (time.daysIn (time.month t) (time.year t) <= 31)%Z; [|lia].
      unfold time.daysIn.
      destruct (_ =? 2)%Z; [destruct (time.isLeap _); lia|].
      destruct (_ || _); lia. }
  next_element. rewrite getnum_appendInt by lia. cbn [time.opt_bind].
  replace (24 <=? time.hour t)%Z with false by (symmetry; apply Z.leb_gt; lia).
  next_element. rewrite getnum_appendInt by lia. cbn [time.opt_bind].
  replace (60 <=? time.minute t)%Z with false by (symmetry; apply Z.leb_gt; lia).
  next_element. rewrite getnum_appendInt by lia. cbn [time.opt_bind].
  replace (60 <=? time.second t)%Z with false by (symmetry; apply Z.leb_gt; lia).
  cbn [time.opt_bind].
  rewrite Zfrac, Zzone. cbn [time.opt_bind String.eqb negb].
  replace ((time.day t <? 1)%Z
           || (time.daysIn (time.month t) (time.year t) <? time.day t)%Z) with false
    by (symmetry; apply orb_false_iff; split; apply Z.ltb_ge; lia).
  destruct (Z.eqb_spec (time.zone_offset t) 0) as [E0|_].
  - eexists. split; [reflexivity|]. unfold same_second. cbn. now rewrite E0.
  - destruct (local _) as [name offset].
    eexists. split; [reflexivity|]. unfold same_second. cbn. now repeat split.
Qed.

Section Timestamp.

Variable Quote : string -> string.
Variable local : Z -> string * Z.

(** Whatever the handler sends first is a card stamped with the
    clock, and no second card follows it. *)
Lemma handler_events (w : World) (m : discordgo.MessageCreate) :
  snd (run (messageHandler Quote local w m)) = [] \/
  exists embed rest,
    snd (run (messageHandler Quote local w m))
    = SendEmbed (discordgo.ChannelID m) embed :: rest /\
    discordgo.Timestamp embed = time.Format_RFC3339 (Now w) /\
    (rest = [] \/ exists err, rest = [LogErrorf "ERROR :" [err]]).
Proof.
  destruct (discordgo.Bot (discordgo.Author m)) eqn:Hbot.
  { left. rewrite filtered_out; auto. }
  destruct (Nat.eq_dec (List.length (strings.Split (discordgo.Content m) " ")) 2)
    as [Hlen|Hlen].
  2:{ left. rewrite filtered_out; auto. }
  destruct (string_dec (nth 0 (strings.Split (discordgo.Content m) " ") "") command)
    as [Hcmd|Hcmd].
  2:{ left. rewrite filtered_out; auto. }
  destruct (passed_filter m Hbot Hlen Hcmd) as [arg Hs].
  rewrite (messageHandler_command Quote local w m arg Hbot Hs).
  assert (Herr : forall e,
    exists embed rest,
      snd (run (let* _ := sendError w m e in ret tt))
      = SendEmbed (discordgo.ChannelID m) embed :: rest /\
      discordgo.Timestamp embed = time.Format_RFC3339 (Now w) /\
      (rest = [] \/ exists err, rest = [LogErrorf "ERROR :" [err]])).
  { intros e. destruct (sendError_run w m e) as (embed & Hrun & _ & _ & _ & Hts & _).
    exists embed, []. unfold run, bindM. rewrite Hrun. cbn. auto. }
  destruct (getVideoID Quote arg) as [e|videoID]; [right; apply Herr|].
  destruct (Videos_List_Do w (list_call videoID)) as [e|resp]; [right; apply Herr|].
  destruct (youtube.Items resp) as [|item [|item' items]];
    cbn [List.length Nat.eqb negb]; [right; apply Herr | | right; apply Herr].
  destruct (mapMetadata local item) as [rec|]; [right | left; reflexivity].
  cbv [run bindM lift sendRecommend emit].
  destruct (ChannelMessageSendEmbed w _ _) as [err|]; cbn;
    eexists; eexists; (split; [reflexivity|]); (split; [reflexivity|]); eauto.
Qed.

(** X17: the timestamp of every card the handler sends is the clock
    in RFC 3339, which reads back to the same second in the same zone
    offset, whenever the clock shows a date of the calendar in a zone
    of whole minutes. *)
Theorem card_timestamp_reads_back
  (w : World) (m : discordgo.MessageCreate) (ch : string)
  (embed : discordgo.MessageEmbed) :
  on_the_calendar (Now w) ->
  In (SendEmbed ch embed) (snd (run (messageHandler Quote local w m))) ->
  exists t,
    time.Parse local (discordgo.Timestamp embed) = (t, None) /\
    same_second t (Now w) /\ time.nanosecond t = 0%Z.
Proof.
  intros Hnow Hin.
  assert (Hts : discordgo.Timestamp embed = time.Format_RFC3339 (Now w)).
  { destruct (handler_events w m) as [E|(e0 & rest & E & Hts & Hrest)];
      rewrite E in Hin; [destruct Hin|].
    destruct Hin as [H|H]; [now inversion H; subst|].
    destruct Hrest as [->|[err ->]]; [destruct H|].
    destruct H as [H|[]]. discriminate H. }
  rewrite Hts.
  destruct (Format_RFC3339_parses local (Now w) Hnow) as (u & Hu & Hsame & Hns).
  exists u. unfold time.Parse. rewrite Hu. auto.
Qed.

End Timestamp.

(** ** The further properties at work on the fixtures *)

Lemma getVideoID_empty_only_bare_prefix_witness :
  getVideoID quote_ascii "https://youtu.be/" = inr "" /\
  getVideoID quote_ascii "https://youtu.be/a" <> inr "".
Proof.
  split.
  - apply getVideoID_empty_only_bare_prefix. reflexivity.
  - intros H. apply getVideoID_empty_only_bare_prefix in H. discriminate H.
Defined.

Lemma getVideoID_control_byte_witness :
  getVideoID quote_ascii ("https://youtu.be/abc" ++ newline)
  = inl (errorString
           ("Failed to parse URL : "
            ++ url.Error_text quote_ascii
                 {| url.Op := "parse";
                    url.Error_URL := "https://youtu.be/abc" ++ newline;
                    url.Err := url.InvalidControlCharacter |})).
Proof.
  exact (getVideoID_control_byte quote_ascii ("https://youtu.be/abc" ++ newline) eq_refl).
Defined.

Lemma getVideoID_v_before_prefix_witness :
  getVideoID quote_ascii ("https://youtu.be/" ++ "abc" ++ "?v=" ++ "xyz" ++ "&t=1")
  = inr "xyz".
Proof.
  apply getVideoID_v_before_prefix.
  - reflexivity.
  - reflexivity.
  - discriminate.
  - split; [right; eexists; reflexivity | split; reflexivity].
Defined.

Lemma command_grammar_witness :
  run (messageHandler quote_ascii utc (world one_found) (message "!rec "))
  <> (Return tt, []).
Proof.
  apply command_grammar. split; [reflexivity|].
  exists "". split; reflexivity.
Defined.

Lemma success_card_in_full_witness :
  exists embed,
    run (messageHandler quote_ascii utc (world one_found)
           (message "!rec https://youtu.be/abc123"))
    = (Return tt, [SendEmbed "c1" embed]) /\
    discordgo.Title embed = "A title" /\
    discordgo.URL embed = "https://www.youtube.com/watch?v=abc123" /\
    discordgo.Timestamp embed = "2021-06-15T12:00:00Z" /\
    map discordgo.Name (discordgo.Fields embed)
    = [ "チャンネル名"; "URL"; "公開日時"; "長さ"; "RECOMMENDED BY" ].
Proof.
  destruct (success_card_in_full quote_ascii utc (world one_found)
              (message "!rec https://youtu.be/abc123") "https://youtu.be/abc123"
              "abc123" {| youtube.Items := [fixture] |} fixture _ _ _ _
              eq_refl eq_refl eq_refl eq_refl eq_refl eq_refl eq_refl eq_refl eq_refl)
    as (embed & Hembed & Hrun).
  exists embed. split; [exact Hrun|].
  rewrite Hembed. repeat split.
Defined.

Lemma fetch_error_card_witness :
  exists embed,
    run (messageHandler quote_ascii utc (world unavailable)
           (message "!rec https://youtu.be/abc123"))
    = (Return tt, [SendEmbed "c1" embed]) /\
    discordgo.Title embed = "ERROR" /\
    discordgo.Description embed = "googleapi: Error 403: quotaExceeded" /\
    discordgo.Color embed = 0xff0000%Z /\
    discordgo.Fields embed
    = [ {| discordgo.Name := "コマンド送信者";
           discordgo.Value := "<@u1>";
           discordgo.Inline := false |} ].
Proof.
  apply (fetch_error_card quote_ascii utc (world unavailable)
           (message "!rec https://youtu.be/abc123") "https://youtu.be/abc123" "abc123"
           (errorString "googleapi: Error 403: quotaExceeded"));
    vm_compute; reflexivity.
Defined.

Lemma not_one_record_not_found_witness :
  exists embed,
    run (messageHandler quote_ascii utc (world two_found)
           (message "!rec https://youtu.be/abc123"))
    = (Return tt, [SendEmbed "c1" embed]) /\
    discordgo.Title embed = "ERROR" /\
    discordgo.Description embed = "Item not found".
Proof.
  apply (not_one_record_not_found quote_ascii utc (world two_found)
           (message "!rec https://youtu.be/abc123") "https://youtu.be/abc123" "abc123"
           {| youtube.Items := [fixture; garbled] |}).
  - reflexivity.
  - vm_compute; reflexivity.
  - vm_compute; reflexivity.
  - reflexivity.
  - cbn. lia.
Defined.

Lemma missing_part_panics_witness :
  run (messageHandler quote_ascii utc (world one_partless)
         (message "!rec https://youtu.be/abc123"))
  = (Panic, []).
Proof.
  apply (missing_part_panics quote_ascii utc (world one_partless)
           (message "!rec https://youtu.be/abc123") "https://youtu.be/abc123" "abc123"
           {| youtube.Items := [partless] |} partless);
    vm_compute; reflexivity.
Defined.

Lemma one_catalog_call_witness :
  run (messageHandler quote_ascii utc (world one_found)
         (message "!rec https://youtu.be/abc123"))
  = run (messageHandler quote_ascii utc selective
           (message "!rec https://youtu.be/abc123")).
Proof.
  apply one_catalog_call.
  - reflexivity.
  - reflexivity.
  - intros arg videoID Hs Hid.
    vm_compute in Hs. inversion Hs; subst arg.
    vm_compute in Hid. inversion Hid; subst videoID.
    reflexivity.
Defined.

Lemma unreadable_fields_render_zero_witness :
  exists embed rest,
    run (messageHandler quote_ascii utc (world one_garbled)
           (message "!rec https://youtu.be/abc123"))
    = (Return tt, SendEmbed "c1" embed :: rest) /\
    discordgo.Color embed = 0x00ff00%Z /\
    map discordgo.Value (discordgo.Fields embed)
    = [ "A channel"; "https://www.youtube.com/channel/UC42";
        "0001-01-01 00:00:00 +0000 UTC"; "0時間0分0秒"; "<@u1>" ].
Proof.
  apply (unreadable_fields_render_zero quote_ascii utc (world one_garbled)
           (message "!rec https://youtu.be/abc123") "https://youtu.be/abc123" "abc123"
           {| youtube.Items := [garbled] |} garbled
           {| youtube.Duration := "1 hour" |} _ _ _
           eq_refl eq_refl eq_refl eq_refl eq_refl eq_refl eq_refl eq_refl eq_refl).
  - intros (y & mo & w & d & t & _ & _ & _ & _ & _ & E). discriminate E.
  - vm_compute. discriminate.
Defined.

Lemma bare_identifier_command_witness :
  exists embed,
    run (messageHandler quote_ascii utc (world one_found) (message "!rec dQw4w9WgXcQ"))
    = (Return tt, [SendEmbed "c1" embed]) /\
    discordgo.Title embed = "ERROR" /\
    discordgo.Description embed = "URL Schema not valid".
Proof.
  apply (bare_identifier_command quote_ascii utc (world one_found)
           (message "!rec dQw4w9WgXcQ") "dQw4w9WgXcQ"); reflexivity.
Defined.

Lemma card_link_round_trip_witness :
  exists rec,
    mapMetadata utc fixture = Return rec /\
    getVideoID quote_ascii (URL rec) = inr "abc123".
Proof.
  destruct (mapMetadata utc fixture) as [rec|] eqn:E;
    [|vm_compute in E; discriminate E].
  exists rec. split; [reflexivity|].
  apply (card_link_round_trip quote_ascii utc fixture rec E).
  - reflexivity.
  - discriminate.
Defined.

Lemma mapped_duration_fits_witness :
  exists rec,
    mapMetadata utc overlong = Return rec /\
    components_fit (duration rec).
Proof.
  destruct (mapMetadata utc overlong) as [rec|] eqn:E;
    [|vm_compute in E; discriminate E].
  exists rec. split; [reflexivity|].
  exact (mapped_duration_fits utc overlong rec E).
Defined.

Lemma process_waits_iff_witness :
  snd (process (platform "token" "key")) = Waits /\
  snd (process (platform "" "key")) <> Waits.
Proof.
  split.
  - apply process_waits_iff. repeat split.
    + discriminate.
    + discriminate.
    + eexists. reflexivity.
  - intros H. apply process_waits_iff in H. destruct H as (H & _). now apply H.
Defined.

Lemma open_only_with_credentials_witness :
  "Bot token" = "Bot " ++ flag_discord (platform "token" "key") /\
  flag_discord (platform "token" "key") <> "" /\
  flag_youtube (platform "token" "key") <> "" /\
  exists after,
    fst (process (platform "token" "key")) = AddHandler :: Open "Bot token" :: after.
Proof.
  apply open_only_with_credentials.
  cbn. right. left. reflexivity.
Defined.

Lemma card_timestamp_reads_back_witness :
  exists embed t,
    snd (run (messageHandler quote_ascii utc (world one_found)
                (message "!rec https://youtu.be/abc123")))
    = [SendEmbed "c1" embed] /\
    time.Parse utc (discordgo.Timestamp embed) = (t, None) /\
    same_second t noon.
Proof.
  assert (H : exists embed,
            snd (run (messageHandler quote_ascii utc (world one_found)
                        (message "!rec https://youtu.be/abc123")))
            = [SendEmbed "c1" embed]).
  { eexists. vm_compute. reflexivity. }
  destruct H as [embed H].
  destruct (card_timestamp_reads_back quote_ascii utc (world one_found)
              (message "!rec https://youtu.be/abc123") "c1" embed)
    as (t & Ht & Hs & _).
  - unfold on_the_calendar, noon. cbn. lia.
  - rewrite H. left. reflexivity.
  - exists embed, t. auto.
Defined.
